(** * Simply-FRP-GUI-Client: configuration layer and process supervisor

    A shallow embedding of [electron/config-manager.ts] (validation,
    rendering of [frpc.toml], export), of the configuration preview of
    [src/components/Settings.tsx] and of [electron/frpc-manager.ts] (the
    supervisor of the [frpc] child process with its reconnect policy),
    followed by the properties proved about them.

    Conventions of the embedding:
    - a JavaScript [number] holding a port, a counter or a delay is a [Z];
    - a JavaScript string is a [string], read as its UTF-8 bytes;
    - the object fields of a class become the fields of a record, and a
      method becomes a function from the record to the new record;
    - what a method does to the outside world (events emitted, notifications,
      processes spawned, timers armed) is appended to a trace of [Effect]s. *)

From Stdlib Require Import ZArith List String Ascii Bool Lia Sorted.
From Stdlib Require Import DecimalString DecimalZ DecimalPos FinFun.
Import ListNotations.
Local Open Scope string_scope.
Local Open Scope Z_scope.

(** ** The fragments of the JavaScript runtime the code relies on *)

Module JS.

(** The double quote and the line feed, built from their codes. *)
Definition dq : string := String (ascii_of_nat 34) EmptyString.
Definition nl : string := String (ascii_of_nat 10) EmptyString.

(** [`${n}`] for a number [n] that is a safe integer (of magnitude at most
    2^53 - 1): its decimal digits.  Beyond, numbers are no longer exact,
    and from 10^21 on the runtime writes an exponent. *)
Definition show (n : Z) : string := NilZero.string_of_int (Z.to_int n).

(** [`"${s}"`]: the text of [s] between two double quotes, unescaped. *)
Definition quoted (s : string) : string := dq ++ s ++ dq.

(** [Array.prototype.join]. *)
Definition join (sep : string) (l : list string) : string :=
  String.concat sep l.

(** [String.prototype.includes]. *)
Fixpoint includes (s sub : string) : bool :=
  prefix sub s ||
  match s with
  | EmptyString => false
  | String _ rest => includes rest sub
  end.

(** Truthiness of a string and of a number. *)
Definition truthy_str (s : string) : bool := negb (s =? "")%string.
Definition truthy_num (n : Z) : bool := negb (n =? 0).

(** [Array.prototype.indexOf] on numbers: first position, or -1. *)
Fixpoint indexOf_from (l : list Z) (x : Z) (i : Z) : Z :=
  match l with
  | [] => -1
  | y :: rest => if y =? x then i else indexOf_from rest x (i + 1)
  end.
Definition indexOf (l : list Z) (x : Z) : Z := indexOf_from l x 0.

(** [Array.prototype.filter] with the two-argument callback
    [(element, index) => ...]. *)
Fixpoint filteri_from {A} (f : A -> Z -> bool) (l : list A) (i : Z) : list A :=
  match l with
  | [] => []
  | x :: rest =>
      if f x i then x :: filteri_from f rest (i + 1)
      else filteri_from f rest (i + 1)
  end.
Definition filteri {A} (f : A -> Z -> bool) (l : list A) : list A :=
  filteri_from f l 0.

(** [[...new Set(l)]]: the elements of [l] in order of first insertion. *)
Definition mem (x : Z) (l : list Z) : bool := existsb (Z.eqb x) l.
Definition set_add (acc : list Z) (x : Z) : list Z :=
  if mem x acc then acc else acc ++ [x].
Definition set_of (l : list Z) : list Z := fold_left set_add l [].

(** JSON values and [JSON.stringify(value, null, 2)]. *)
#[local] Unset Elimination Schemes.
Inductive json : Type :=
| JBool (b : bool)
| JNum (n : Z)
| JStr (s : string)
| JArr (items : list json)
| JObj (props : list (string * json)).
#[local] Set Elimination Schemes.

Definition hex_digit (n : nat) : string :=
  String (nth n (list_ascii_of_string "0123456789abcdef") "0"%char) EmptyString.

Definition escape_char (c : ascii) : string :=
  let n := nat_of_ascii c in
  if (n =? 34)%nat then "\" ++ dq
  else if (n =? 92)%nat then "\\"
  else if (n =? 8)%nat then "\b"
  else if (n =? 9)%nat then "\t"
  else if (n =? 10)%nat then "\n"
  else if (n =? 12)%nat then "\f"
  else if (n =? 13)%nat then "\r"
  else if (n <? 32)%nat then "\u00" ++ hex_digit (n / 16) ++ hex_digit (n mod 16)
  else String c EmptyString.

Fixpoint escape (s : string) : string :=
  match s with
  | EmptyString => EmptyString
  | String c rest => escape_char c ++ escape rest
  end.

Definition quoteJSON (s : string) : string := dq ++ escape s ++ dq.

Definition gap : string := "  ".

Fixpoint stringify_at (indent : string) (v : json) : string :=
  let inner := indent ++ gap in
  let sep := "," ++ nl ++ inner in
  match v with
  | JBool true => "true"
  | JBool false => "false"
  | JNum n => show n
  | JStr s => quoteJSON s
  | JArr [] => "[]"
  | JArr items =>
      "[" ++ nl ++ inner ++ join sep (map (stringify_at inner) items)
          ++ nl ++ indent ++ "]"
  | JObj [] => "{}"
  | JObj props =>
      "{" ++ nl ++ inner
          ++ join sep (map (fun kv => quoteJSON (fst kv) ++ ": "
                                        ++ stringify_at inner (snd kv)) props)
          ++ nl ++ indent ++ "}"
  end.

Definition stringify (v : json) : string := stringify_at EmptyString v.

End JS.

(** ** electron/config-manager.ts *)

Module ConfigManager.
Import JS.

(** [type: 'tcp']: the single protocol kind. *)
Inductive TunnelType : Type := tcp.

Definition type_text (k : TunnelType) : string :=
  match k with tcp => "tcp" end.

(** [interface Tunnel].  [enabled] is [None] for an object that carries no
    such property (the code tests [t.enabled !== false] throughout). *)
Record Tunnel : Type := mkTunnel {
  id : string;
  name : string;
  type : TunnelType;
  localIP : string;
  localPort : Z;
  remotePort : Z;
  enabled : option bool
}.

(** [interface AppConfig]. *)
Record AppConfig : Type := mkConfig {
  serverAddr : string;
  serverPort : Z;
  authToken : string;
  remotePortMin : Z;
  remotePortMax : Z;
  autoStart : bool;
  tunnels : list Tunnel
}.

Definition DEFAULT_CONFIG : AppConfig :=
  mkConfig "" 7000 "" 6000 6100 false [].

(** [t.enabled !== false]. *)
Definition is_enabled (t : Tunnel) : bool :=
  match enabled t with
  | Some false => false
  | _ => true
  end.

(** The five lines of the global section. *)
Definition global_lines (addr : string) (port : Z) (token : string)
  : list string :=
  [ "serverAddr = " ++ quoted addr;
    "serverPort = " ++ show port;
    "";
    "auth.method = " ++ quoted "token";
    "auth.token = " ++ quoted token ].

(** The seven lines pushed for one tunnel of the loop. *)
Definition proxy_lines (t : Tunnel) : list string :=
  [ "";
    "[[proxies]]";
    "name = " ++ quoted (name t);
    "type = " ++ quoted (type_text (type t));
    "localIP = " ++ quoted (localIP t);
    "localPort = " ++ show (localPort t);
    "remotePort = " ++ show (remotePort t) ].

(** The array [lines] of [generateFrpcConfig] when the loop ends. *)
Definition frpc_lines (c : AppConfig) : list string :=
  let enabledTunnels := filter is_enabled (tunnels c) in
  global_lines (serverAddr c) (serverPort c) (authToken c)
    ++ flat_map proxy_lines enabledTunnels.

Definition generateFrpcConfig (c : AppConfig) : string :=
  join nl (frpc_lines c).

(** [validateConfig]. *)
Record Validation : Type := mkValidation {
  valid : bool;
  errors : list string
}.

Definition port_out_of_range (p : Z) : bool := (p <? 1) || (p >? 65535).

Definition remotePorts (c : AppConfig) : list Z := map remotePort (tunnels c).

Definition duplicates (c : AppConfig) : list Z :=
  filteri (fun port index => negb (indexOf (remotePorts c) port =? index))
          (remotePorts c).

Definition duplicate_error (c : AppConfig) : string :=
  "Duplicate remote ports: " ++ join ", " (map show (set_of (duplicates c))).

Definition tunnel_errors (t : Tunnel) : list string :=
  (if port_out_of_range (localPort t)
   then ["Tunnel " ++ quoted (name t) ++ ": local port must be between 1 and 65535"]
   else [])
  ++
  (if port_out_of_range (remotePort t)
   then ["Tunnel " ++ quoted (name t) ++ ": remote port must be between 1 and 65535"]
   else []).

Definition server_errors (c : AppConfig) : list string :=
  (if negb (truthy_str (serverAddr c))
   then ["Server address is required"] else [])
  ++
  (if negb (truthy_num (serverPort c)) || port_out_of_range (serverPort c)
   then ["Server port must be between 1 and 65535"] else [])
  ++
  (if negb (truthy_str (authToken c))
   then ["Auth token is required"] else []).

Definition validation_errors (c : AppConfig) : list string :=
  server_errors c
  ++ (if (0 <? Z.of_nat (List.length (duplicates c)))
      then [duplicate_error c] else [])
  ++ flat_map tunnel_errors (tunnels c).

Definition validateConfig (c : AppConfig) : Validation :=
  let errors := validation_errors c in
  mkValidation (Z.of_nat (List.length errors) =? 0) errors.

(** [exportConfig].  [JSON.stringify] writes the properties of an object in
    the order of their insertion.  A tunnel is written in the order of the
    objects that [addTunnel] builds from what the form saves, [{ ...tunnel,
    id, enabled }]: the properties of the form's object, which end with
    [enabled], then [id]; a property that is absent is not written.  A
    tunnel read from a file keeps the order of the file, which the record
    does not hold. *)
Definition tunnel_json (t : Tunnel) : json :=
  JObj ([ ("name", JStr (name t));
          ("type", JStr (type_text (type t)));
          ("localIP", JStr (localIP t));
          ("localPort", JNum (localPort t));
          ("remotePort", JNum (remotePort t)) ]
        ++ match enabled t with
           | Some b => [("enabled", JBool b)]
           | None => []
           end
        ++ [ ("id", JStr (id t)) ]).

Definition exportData (c : AppConfig) : json :=
  JObj [ ("serverAddr", JStr (serverAddr c));
         ("serverPort", JNum (serverPort c));
         ("remotePortMin", JNum (remotePortMin c));
         ("remotePortMax", JNum (remotePortMax c));
         ("autoStart", JBool (autoStart c));
         ("tunnels", JArr (map tunnel_json (tunnels c))) ].

Definition exportConfig (c : AppConfig) : string :=
  stringify (exportData c).

(** [saveConfig({ authToken })] on the in-memory configuration. *)
Definition with_authToken (c : AppConfig) (token : string) : AppConfig :=
  mkConfig (serverAddr c) (serverPort c) token (remotePortMin c)
           (remotePortMax c) (autoStart c) (tunnels c).

(** *** The operations that change the configuration

    The manager holds the configuration in memory and mirrors it in
    [config.json].  [A || d] on a property that may be absent: *)
Definition or_else {A : Type} (o : option A) (d : A) : A :=
  match o with
  | Some x => x
  | None => d
  end.

Definition truthy_opt_str (o : option string) : bool :=
  match o with
  | Some s => truthy_str s
  | None => false
  end.

Definition truthy_opt_num (o : option Z) : bool :=
  match o with
  | Some n => truthy_num n
  | None => false
  end.

(** [interface StoredConfig], as [JSON.parse] returns it: a property is
    [None] when the file does not carry it. *)
Record StoredConfig : Type := mkStored {
  s_serverAddr : option string;
  s_serverPort : option Z;
  s_encryptedToken : option string;
  s_authToken : option string;
  s_remotePortMin : option Z;
  s_remotePortMax : option Z;
  s_autoStart : option bool;
  s_tunnels : option (list Tunnel)
}.

(** [config.json]: absent, holding what [loadConfig] cannot read (text that
    is not JSON, or [null]), or holding a stored configuration. *)
Inductive File : Type :=
| Missing
| Unreadable
| Holding (stored : StoredConfig).

(** What a [saveConfigToFile] that throws leaves of [config.json].
    [writeFileSync] opens the file with the flag ['w'], which truncates it:
    when the opening fails the file is untouched; when the writing fails
    (no space left, an input/output error) the file is cut, empty or holding
    the beginning of the text, which is no JSON; when [chmodSync] fails the
    file is written. *)
Inductive Damage : Type := Untouched | Cut | Written.

(** Electron's [safeStorage] and the file system.  [encryptString] is
    [safeStorage.encryptString(s).toString('base64')], taken not to throw;
    [decryptString] is [safeStorage.decryptString(Buffer.from(s, 'base64'))],
    [None] when it throws; [write_throws] is the error that [writeFileSync]
    or [chmodSync] throws, if one does, and [left_by_failure] is what the
    file is left as in that case. *)
Record System : Type := mkSystem {
  isEncryptionAvailable : bool;
  encryptString : string -> string;
  decryptString : string -> option string;
  write_throws : option string;
  left_by_failure : Damage
}.

(** The manager: its [config] field and the file behind it. *)
Record Store : Type := mkStore {
  config : AppConfig;
  file : File
}.

(** What a method returns, or that it throws. *)
Inductive Result (A : Type) : Type :=
| Returned (a : A)
| Thrown (message : string).
Arguments Returned {A} a.
Arguments Thrown {A} message.

(** [loadConfig]. *)
Definition loadConfig (sys : System) (f : File) : AppConfig :=
  match f with
  | Missing => DEFAULT_CONFIG
  | Unreadable => DEFAULT_CONFIG
  | Holding stored =>
      let authToken :=
        if truthy_opt_str (s_encryptedToken stored) && isEncryptionAvailable sys
        then match decryptString sys (or_else (s_encryptedToken stored) "") with
             | Some token => token
             | None => ""
             end
        else if truthy_opt_str (s_authToken stored)
             then or_else (s_authToken stored) ""
             else "" in
      mkConfig
        (if truthy_opt_str (s_serverAddr stored)
         then or_else (s_serverAddr stored) "" else "")
        (if truthy_opt_num (s_serverPort stored)
         then or_else (s_serverPort stored) 0 else 7000)
        authToken
        (if truthy_opt_num (s_remotePortMin stored)
         then or_else (s_remotePortMin stored) 0 else 6000)
        (if truthy_opt_num (s_remotePortMax stored)
         then or_else (s_remotePortMax stored) 0 else 6100)
        (or_else (s_autoStart stored) false)
        (or_else (s_tunnels stored) [])
  end.

(** The manager that the constructor builds, in a process that has built
    none before: [{ ...DEFAULT_CONFIG }] shares the array [tunnels] of
    [DEFAULT_CONFIG], on which [addTunnel] pushes, and here that array is
    empty as declared. *)
Definition new_store (sys : System) (f : File) : Store :=
  mkStore (loadConfig sys f) f.

(** The object [stored] of [saveConfigToFile]. *)
Definition stored_of (sys : System) (c : AppConfig) : StoredConfig :=
  mkStored
    (Some (serverAddr c))
    (Some (serverPort c))
    (if truthy_str (authToken c) && isEncryptionAvailable sys
     then Some (encryptString sys (authToken c)) else None)
    None
    (Some (remotePortMin c))
    (Some (remotePortMax c))
    (Some (autoStart c))
    (Some (tunnels c)).

(** What the file holds after a write of the configuration [c] that threw,
    [f] being what it held before. *)
Definition failed_write (sys : System) (c : AppConfig) (f : File) : File :=
  match left_by_failure sys with
  | Untouched => f
  | Cut => Unreadable
  | Written => Holding (stored_of sys c)
  end.

(** [saveConfigToFile]: the file afterwards, and the error that the method
    rethrows, if any. *)
Definition saveConfigToFile (sys : System) (st : Store)
  : Store * option string :=
  match write_throws sys with
  | Some thrown =>
      (mkStore (config st) (failed_write sys (config st) (file st)),
       Some thrown)
  | None => (mkStore (config st) (Holding (stored_of sys (config st))), None)
  end.

(** A method that ends with [this.saveConfigToFile()] and returns [a]. *)
Definition saved {A : Type} (sys : System) (st : Store) (a : A)
  : Store * Result A :=
  let (st', thrown) := saveConfigToFile sys st in
  (st', match thrown with
        | Some message => Thrown message
        | None => Returned a
        end).

Definition with_tunnels (c : AppConfig) (ts : list Tunnel) : AppConfig :=
  mkConfig (serverAddr c) (serverPort c) (authToken c) (remotePortMin c)
           (remotePortMax c) (autoStart c) ts.

(** [Partial<AppConfig>]. *)
Record ConfigUpdate : Type := mkConfigUpdate {
  c_serverAddr : option string;
  c_serverPort : option Z;
  c_authToken : option string;
  c_remotePortMin : option Z;
  c_remotePortMax : option Z;
  c_autoStart : option bool;
  c_tunnels : option (list Tunnel)
}.

(** [{ ...this.config, ...updates }]. *)
Definition merge_config (c : AppConfig) (u : ConfigUpdate) : AppConfig :=
  mkConfig (or_else (c_serverAddr u) (serverAddr c))
           (or_else (c_serverPort u) (serverPort c))
           (or_else (c_authToken u) (authToken c))
           (or_else (c_remotePortMin u) (remotePortMin c))
           (or_else (c_remotePortMax u) (remotePortMax c))
           (or_else (c_autoStart u) (autoStart c))
           (or_else (c_tunnels u) (tunnels c)).

(** [saveConfig]. *)
Definition saveConfig (sys : System) (u : ConfigUpdate) (st : Store)
  : Store * Result unit :=
  saved sys (mkStore (merge_config (config st) u) (file st)) tt.

(** [Omit<Tunnel, 'id'>]. *)
Record NewTunnel : Type := mkNewTunnel {
  n_name : string;
  n_type : TunnelType;
  n_localIP : string;
  n_localPort : Z;
  n_remotePort : Z;
  n_enabled : option bool
}.

(** [addTunnel]; [uuid] is what [randomUUID()] returns. *)
Definition addTunnel (sys : System) (uuid : string) (tunnel : NewTunnel)
           (st : Store) : Store * Result Tunnel :=
  let enabled := match n_enabled tunnel with Some b => b | None => true end in
  let name := if negb (truthy_str (n_name tunnel))
              then "tcp-" ++ show (n_localPort tunnel)
              else n_name tunnel in
  let newTunnel :=
    mkTunnel uuid name (n_type tunnel) (n_localIP tunnel) (n_localPort tunnel)
             (n_remotePort tunnel) (Some enabled) in
  saved sys
        (mkStore (with_tunnels (config st) (tunnels (config st) ++ [newTunnel]))
                 (file st))
        newTunnel.

(** [Array.prototype.findIndex] with [t => t.id === id]; [None] is -1. *)
Fixpoint findIndex (i : string) (ts : list Tunnel) : option nat :=
  match ts with
  | [] => None
  | t :: rest =>
      if (id t =? i)%string then Some O
      else option_map S (findIndex i rest)
  end.

(** [Partial<Tunnel>]. *)
Record TunnelUpdate : Type := mkTunnelUpdate {
  u_id : option string;
  u_name : option string;
  u_type : option TunnelType;
  u_localIP : option string;
  u_localPort : option Z;
  u_remotePort : option Z;
  u_enabled : option bool
}.

(** [{ ...tunnel, ...updates }]. *)
Definition merge_tunnel (t : Tunnel) (u : TunnelUpdate) : Tunnel :=
  mkTunnel (or_else (u_id u) (id t))
           (or_else (u_name u) (name t))
           (or_else (u_type u) (type t))
           (or_else (u_localIP u) (localIP t))
           (or_else (u_localPort u) (localPort t))
           (or_else (u_remotePort u) (remotePort t))
           (match u_enabled u with Some b => Some b | None => enabled t end).

(** [tunnels[index] = tunnel]. *)
Fixpoint assign (index : nat) (tunnel : Tunnel) (ts : list Tunnel)
  : list Tunnel :=
  match ts, index with
  | [], _ => []
  | _ :: rest, O => tunnel :: rest
  | t :: rest, S k => t :: assign k tunnel rest
  end.

(** [tunnels.splice(index, 1)]. *)
Fixpoint splice1 (index : nat) (ts : list Tunnel) : list Tunnel :=
  match ts, index with
  | [], _ => []
  | _ :: rest, O => rest
  | t :: rest, S k => t :: splice1 k rest
  end.

Definition not_found (i : string) : string :=
  "Tunnel with id " ++ i ++ " not found".

(** [updateTunnel]. *)
Definition updateTunnel (sys : System) (i : string) (updates : TunnelUpdate)
           (st : Store) : Store * Result Tunnel :=
  match findIndex i (tunnels (config st)) with
  | None => (st, Thrown (not_found i))
  | Some index =>
      match nth_error (tunnels (config st)) index with
      | None => (st, Thrown (not_found i))
      | Some old =>
          let tunnel := merge_tunnel old updates in
          saved sys
                (mkStore (with_tunnels (config st)
                                       (assign index tunnel (tunnels (config st))))
                         (file st))
                tunnel
      end
  end.

(** [removeTunnel]. *)
Definition removeTunnel (sys : System) (i : string) (st : Store)
  : Store * Result unit :=
  match findIndex i (tunnels (config st)) with
  | None => (st, Thrown (not_found i))
  | Some index =>
      saved sys
            (mkStore (with_tunnels (config st)
                                   (splice1 index (tunnels (config st))))
                     (file st))
            tt
  end.

(** What [JSON.parse(jsonData)] returns, for [importConfig]: it throws (the
    text is not JSON; a document that is [null] makes the first property
    access throw likewise), or it returns a document, of which a property is
    [Some] when the document carries it with the type that [AppConfig] gives
    it.  Documents that carry a property with another type are outside this
    embedding. *)
Record Document : Type := mkDocument {
  d_serverAddr : option string;
  d_serverPort : option Z;
  d_remotePortMin : option Z;
  d_remotePortMax : option Z;
  d_autoStart : option bool;
  d_tunnels : option (list Tunnel)
}.

Inductive Parsed : Type :=
| Parse_throws
| Parse_returns (imported : Document).

(** [{ success, error? }]. *)
Record Report : Type := mkReport {
  success : bool;
  error : option string
}.

(** [importConfig]; a [saveConfigToFile] that throws is caught by the same
    handler as a parse error. *)
Definition importConfig (sys : System) (parsed : Parsed) (st : Store)
  : Store * Report :=
  match parsed with
  | Parse_throws => (st, mkReport false (Some "Invalid JSON format"))
  | Parse_returns imported =>
      match d_serverAddr imported with
      | None => (st, mkReport false (Some "Invalid server address"))
      | Some addr =>
          let c := config st in
          let c' :=
            mkConfig
              (if truthy_str addr then addr else serverAddr c)
              (if truthy_opt_num (d_serverPort imported)
               then or_else (d_serverPort imported) 0 else serverPort c)
              (authToken c)
              (if truthy_opt_num (d_remotePortMin imported)
               then or_else (d_remotePortMin imported) 0 else remotePortMin c)
              (if truthy_opt_num (d_remotePortMax imported)
               then or_else (d_remotePortMax imported) 0 else remotePortMax c)
              (or_else (d_autoStart imported) (autoStart c))
              (or_else (d_tunnels imported) (tunnels c)) in
          let (st', thrown) := saveConfigToFile sys (mkStore c' (file st)) in
          (st', match thrown with
                | None => mkReport true None
                | Some _ => mkReport false (Some "Invalid JSON format")
                end)
      end
  end.

End ConfigManager.

(** ** src/components/Settings.tsx: the configuration preview *)

Module Settings.
Import JS ConfigManager.

(** The state of the component that the preview reads: the three edited
    fields, the show-token toggle, and the [config] property. *)
Record State : Type := mkState {
  serverAddr : string;
  serverPort : Z;
  authToken : string;
  showToken : bool;
  config : AppConfig
}.

(** The state after the [useState] initialisers have run. *)
Definition initial (c : AppConfig) : State :=
  mkState (ConfigManager.serverAddr c) (ConfigManager.serverPort c)
          (ConfigManager.authToken c) false c.

Definition mask : string := "••••••••••••".

Definition maskedToken (s : State) : string :=
  if showToken s then authToken s
  else if truthy_str (authToken s) then mask else "".

Definition preview_lines (s : State) : list string :=
  let enabledTunnels := filter is_enabled (tunnels (config s)) in
  global_lines (serverAddr s) (serverPort s) (maskedToken s)
    ++ flat_map proxy_lines enabledTunnels.

Definition generateConfigPreview (s : State) : string :=
  join nl (preview_lines s).

End Settings.

(** ** electron/frpc-manager.ts *)

Module FrpcManager.
Import JS ConfigManager.

Inductive Status : Type := running | stopped.
Inductive Signal : Type := SIGTERM | SIGKILL.

(** What a pending timeout does when it fires: the callback of
    [handleDisconnect] calls [start()], the callback of [stop()] kills the
    process by force. *)
Inductive TimerAction : Type := Reconnect | ForceKill.

(** The calls the supervisor makes to its collaborators, in the order in
    which it makes them.  [ShowNotification] is the call
    [this.showNotification(title, body)], which hands the notification to
    the desktop where the desktop supports it.  [Emit_error] is
    [this.emit('error', ...)]; electron/main.ts registers a listener for it,
    so the call returns. *)
Inductive Effect : Type :=
| Emit_log (line : string)
| Emit_error (message : string)
| Emit_status (s : Status)
| ShowNotification (title body : string)
| WriteFile (path content : string)
| Spawn (child : nat) (command : string) (args : list string)
| Kill (child : nat) (sig : Signal)
| SetTimeout (timer : nat) (action : TimerAction) (delay : Z)
| ClearTimeout (timer : nat).

(** The private fields of the class.  [maxReconnectAttempts] and
    [reconnectDelay] are assigned by their initialisers only. *)
Record Manager : Type := mkManager {
  process : option nat;
  lastError : option string;
  autoReconnect : bool;
  reconnectAttempts : Z;
  reconnectTimer : option nat;
  intentionallyStopped : bool
}.

Definition maxReconnectAttempts : Z := 5.
Definition reconnectDelay : Z := 5000.

(** What the listeners registered on one child process have captured:
    [connected], the local variable of the [start()] call that spawned it,
    and the force-kill timers of the [once('exit')] listeners that calls of
    [stop()] have added. *)
Record Child : Type := mkChild {
  connected : bool;
  exitOnce : list nat
}.

(** The supervisor, the configuration its [configManager] holds, the child
    processes spawned so far (a process handle is a position in this list),
    the timeouts that are pending, and the trace. *)
Record World : Type := mkWorld {
  this : Manager;
  config : AppConfig;
  children : list Child;
  timers : list (nat * (TimerAction * Z));
  next_timer : nat;
  trace : list Effect
}.

(** What the operating system answers during one call of [start()]. *)
Record Env : Type := mkEnv {
  existsSync : string -> bool;
  frpcConfigPath : string;
  writeFileSync_throws : bool;
  spawn_throws : option string
}.

(** How a promise returned by [start()] or [stop()] stands when the call
    returns. *)
Inductive Outcome : Type := Resolved (b : bool) | Pending | Rejected.

Definition new_manager : Manager := mkManager None None true 0 None false.

Definition new_world (c : AppConfig) : World :=
  mkWorld new_manager c [] [] 0 [].

(** *** Assignments *)

Definition on_this (f : Manager -> Manager) (w : World) : World :=
  mkWorld (f (this w)) (config w) (children w) (timers w) (next_timer w)
          (trace w).

Definition set_process (p : option nat) : World -> World :=
  on_this (fun m => mkManager p (lastError m) (autoReconnect m)
                      (reconnectAttempts m) (reconnectTimer m)
                      (intentionallyStopped m)).
Definition set_lastError (e : option string) : World -> World :=
  on_this (fun m => mkManager (process m) e (autoReconnect m)
                      (reconnectAttempts m) (reconnectTimer m)
                      (intentionallyStopped m)).
Definition set_autoReconnect (b : bool) : World -> World :=
  on_this (fun m => mkManager (process m) (lastError m) b
                      (reconnectAttempts m) (reconnectTimer m)
                      (intentionallyStopped m)).
Definition set_reconnectAttempts (n : Z) : World -> World :=
  on_this (fun m => mkManager (process m) (lastError m) (autoReconnect m)
                      n (reconnectTimer m) (intentionallyStopped m)).
Definition set_reconnectTimer (t : option nat) : World -> World :=
  on_this (fun m => mkManager (process m) (lastError m) (autoReconnect m)
                      (reconnectAttempts m) t (intentionallyStopped m)).
Definition set_intentionallyStopped (b : bool) : World -> World :=
  on_this (fun m => mkManager (process m) (lastError m) (autoReconnect m)
                      (reconnectAttempts m) (reconnectTimer m) b).

Definition set_children (cs : list Child) (w : World) : World :=
  mkWorld (this w) (config w) cs (timers w) (next_timer w) (trace w).

Definition effect (e : Effect) (w : World) : World :=
  mkWorld (this w) (config w) (children w) (timers w) (next_timer w)
          (trace w ++ [e]).

(** *** Timers *)

Definition unschedule (t : nat) (l : list (nat * (TimerAction * Z)))
  : list (nat * (TimerAction * Z)) :=
  filter (fun p => negb (fst p =? t)%nat) l.

Definition pending (t : nat) (w : World) : option (TimerAction * Z) :=
  option_map snd (find (fun p => (fst p =? t)%nat) (timers w)).

(** [setTimeout(callback, delay)], returning the new timer. *)
Definition setTimeout (a : TimerAction) (delay : Z) (w : World)
  : World * nat :=
  let t := next_timer w in
  (mkWorld (this w) (config w) (children w) (timers w ++ [(t, (a, delay))])
           (S t) (trace w ++ [SetTimeout t a delay]),
   t).

Definition clearTimeout (t : nat) (w : World) : World :=
  mkWorld (this w) (config w) (children w) (unschedule t (timers w))
          (next_timer w) (trace w ++ [ClearTimeout t]).

(** A timer that fires is no longer pending. *)
Definition expire (t : nat) (w : World) : World :=
  mkWorld (this w) (config w) (children w) (unschedule t (timers w))
          (next_timer w) (trace w).

(** [if (this.reconnectTimer) { clearTimeout(...); this.reconnectTimer = null }] *)
Definition clear_reconnectTimer (w : World) : World :=
  match reconnectTimer (this w) with
  | Some t => set_reconnectTimer None (clearTimeout t w)
  | None => w
  end.

(** *** findFrpcBinary

    The result has the type [string | null] of the source; [None] is null. *)

Definition locations : list string :=
  [ "/usr/local/bin/frpc"; "/usr/bin/frpc"; "/opt/frp-gui/frpc/frpc"; "frpc" ].

Definition findFrpcBinary (env : Env) : option string :=
  match find (fun loc => (loc =? "frpc")%string || existsSync env loc)
             locations with
  | Some loc => Some loc
  | None => Some "frpc"
  end.

(** *** handleDisconnect

    The delay is a multiple of 5000, so [delay / 1000] in the log line is an
    exact division. *)

Definition handleDisconnect (w : World) : World :=
  if intentionallyStopped (this w) || negb (autoReconnect (this w)) then w
  else if reconnectAttempts (this w) >=? maxReconnectAttempts then
    let w := effect (Emit_log ("[GUI] Max reconnect attempts ("
                                 ++ show maxReconnectAttempts ++ ") reached")) w in
    effect (ShowNotification "FRP Reconnect Failed"
                             "Max reconnection attempts reached") w
  else
    let w := set_reconnectAttempts (reconnectAttempts (this w) + 1) w in
    let delay := reconnectDelay * reconnectAttempts (this w) in
    let w := effect (Emit_log ("[GUI] Attempting reconnect in "
                                 ++ show (delay / 1000) ++ "s (attempt "
                                 ++ show (reconnectAttempts (this w)) ++ "/"
                                 ++ show maxReconnectAttempts ++ ")")) w in
    let (w, t) := setTimeout Reconnect delay w in
    set_reconnectTimer (Some t) w.

(** *** start *)

Definition binary_not_found (w : World) : World * Outcome :=
  let message := "frpc binary not found. Please install FRP." in
  let w := set_lastError (Some message) w in
  (effect (Emit_error message) w, Resolved false).

Definition start (env : Env) (w : World) : World * Outcome :=
  match process (this w) with
  | Some _ =>
      (effect (Emit_log "[GUI] FRP client is already running") w, Resolved true)
  | None =>
      let w := clear_reconnectTimer w in
      let w := set_intentionallyStopped false w in
      let validation := validateConfig (config w) in
      if negb (valid validation) then
        let message := join "; " (errors validation) in
        let w := set_lastError (Some message) w in
        (effect (Emit_error message) w, Resolved false)
      else if writeFileSync_throws env then (w, Rejected)
      else
        let configPath := frpcConfigPath env in
        let w := effect (WriteFile configPath (generateFrpcConfig (config w))) w in
        let w := effect (Emit_log ("[GUI] Config written to " ++ configPath)) w in
        match findFrpcBinary env with
        | None => binary_not_found w
        | Some frpcPath =>
            if negb (truthy_str frpcPath) then binary_not_found w
            else
              let w := effect (Emit_log ("[GUI] Starting frpc from " ++ frpcPath)) w in
              match spawn_throws env with
              | Some error =>
                  let message := "Failed to start frpc: " ++ error in
                  let w := set_lastError (Some message) w in
                  (effect (Emit_error message) w, Resolved false)
              | None =>
                  let child := List.length (children w) in
                  let w := effect (Spawn child frpcPath ["-c"; configPath]) w in
                  let w := set_children (children w ++ [mkChild false []]) w in
                  let w := set_process (Some child) w in
                  let w := set_lastError None w in
                  (effect (Emit_status running) w, Resolved true)
              end
        end
  end.

(** *** The listeners that [start()] registers on the child it spawned *)

Definition child_connected (child : nat) (w : World) : bool :=
  match nth_error (children w) child with
  | Some c => connected c
  | None => false
  end.

Fixpoint update_child (f : Child -> Child) (child : nat) (cs : list Child)
  : list Child :=
  match cs, child with
  | [], _ => []
  | c :: rest, O => f c :: rest
  | c :: rest, S k => c :: update_child f k rest
  end.

Definition set_connected (child : nat) (w : World) : World :=
  set_children
    (update_child (fun c => mkChild true (exitOnce c)) child (children w)) w.

Definition is_success_line (line : string) : bool :=
  includes line "login to server success"
  || includes line "start proxy success".

(** The body of the loop over the lines of one chunk of standard output. *)
Definition stdout_line (child : nat) (w : World) (line : string) : World :=
  let w := effect (Emit_log line) w in
  if is_success_line line then
    if negb (child_connected child w) then
      let w := set_connected child w in
      let w := set_reconnectAttempts 0 w in
      effect (ShowNotification "FRP Connected"
                               "Successfully connected to FRP server") w
    else w
  else w.

(** The listeners of ['data'].  [lines] is
    [data.toString().trim().split('\n')]. *)
Definition on_stdout (child : nat) (lines : list string) (w : World) : World :=
  fold_left (stdout_line child) lines w.

Definition on_stderr (lines : list string) (w : World) : World :=
  fold_left (fun w line => effect (Emit_log ("[ERR] " ++ line)) w) lines w.

(** The listener of ['error']; [message] is [error.message]. *)
Definition on_error (message : string) (w : World) : World :=
  let text := "Failed to start frpc: " ++ message in
  let w := set_lastError (Some text) w in
  let w := effect (Emit_error text) w in
  let w := set_process None w in
  let w := effect (Emit_status stopped) w in
  handleDisconnect w.

Definition show_code (code : option Z) : string :=
  match code with Some n => show n | None => "null" end.

Definition show_signal (signal : option string) : string :=
  match signal with Some s => s | None => "null" end.

(** The listener of ['exit'] that [start()] registers. *)
Definition on_exit (child : nat) (code : option Z) (signal : option string)
           (w : World) : World :=
  let w :=
    match code with
    | Some n =>
        if negb (n =? 0) then
          let text := "frpc exited with code " ++ show n in
          effect (Emit_error text) (set_lastError (Some text) w)
        else w
    | None => w
    end in
  let w := effect (Emit_log ("[GUI] frpc exited (code: " ++ show_code code
                               ++ ", signal: " ++ show_signal signal ++ ")")) w in
  let w := set_process None w in
  let w := effect (Emit_status stopped) w in
  let w :=
    if child_connected child w then
      effect (ShowNotification "FRP Disconnected"
                               "Connection to FRP server lost") w
    else w in
  handleDisconnect w.

(** *** stop *)

(** The [once('exit')] listener that [stop()] adds, for the force-kill
    timer [timeout] of that call; it resolves the promise of the call. *)
Definition stop_exit_listener (w : World) (timeout : nat) : World :=
  let w := clearTimeout timeout w in
  let w := set_process None w in
  effect (Emit_status stopped) w.

Definition stop (w : World) : World * Outcome :=
  let w := set_intentionallyStopped true w in
  let w := clear_reconnectTimer w in
  match process (this w) with
  | None => (effect (Emit_log "[GUI] FRP client is not running") w, Resolved true)
  | Some child =>
      let w := effect (Emit_log "[GUI] Stopping frpc...") w in
      let (w, timeout) := setTimeout ForceKill 5000 w in
      let w := set_children
                 (update_child (fun c => mkChild (connected c)
                                           (exitOnce c ++ [timeout]))
                               child (children w)) w in
      (effect (Kill child SIGTERM) w, Pending)
  end.

(** The callback of the force-kill timer. *)
Definition force_kill (w : World) : World :=
  match process (this w) with
  | Some child =>
      effect (Kill child SIGKILL) (effect (Emit_log "[GUI] Force killing frpc...") w)
  | None => w
  end.

Definition setAutoReconnect (enabled : bool) (w : World) : World :=
  set_autoReconnect enabled w.

(** *** The supervisor as a machine driven by events

    An event is a method called by the operator, a timeout that fires, or
    something a child process does.  A timeout that is not pending does not
    fire, and a process that was never spawned emits nothing. *)
Inductive Event : Type :=
| Call_start (env : Env)
| Call_stop
| Call_setAutoReconnect (enabled : bool)
| Timeout (timer : nat) (env : Env)
| Stdout (child : nat) (lines : list string)
| Stderr (child : nat) (lines : list string)
| Proc_error (child : nat) (message : string)
| Proc_exit (child : nat) (code : option Z) (signal : option string).

Definition exit_listeners (child : nat) (code : option Z)
           (signal : option string) (w : World) : World :=
  let w := on_exit child code signal w in
  let once :=
    match nth_error (children w) child with
    | Some c => exitOnce c
    | None => []
    end in
  let w := set_children
             (update_child (fun c => mkChild (connected c) []) child
                           (children w)) w in
  fold_left stop_exit_listener once w.

Definition step (e : Event) (w : World) : World :=
  match e with
  | Call_start env => fst (start env w)
  | Call_stop => fst (stop w)
  | Call_setAutoReconnect enabled => setAutoReconnect enabled w
  | Timeout timer env =>
      match pending timer w with
      | Some (Reconnect, _) => fst (start env (expire timer w))
      | Some (ForceKill, _) => force_kill (expire timer w)
      | None => w
      end
  | Stdout child lines =>
      if (child <? List.length (children w))%nat then on_stdout child lines w else w
  | Stderr child lines =>
      if (child <? List.length (children w))%nat then on_stderr lines w else w
  | Proc_error child message =>
      if (child <? List.length (children w))%nat then on_error message w else w
  | Proc_exit child code signal =>
      if (child <? List.length (children w))%nat
      then exit_listeners child code signal w else w
  end.

Definition run (events : list Event) (w : World) : World :=
  fold_left (fun w e => step e w) events w.

(** *** What is read off a trace *)

Definition count (p : Effect -> bool) (w : World) : nat :=
  List.length (filter p (trace w)).

Definition is_spawn (e : Effect) : bool :=
  match e with Spawn _ _ _ => true | _ => false end.

Definition is_status (e : Effect) : bool :=
  match e with Emit_status _ => true | _ => false end.

Definition is_kill (e : Effect) : bool :=
  match e with Kill _ _ => true | _ => false end.

Definition is_notification (title : string) (e : Effect) : bool :=
  match e with
  | ShowNotification t _ => (t =? title)%string
  | _ => false
  end.

(** The delays of the retries scheduled so far, oldest first. *)
Definition retry_delay (e : Effect) : list Z :=
  match e with
  | SetTimeout _ Reconnect delay => [delay]
  | _ => []
  end.

Definition retries (w : World) : list Z := flat_map retry_delay (trace w).

(** The retries that are pending. *)
Definition is_reconnect (p : nat * (TimerAction * Z)) : bool :=
  match fst (snd p) with Reconnect => true | ForceKill => false end.

Definition pending_retries (w : World) : list (nat * (TimerAction * Z)) :=
  filter is_reconnect (timers w).

(** An event that is not a [start()] of the operator's. *)
Definition not_operator_start (e : Event) : bool :=
  match e with Call_start _ => false | _ => true end.

(** The event makes the callback of a pending retry run, which calls
    [start()]. *)
Definition fires_retry (e : Event) (w : World) : bool :=
  match e with
  | Timeout timer _ =>
      match pending timer w with
      | Some (Reconnect, _) => true
      | _ => false
      end
  | _ => false
  end.

(** The number of automatic starts during a run. *)
Fixpoint auto_starts (events : list Event) (w : World) : nat :=
  match events with
  | [] => O
  | e :: rest =>
      ((if fires_retry e w then 1 else 0) + auto_starts rest (step e w))%nat
  end.

(** *** getStatus and isRunning *)

(** [interface FrpcStatus]; the field [running] is [is_running] here, the
    name being taken by the status of that name. *)
Record FrpcStatus : Type := mkFrpcStatus {
  is_running : bool;
  last_error : option string
}.

Definition isRunning (w : World) : bool :=
  match process (this w) with
  | Some _ => true
  | None => false
  end.

Definition getStatus (w : World) : FrpcStatus :=
  mkFrpcStatus (isRunning w) (lastError (this w)).

End FrpcManager.

(** ** src/components/TunnelForm.tsx *)

Module TunnelForm.
Import JS ConfigManager.

(** The properties the form is given.  [tunnel] is the tunnel being edited,
    [None] when one is being added. *)
Record Props : Type := mkProps {
  tunnel : option Tunnel;
  existingPorts : list Z;
  portRange_min : Z;
  portRange_max : Z
}.

(** The fields being edited. *)
Record State : Type := mkState {
  name : string;
  localIP : string;
  localPort : Z;
  remotePort : Z
}.

(** [p === tunnel?.remotePort]. *)
Definition own_port (props : Props) (p : Z) : bool :=
  match tunnel props with
  | Some t => p =? ConfigManager.remotePort t
  | None => false
  end.

(** The loop [for (let p = min; p <= max; p++)], [n] iterations from [p]. *)
Fixpoint ports_from (props : Props) (p : Z) (n : nat) : list Z :=
  match n with
  | O => []
  | S k =>
      if negb (mem p (existingPorts props)) || own_port props p
      then p :: ports_from props (p + 1) k
      else ports_from props (p + 1) k
  end.

Definition availablePorts (props : Props) : list Z :=
  ports_from props (portRange_min props)
             (Z.to_nat (portRange_max props - portRange_min props + 1)).

(** The state that the [useState] initialisers give. *)
Definition initial (props : Props) : State :=
  match tunnel props with
  | Some t =>
      mkState (ConfigManager.name t)
              (if truthy_str (ConfigManager.localIP t)
               then ConfigManager.localIP t else "127.0.0.1")
              (if truthy_num (ConfigManager.localPort t)
               then ConfigManager.localPort t else 3000)
              (ConfigManager.remotePort t)
  | None => mkState "" "127.0.0.1" 3000 0
  end.

(** The default that rendering sets: the first available port, when a
    tunnel is being added and no remote port is chosen. *)
Definition defaulted (props : Props) (s : State) : State :=
  match tunnel props, availablePorts props with
  | None, first :: _ =>
      if remotePort s =? 0
      then mkState (name s) (localIP s) (localPort s) first
      else s
  | _, _ => s
  end.

Inductive Submission : Type :=
| Refused (message : string)
| Accepted (saved : NewTunnel).

(** [handleSubmit]: the error it sets, or what it hands to [onSave]. *)
Definition handleSubmit (props : Props) (s : State) : Submission :=
  if mem (remotePort s) (existingPorts props)
     && negb (own_port props (remotePort s))
  then Refused ("Remote port " ++ show (remotePort s)
                  ++ " is already in use by another tunnel")
  else if (localPort s <? 1) || (localPort s >? 65535)
  then Refused "Local port must be between 1 and 65535"
  else if (remotePort s <? 1) || (remotePort s >? 65535)
  then Refused "Remote port must be between 1 and 65535"
  else Accepted
         (mkNewTunnel
            (if truthy_str (name s) then name s
             else "tcp-" ++ show (localPort s))
            tcp (localIP s) (localPort s) (remotePort s)
            (Some match tunnel props with
                  | Some t => is_enabled t
                  | None => true
                  end)).

End TunnelForm.

(** ** src/App.tsx: how the form is wired to the manager, and the log *)

Module App.
Import JS ConfigManager.

Definition port_range (c : AppConfig) : Z * Z :=
  (if truthy_num (remotePortMin c) then remotePortMin c else 6000,
   if truthy_num (remotePortMax c) then remotePortMax c else 6100).

(** The properties of the form in the view [add-tunnel]. *)
Definition add_props (c : AppConfig) : TunnelForm.Props :=
  TunnelForm.mkProps None (map remotePort (tunnels c))
                     (fst (port_range c)) (snd (port_range c)).

(** The properties of the form in the view [edit-tunnel]. *)
Definition edit_props (c : AppConfig) (editingTunnel : Tunnel)
  : TunnelForm.Props :=
  TunnelForm.mkProps
    (Some editingTunnel)
    (map remotePort
         (filter (fun t => negb (id t =? id editingTunnel)%string) (tunnels c)))
    (fst (port_range c)) (snd (port_range c)).

(** The object that the form saves, passed as the [Partial<Tunnel>] of
    [updateTunnel]. *)
Definition as_update (t : NewTunnel) : TunnelUpdate :=
  mkTunnelUpdate None (Some (n_name t)) (Some (n_type t)) (Some (n_localIP t))
                 (Some (n_localPort t)) (Some (n_remotePort t)) (n_enabled t).

(** [handleToggleTunnel] passes [{ enabled }]. *)
Definition toggle (enabled : bool) : TunnelUpdate :=
  mkTunnelUpdate None None None None None None (Some enabled).

(** [prev.slice(-500)], and the update [[...prev.slice(-500), log]] that
    the listener of ['frpc:log'] makes. *)
Definition slice_last (n : nat) (l : list string) : list string :=
  skipn (List.length l - n) l.

Definition onFrpcLog (prev : list string) (log : string) : list string :=
  slice_last 500 prev ++ [log].

End App.

(** ** Notions used in the statements *)

Module Notions.
Import JS ConfigManager FrpcManager.

(** The number of tunnels of [ts] whose remote port is [p]. *)
Definition sharing (p : Z) (ts : list Tunnel) : nat :=
  List.length (filter (fun t => remotePort t =? p) ts).

(** Two or more tunnels of [ts] have the same remote port. *)
Definition port_collision (ts : list Tunnel) : Prop :=
  exists p, (2 <= sharing p ts)%nat.

(** An entry of the error list that is a duplicate-port error. *)
Definition is_duplicate_error (e : string) : bool :=
  prefix "Duplicate remote ports: " e.

Definition duplicate_errors (c : AppConfig) : list string :=
  filter is_duplicate_error (errors (validateConfig c)).

(** The ports that the duplicate-port error names, in the order in which it
    names them. *)
Definition named_ports (c : AppConfig) : list Z := set_of (duplicates c).

Definition enabled_tunnels (c : AppConfig) : list Tunnel :=
  filter is_enabled (tunnels c).

(** The configuration with its disabled tunnels deleted. *)
Definition without_disabled (c : AppConfig) : AppConfig :=
  mkConfig (serverAddr c) (serverPort c) (authToken c) (remotePortMin c)
           (remotePortMax c) (autoStart c) (enabled_tunnels c).

(** The configuration that the preview of a [Settings] state displays: the
    fields being edited, over the tunnels of the [config] property. *)
Definition edited (s : Settings.State) : AppConfig :=
  mkConfig (Settings.serverAddr s) (Settings.serverPort s)
           (Settings.authToken s) (remotePortMin (Settings.config s))
           (remotePortMax (Settings.config s)) (autoStart (Settings.config s))
           (tunnels (Settings.config s)).

Definition with_showToken (s : Settings.State) (b : bool) : Settings.State :=
  Settings.mkState (Settings.serverAddr s) (Settings.serverPort s)
                   (Settings.authToken s) b (Settings.config s).

Definition with_token (s : Settings.State) (token : string) : Settings.State :=
  Settings.mkState (Settings.serverAddr s) (Settings.serverPort s)
                   token (Settings.showToken s) (Settings.config s).

(** What the preview displays in place of a hidden token. *)
Definition placeholder (token : string) : string :=
  if truthy_str token then Settings.mask else "".

(** The property names of a JSON object, in order. *)
Definition keys (v : json) : list string :=
  match v with
  | JObj props => map fst props
  | _ => []
  end.

(** Every pending retry is the one that [reconnectTimer] holds: at most one
    retry is outstanding, and [stop()] and [start()] can reach it. *)
Definition retry_in_slot (w : World) : Prop :=
  forall p, In p (pending_retries w) -> reconnectTimer (this w) = Some (fst p).

(** The effects that clearing the reconnect timer adds to the trace. *)
Definition clearing (slot : option nat) : list Effect :=
  match slot with
  | Some t => [ClearTimeout t]
  | None => []
  end.

(** [start()] fails with [message]: it resolves to false with [message] as
    the last error, after clearing the reconnect timer and emitting the
    error, and nothing else; in particular it spawns no process. *)
Definition refused (env : Env) (w : World) (message : string) : Prop :=
  snd (start env w) = Resolved false
  /\ lastError (this (fst (start env w))) = Some message
  /\ process (this (fst (start env w))) = None
  /\ children (fst (start env w)) = children w
  /\ trace (fst (start env w))
     = (trace w ++ clearing (reconnectTimer (this w))
          ++ [Emit_error message])%list.

(** The path that [findFrpcBinary] returns. *)
Definition located (env : Env) : string :=
  if existsSync env "/usr/local/bin/frpc" then "/usr/local/bin/frpc"
  else if existsSync env "/usr/bin/frpc" then "/usr/bin/frpc"
  else if existsSync env "/opt/frp-gui/frpc/frpc" then "/opt/frp-gui/frpc/frpc"
  else "frpc".

(** What [start()] adds to the trace before it spawns. *)
Definition preparing (env : Env) (w : World) : list Effect :=
  (clearing (reconnectTimer (this w))
   ++ [ WriteFile (frpcConfigPath env) (generateFrpcConfig (config w));
        Emit_log ("[GUI] Config written to " ++ frpcConfigPath env);
        Emit_log ("[GUI] Starting frpc from " ++ located env) ])%list.

(** [start()] gets as far as [spawn]: no process is associated, the
    configuration validates and the rendered file can be written. *)
Definition ready (env : Env) (w : World) : Prop :=
  process (this w) = None
  /\ valid (validateConfig (config w)) = true
  /\ writeFileSync_throws env = false.

(** An effect that is neither a spawn, nor the scheduling of a retry, nor
    one of the notifications "FRP Connected" and "FRP Reconnect Failed". *)
Definition routine (e : Effect) : bool :=
  match e with
  | Spawn _ _ _ => false
  | SetTimeout _ Reconnect _ => false
  | ShowNotification title _ => (title =? "FRP Disconnected")%string
  | _ => true
  end.

(** [w'] comes from [w] by routine effects, with the reconnect policy (the
    auto-reconnect flag, the attempt counter, the intentional-stop flag)
    untouched. *)
Definition quiet (w w' : World) : Prop :=
  autoReconnect (this w') = autoReconnect (this w)
  /\ reconnectAttempts (this w') = reconnectAttempts (this w)
  /\ intentionallyStopped (this w') = intentionallyStopped (this w)
  /\ exists d, trace w' = (trace w ++ d)%list /\ forallb routine d = true.

(** The stop was intentional and no retry is pending. *)
Definition halted (w : World) : Prop :=
  intentionallyStopped (this w) = true /\ pending_retries w = [].

(** [w'] is halted, and between [w] and [w'] nothing was spawned and no
    retry was scheduled. *)
Definition uneventful (w w' : World) : Prop :=
  halted w'
  /\ count is_spawn w' = count is_spawn w
  /\ retries w' = retries w.

(** The ['error'] or ['exit'] of a process comes from the process that the
    supervisor holds, as it does when every process ends with one of the
    two. *)
Definition from_current_process (e : Event) (w : World) : bool :=
  match e with
  | Proc_error child _ | Proc_exit child _ _ =>
      match process (this w) with
      | Some current => (current =? child)%nat
      | None => false
      end
  | _ => true
  end.

Fixpoint orderly (events : list Event) (w : World) : bool :=
  match events with
  | [] => true
  | e :: rest => from_current_process e w && orderly rest (step e w)
  end.

(** Every pending retry is in the slot, and none is pending while a process
    is associated. *)
Definition tidy (w : World) : Prop :=
  retry_in_slot w /\ (process (this w) <> None -> pending_retries w = []).

(** The child is the one a [start()] has just spawned: its listeners have
    seen no success line yet. *)
Definition fresh_child (child : nat) (w : World) : Prop :=
  (child < List.length (children w))%nat /\ child_connected child w = false.

(** *** Notions for the further properties *)

(** A port that passes the range check of the validator and of the form. *)
Definition in_range (p : Z) : Prop := 1 <= p <= 65535.

(** What a proxy block renders of a tunnel. *)
Definition rendered (t : Tunnel) : string * TunnelType * string * Z * Z :=
  (name t, type t, localIP t, localPort t, remotePort t).

(** A configuration with the numbers that [loadConfig] replaces by its
    defaults replaced. *)
Definition defaulted_numbers (c : AppConfig) : AppConfig :=
  mkConfig (serverAddr c)
           (if serverPort c =? 0 then 7000 else serverPort c)
           (authToken c)
           (if remotePortMin c =? 0 then 6000 else remotePortMin c)
           (if remotePortMax c =? 0 then 6100 else remotePortMax c)
           (autoStart c) (tunnels c).

(** The document that carries the six properties of [exportData]. *)
Definition document_of (c : AppConfig) : Document :=
  mkDocument (Some (serverAddr c)) (Some (serverPort c))
             (Some (remotePortMin c)) (Some (remotePortMax c))
             (Some (autoStart c)) (Some (tunnels c)).


(** No tunnel of the list has the id [i]. *)
Definition unknown_id (i : string) (ts : list Tunnel) : Prop :=
  forall t, In t ts -> id t <> i.

(** The tunnels of a manager, its configuration in memory and its file. *)
Definition tunnels_of (st : Store) : list Tunnel :=
  tunnels (ConfigManager.config st).

(** Encryption is available and gives back what it was given, for the
    token [token]. *)
Definition keeps_token (sys : System) (token : string) : Prop :=
  isEncryptionAvailable sys = true
  /\ (token <> EmptyString ->
      encryptString sys token <> EmptyString
      /\ decryptString sys (encryptString sys token) = Some token).


(** A delay of the backoff schedule: 5000 ms times an attempt from 1 to 5. *)
Definition backoff (delay : Z) : Prop :=
  exists n, 1 <= n <= 5 /\ delay = 5000 * n.

(** The attempt counter is within its limit and every retry scheduled so far
    has a delay of the schedule. *)
Definition bounded (w : World) : Prop :=
  0 <= reconnectAttempts (this w) <= maxReconnectAttempts
  /\ Forall backoff (retries w).

(** An event other than [setAutoReconnect(true)]. *)
Definition leaves_reconnect_off (e : Event) : bool :=
  match e with
  | Call_setAutoReconnect true => false
  | _ => true
  end.



(** The status that an effect tells the listeners of ['status']. *)
Definition status_of (e : Effect) : list Status :=
  match e with
  | Emit_status s => [s]
  | _ => []
  end.

(** The status that the listeners of ['status'] were told last; they take
    the supervisor for stopped until they are told. *)
Definition last_status (w : World) : Status :=
  last (flat_map status_of (trace w)) stopped.

Definition told_running (w : World) : bool :=
  match last_status w with
  | running => true
  | stopped => false
  end.

Definition is_write (e : Effect) : bool :=
  match e with
  | WriteFile _ _ => true
  | _ => false
  end.



(** Nothing has happened that needs a valid configuration: no process was
    spawned or is held, no file was written, no timer is pending and no
    retry was scheduled. *)
Definition dormant (c : AppConfig) (w : World) : Prop :=
  config w = c
  /\ children w = []
  /\ timers w = []
  /\ process (this w) = None
  /\ filter is_spawn (trace w) = []
  /\ filter is_write (trace w) = []
  /\ retries w = [].

(** The process that the supervisor holds is one that was spawned, and the
    timers that are pending were set. *)
Definition well_formed (w : World) : Prop :=
  (forall child, process (this w) = Some child ->
                 (child < List.length (children w))%nat)
  /\ (forall p, In p (timers w) -> (fst p < next_timer w)%nat).



(** *** The lines of a rendered text *)

(** The line feed. *)
Definition lf : ascii := ascii_of_nat 10.

(** [text.split('\n')]: the lines of a text. *)
Fixpoint lines_of (text : string) : list string :=
  match text with
  | EmptyString => [EmptyString]
  | String a rest =>
      if Ascii.eqb a lf then EmptyString :: lines_of rest
      else match lines_of rest with
           | first :: others => String a first :: others
           | [] => [String a EmptyString]
           end
  end.

(** The string carries no line feed. *)
Fixpoint one_line (s : string) : bool :=
  match s with
  | EmptyString => true
  | String a rest => negb (Ascii.eqb a lf) && one_line rest
  end.

(** [Number.isSafeInteger]: the numbers that [show] writes as the runtime
    does. *)
Definition safe_integer (n : Z) : Prop := Z.abs n <= 9007199254740991.

(** Nothing that is rendered of the configuration carries a line feed (the
    server address, the auth token, the name and the local address of an
    enabled tunnel), and the numbers that are rendered are safe integers. *)
Definition plain (c : AppConfig) : Prop :=
  one_line (serverAddr c) = true
  /\ safe_integer (serverPort c)
  /\ one_line (authToken c) = true
  /\ Forall (fun t => one_line (name t) = true
                      /\ one_line (localIP t) = true
                      /\ safe_integer (localPort t)
                      /\ safe_integer (remotePort t))
            (enabled_tunnels c).


End Notions.

(** ** Sample data *)

Module Samples.
Import JS ConfigManager FrpcManager.

Definition web : Tunnel :=
  mkTunnel "a1" "web" tcp "127.0.0.1" 8080 6001 (Some true).
Definition ssh_off : Tunnel :=
  mkTunnel "a2" "ssh" tcp "127.0.0.1" 22 6001 (Some false).
Definition db : Tunnel :=
  mkTunnel "a3" "db" tcp "10.0.0.5" 5432 6002 None.
Definition web2 : Tunnel :=
  mkTunnel "a4" "web2" tcp "127.0.0.1" 8081 6001 (Some true).

(** A valid configuration with one tunnel. *)
Definition home : AppConfig :=
  mkConfig "frp.example.com" 7000 "s3cret" 6000 6100 false [web].

(** An enabled and a disabled tunnel on remote port 6001. *)
Definition one_disabled : AppConfig :=
  mkConfig "frp.example.com" 7000 "s3cret" 6000 6100 false [web; ssh_off; db].

(** Three tunnels on remote port 6001, two on 6002. *)
Definition crowded : AppConfig :=
  mkConfig "frp.example.com" 7000 "s3cret" 6000 6100 false
           [web; db; ssh_off; web2; db].

(** The scenario of a missing server address. *)
Definition no_address : AppConfig :=
  mkConfig "" 7000 "t" 6000 6100 false [].

(** An operating system on which no absolute location holds [frpc], files
    can be written and processes can be spawned. *)
Definition plain_env : Env :=
  mkEnv (fun _ => false) "/home/u/.config/frp-gui/config/frpc.toml" false None.

(** The same, where [spawn] throws. *)
Definition failing_env : Env :=
  mkEnv (fun _ => false) "/home/u/.config/frp-gui/config/frpc.toml" false
        (Some "Error: spawn EINVAL").

(** The supervisor after a first successful [start()]. *)
Definition started : World := fst (start plain_env (new_world home)).

(** The process exits with code 1 and the retry fires, six times over. *)
Definition crash_loop : list Event :=
  [ Proc_exit 0 (Some 1) None; Timeout 0 plain_env;
    Proc_exit 1 (Some 1) None; Timeout 1 plain_env;
    Proc_exit 2 (Some 1) None; Timeout 2 plain_env;
    Proc_exit 3 (Some 1) None; Timeout 3 plain_env;
    Proc_exit 4 (Some 1) None; Timeout 4 plain_env;
    Proc_exit 5 (Some 1) None; Timeout 5 plain_env ].

(** The supervisor after the first process has exited with code 1: a retry
    is pending. *)
Definition waiting : World := step (Proc_exit 0 (Some 1) None) started.

(** The supervisor after that retry has fired: a second process runs, and
    one attempt has been counted. *)
Definition restarted : World := step (Timeout 0 plain_env) waiting.

(** What may follow a [stop()]: timers firing, output and exit of the old
    process, a second [stop()]. *)
Definition aftermath : list Event :=
  [ Timeout 0 plain_env; Stdout 0 ["login to server success"];
    Proc_error 0 "kill EPERM"; Proc_exit 0 None (Some "SIGTERM");
    Call_setAutoReconnect true; Call_stop; Timeout 1 plain_env ].

(** The [Settings] view with the token shown. *)
Definition revealed : Settings.State :=
  Settings.mkState "frp.example.com" 7000 "s3cret" true home.


(** A system whose encryption reverses the text, where files can be
    written; the same without encryption; the same where writing throws. *)
Definition reverse (s : string) : string :=
  string_of_list_ascii (rev (list_ascii_of_string s)).
Definition keychain : System :=
  mkSystem true reverse (fun s => Some (reverse s)) None Untouched.
Definition no_keychain : System :=
  mkSystem false reverse (fun s => Some (reverse s)) None Untouched.
Definition full_disk : System :=
  mkSystem true reverse (fun s => Some (reverse s)) (Some "ENOSPC") Cut.

(** A manager that holds [one_disabled], saved. *)
Definition office : Store :=
  mkStore one_disabled (Holding (stored_of keychain one_disabled)).

(** What the tunnel form hands over for a new tunnel without a name. *)
Definition unnamed : NewTunnel :=
  mkNewTunnel "" tcp "127.0.0.1" 3000 6003 None.


(** A file of an older version: the token in plain text, not encrypted. *)
Definition legacy_file : File :=
  Holding (mkStored (Some "frp.example.com") (Some 7000) None (Some "old-token")
                    (Some 6000) (Some 6100) (Some false) (Some [web])).


(** A valid configuration with two tunnels, and what a user typed into the
    tunnel form. *)
Definition pair : AppConfig :=
  mkConfig "frp.example.com" 7000 "s3cret" 6000 6100 false [web; db].
Definition typed : TunnelForm.State :=
  TunnelForm.mkState "api" "127.0.0.1" 9000 6005.



(** A tunnel whose name carries line feeds: it spells the end of the block
    of [web] and the beginning of the block of [db]. *)
Definition smuggler : Tunnel :=
  mkTunnel "a1"
           ("web" ++ dq ++ nl
            ++ "type = " ++ quoted "tcp" ++ nl
            ++ "localIP = " ++ quoted "127.0.0.1" ++ nl
            ++ "localPort = 8080" ++ nl
            ++ "remotePort = 6001" ++ nl
            ++ nl
            ++ "[[proxies]]" ++ nl
            ++ "name = " ++ dq ++ "db")
           tcp "10.0.0.5" 5432 6002 (Some true).
Definition smuggled : AppConfig :=
  mkConfig "frp.example.com" 7000 "s3cret" 6000 6100 false [smuggler].

(** The first process cannot be signalled when the operator stops it, which
    it reports by ['error']; the operator starts a second; the first exits,
    then the second. *)
Definition outliving : list Event :=
  [ Call_start plain_env; Call_stop; Proc_error 0 "kill EPERM";
    Call_start plain_env; Proc_exit 0 (Some 0) None;
    Proc_exit 1 (Some 1) None ].


Definition outlived : World := run outliving (new_world home).


End Samples.

(** * Properties *)

Import JS ConfigManager FrpcManager Notions Samples.
Local Open Scope list_scope.

(** Exhibits what a step added to the trace, and checks it by computation. *)
Ltac by_extension :=
  eexists; split; [rewrite <- ?app_assoc; reflexivity | reflexivity].

(** ** Lemmas on the runtime fragments *)

Lemma show_inj (n m : Z) : show n = show m -> n = m.
Proof.
  unfold show. intros H.
  apply Stdlib.Numbers.DecimalZ.to_int_inj.
  assert (ok : forall z, Z.to_int z <> Decimal.Pos Decimal.Nil
                         /\ Z.to_int z <> Decimal.Neg Decimal.Nil).
  { intros [|p|p]; cbn; split; try discriminate;
      intros E; injection E as E; now apply DecimalPos.Unsigned.to_uint_nonnil in E. }
  destruct (ok n) as [n1 n2], (ok m) as [m1 m2].
  pose proof (NilZero.isi _ n1 n2) as Hn.
  pose proof (NilZero.isi _ m1 m2) as Hm.
  rewrite H in Hn. congruence.
Qed.

Lemma mem_In (x : Z) (l : list Z) : mem x l = true <-> In x l.
Proof.
  unfold mem. rewrite existsb_exists. split.
  - intros (y & Hy & E). apply Z.eqb_eq in E. now subst.
  - intros H. exists x. split; [assumption | apply Z.eqb_refl].
Qed.

Lemma set_of_acc (l acc : list Z) :
  NoDup acc ->
  NoDup (fold_left set_add l acc)
  /\ forall p, In p (fold_left set_add l acc) <-> In p acc \/ In p l.
Proof.
  revert acc. induction l as [|x l IH]; intros acc Hacc; cbn [fold_left].
  - split; [assumption | intros p; cbn; tauto].
  - assert (Hstep : NoDup (set_add acc x)
                    /\ forall p, In p (set_add acc x) <-> In p acc \/ p = x).
    { unfold set_add. destruct (mem x acc) eqn:E.
      - apply mem_In in E. split; [assumption|].
        intros p. split; [tauto | intros [H | ->]; assumption].
      - split.
        + apply NoDup_app; [assumption | repeat constructor; cbn; tauto |].
          intros a Ha [<- | []]. apply mem_In in Ha. congruence.
        + intros p. rewrite in_app_iff. cbn. intuition congruence. }
    destruct Hstep as [Hnd Hin]. destruct (IH _ Hnd) as [IH1 IH2].
    split; [assumption|]. intros p. rewrite IH2, Hin. cbn. intuition congruence.
Qed.

Lemma set_of_NoDup (l : list Z) : NoDup (set_of l).
Proof. apply set_of_acc. constructor. Qed.

Lemma set_of_In (l : list Z) (p : Z) : In p (set_of l) <-> In p l.
Proof.
  unfold set_of. destruct (set_of_acc l [] (NoDup_nil Z)) as [_ H].
  rewrite H. cbn. tauto.
Qed.

Lemma indexOf_from_In (l : list Z) (x i : Z) :
  In x l -> i <= indexOf_from l x i < i + Z.of_nat (List.length l).
Proof.
  revert i. induction l as [|y l IH]; intros i H; [destruct H|].
  cbn [indexOf_from List.length]. destruct (y =? x) eqn:E.
  - lia.
  - destruct H as [-> | H]; [rewrite Z.eqb_refl in E; discriminate|].
    specialize (IH (i + 1) H). lia.
Qed.

Lemma indexOf_from_app_l (pre s : list Z) (x i : Z) :
  In x pre -> indexOf_from (pre ++ s) x i = indexOf_from pre x i.
Proof.
  revert i. induction pre as [|y pre IH]; intros i H; [destruct H|].
  cbn [app indexOf_from]. destruct (y =? x) eqn:E; [reflexivity|].
  destruct H as [-> | H]; [rewrite Z.eqb_refl in E; discriminate|].
  now apply IH.
Qed.

Lemma indexOf_from_app_r (pre s : list Z) (x i : Z) :
  ~ In x pre ->
  indexOf_from (pre ++ s) x i = indexOf_from s x (i + Z.of_nat (List.length pre)).
Proof.
  revert i. induction pre as [|y pre IH]; intros i H.
  - cbn. now rewrite Z.add_0_r.
  - cbn [app indexOf_from List.length]. destruct (y =? x) eqn:E.
    + apply Z.eqb_eq in E. subst. exfalso. apply H. now left.
    + rewrite IH by (intros Hx; apply H; now right). f_equal. lia.
Qed.

(** In [pre ++ x :: rest], the element [x] at position [length pre] is a
    first occurrence exactly when [x] is not in [pre]. *)
Lemma first_occurrence (pre rest : list Z) (x : Z) :
  (indexOf (pre ++ x :: rest) x =? Z.of_nat (List.length pre)) = negb (mem x pre).
Proof.
  unfold indexOf. destruct (mem x pre) eqn:E.
  - apply mem_In in E. rewrite indexOf_from_app_l by assumption.
    pose proof (indexOf_from_In pre x 0 E). cbn [negb]. apply Z.eqb_neq. lia.
  - assert (N : ~ In x pre) by (rewrite <- mem_In; congruence).
    rewrite indexOf_from_app_r by assumption.
    cbn [indexOf_from negb]. rewrite Z.eqb_refl. apply Z.eqb_eq. lia.
Qed.

(** The filter of [validateConfig] keeps an element exactly when it occurred
    before. *)
Lemma later_occurrences (total l : list Z) :
  forall pre, total = pre ++ l ->
  forall p,
    In p (filteri_from (fun port index => negb (indexOf total port =? index))
                       l (Z.of_nat (List.length pre)))
    <-> (In p pre /\ In p l) \/ (2 <= count_occ Z.eq_dec l p)%nat.
Proof.
  induction l as [|x l IH]; intros pre Ht p.
  - cbn. intuition lia.
  - cbn [filteri_from]. rewrite Ht at 1. rewrite first_occurrence, negb_involutive.
    assert (Ht' : total = (pre ++ [x]) ++ l) by (rewrite <- app_assoc; exact Ht).
    specialize (IH _ Ht' p).
    replace (Z.of_nat (List.length (pre ++ [x])))
      with (Z.of_nat (List.length pre) + 1) in IH
      by (rewrite length_app; cbn; lia).
    rewrite in_app_iff in IH. cbn [In] in IH.
    pose proof (count_occ_In Z.eq_dec l p) as Hc.
    pose proof (mem_In x pre) as Hx.
    cbn [count_occ In].
    assert (Hn : (In p l /\ 0 < count_occ Z.eq_dec l p)%nat
                 \/ (~ In p l /\ count_occ Z.eq_dec l p = 0%nat)).
    { destruct (in_dec Z.eq_dec p l) as [Hl | Hl].
      - left. split; [assumption | now apply Hc].
      - right. split; [assumption | now apply count_occ_not_In]. }
    clear Hc.
    destruct (Z.eq_dec x p) as [E | E]; destruct (mem x pre) eqn:Ex; cbn [In];
      [ assert (Hin : In x pre) by (apply Hx; reflexivity)
      | assert (Hin : ~ In x pre) by (intros Hin; apply Hx in Hin; discriminate)
      | assert (Hin : In x pre) by (apply Hx; reflexivity)
      | assert (Hin : ~ In x pre) by (intros Hin; apply Hx in Hin; discriminate) ];
      clear Hx; rewrite ?IH; try subst x; intuition (try lia; try congruence).
Qed.

Lemma duplicates_In (c : AppConfig) (p : Z) :
  In p (duplicates c)
  <-> (2 <= count_occ Z.eq_dec (map remotePort (tunnels c)) p)%nat.
Proof.
  unfold duplicates, filteri. fold (remotePorts c).
  rewrite (later_occurrences (remotePorts c) (remotePorts c) [] eq_refl p).
  cbn. tauto.
Qed.

Lemma sharing_count (p : Z) (ts : list Tunnel) :
  sharing p ts = count_occ Z.eq_dec (map remotePort ts) p.
Proof.
  unfold sharing. induction ts as [|t ts IH]; [reflexivity|].
  cbn [filter map count_occ]. destruct (Z.eq_dec (remotePort t) p) as [E | E].
  - rewrite E, Z.eqb_refl. cbn. now rewrite <- IH.
  - apply Z.eqb_neq in E. now rewrite E.
Qed.

Lemma named_ports_In (c : AppConfig) (p : Z) :
  In p (named_ports c) <-> (2 <= sharing p (tunnels c))%nat.
Proof.
  unfold named_ports. now rewrite set_of_In, duplicates_In, sharing_count.
Qed.

Lemma duplicates_collision (c : AppConfig) :
  (0 <? Z.of_nat (List.length (duplicates c))) = true
  <-> port_collision (tunnels c).
Proof.
  unfold port_collision. split.
  - intros H. destruct (duplicates c) as [|p l] eqn:E; [discriminate|].
    exists p. rewrite sharing_count, <- duplicates_In, E. now left.
  - intros [p Hp]. rewrite sharing_count, <- duplicates_In in Hp.
    destruct (duplicates c); [destruct Hp | reflexivity].
Qed.

Lemma server_errors_not_duplicate (c : AppConfig) :
  filter is_duplicate_error (server_errors c) = [].
Proof.
  unfold server_errors.
  destruct (negb (truthy_str (serverAddr c)));
    destruct (negb (truthy_num (serverPort c)) || port_out_of_range (serverPort c));
    destruct (negb (truthy_str (authToken c))); reflexivity.
Qed.

Lemma tunnel_errors_not_duplicate (ts : list Tunnel) :
  filter is_duplicate_error (flat_map tunnel_errors ts) = [].
Proof.
  induction ts as [|t ts IH]; [reflexivity|].
  cbn [flat_map]. rewrite filter_app, IH, app_nil_r.
  unfold tunnel_errors.
  destruct (port_out_of_range (localPort t));
    destruct (port_out_of_range (remotePort t)); reflexivity.
Qed.

Lemma prefix_append (s t : string) : prefix s (s ++ t)%string = true.
Proof.
  induction s as [|a s IH]; cbn.
  - now destruct t.
  - destruct (ascii_dec a a); [exact IH | congruence].
Qed.

Lemma duplicate_error_is_one (c : AppConfig) :
  is_duplicate_error (duplicate_error c) = true.
Proof. apply prefix_append. Qed.

(** ** ConfigManager.validateConfig: duplicate remote ports *)

Lemma duplicate_errors_eq (c : AppConfig) :
  duplicate_errors c
  = if 0 <? Z.of_nat (List.length (duplicates c)) then [duplicate_error c] else [].
Proof.
  unfold duplicate_errors, validateConfig, validation_errors. cbn [errors].
  rewrite !filter_app, server_errors_not_duplicate, tunnel_errors_not_duplicate.
  destruct (0 <? Z.of_nat (List.length (duplicates c))); cbn [filter app].
  - now rewrite duplicate_error_is_one.
  - reflexivity.
Qed.

(** C1 (as the code has it).  [validateConfig] reports one duplicate-port
    error exactly when two or more tunnels of the configuration, enabled or
    not, have the same remote port, and none otherwise.  The error reads
    "Duplicate remote ports: " followed by the ports that two or more tunnels
    share, separated by ", "; every such port is named, and no port is named
    twice, however many tunnels share it. *)
Theorem validate_duplicate_ports (c : AppConfig) :
  (port_collision (tunnels c) -> duplicate_errors c = [duplicate_error c])
  /\ (~ port_collision (tunnels c) -> duplicate_errors c = [])
  /\ duplicate_error c
     = ("Duplicate remote ports: " ++ join ", " (map show (named_ports c)))%string
  /\ NoDup (map show (named_ports c))
  /\ (forall p, In p (named_ports c) <-> (2 <= sharing p (tunnels c))%nat).
Proof.
  repeat split.
  - intros H. apply duplicates_collision in H.
    now rewrite duplicate_errors_eq, H.
  - intros H. rewrite duplicate_errors_eq.
    destruct (0 <? Z.of_nat (List.length (duplicates c))) eqn:E; [|reflexivity].
    apply duplicates_collision in E. contradiction.
  - apply Injective_map_NoDup; [exact show_inj | apply set_of_NoDup].
  - apply named_ports_In.
  - apply named_ports_In.
Qed.

(** Three tunnels on 6001 and two on 6002: each port is named once. *)
Example validate_crowded :
  duplicate_errors crowded = ["Duplicate remote ports: 6001, 6002"].
Proof. reflexivity. Qed.

(** C1 (as the claim states it) fails: of two tunnels on remote port 6001 one
    is disabled, so no two enabled tunnels share a remote port, and
    [validateConfig] reports the duplicate all the same. *)
Lemma disabled_tunnel_counts_as_duplicate :
  ~ port_collision (enabled_tunnels one_disabled)
  /\ In "Duplicate remote ports: 6001" (errors (validateConfig one_disabled))
  /\ valid (validateConfig one_disabled) = false.
Proof.
  split; [| split; [cbn; tauto | reflexivity]].
  intros [p H]. unfold sharing in H. cbn -[Z.eqb] in H.
  destruct (6001 =? p) eqn:E1; destruct (6002 =? p) eqn:E2; cbn in H; lia.
Qed.

(** ** ConfigManager.generateFrpcConfig *)

Lemma flat_map_proxy_length (ts : list Tunnel) :
  List.length (flat_map proxy_lines ts) = (7 * List.length ts)%nat.
Proof. induction ts as [|t ts IH]; cbn [flat_map List.length app proxy_lines]; lia. Qed.

Lemma block_at (ts : list Tunnel) :
  forall i t, nth_error ts i = Some t ->
  firstn 7 (skipn (7 * i) (flat_map proxy_lines ts)) = proxy_lines t.
Proof.
  induction ts as [|u ts IH]; intros [|i] t H; try discriminate.
  - injection H as ->. reflexivity.
  - replace (7 * S i)%nat with (7 * i + 7)%nat by lia.
    cbn [flat_map]. rewrite <- skipn_skipn.
    change (skipn 7 (proxy_lines u ++ flat_map proxy_lines ts))
      with (flat_map proxy_lines ts).
    now apply IH.
Qed.

Lemma proxies_headers (ts : list Tunnel) :
  count_occ string_dec (flat_map proxy_lines ts) "[[proxies]]" = List.length ts.
Proof.
  induction ts as [|t ts IH]; [reflexivity|].
  cbn [flat_map List.length]. rewrite count_occ_app, IH.
  unfold proxy_lines. cbn. reflexivity.
Qed.

Lemma filter_enabled_twice (ts : list Tunnel) :
  filter is_enabled (filter is_enabled ts) = filter is_enabled ts.
Proof.
  induction ts as [|t ts IH]; [reflexivity|].
  cbn [filter]. destruct (is_enabled t) eqn:E; [|exact IH].
  cbn [filter]. now rewrite E, IH.
Qed.

(** *** The text and its lines *)

Lemma one_line_append (a b : string) :
  one_line (a ++ b) = one_line a && one_line b.
Proof.
  induction a as [|x a IH]; [reflexivity|]. cbn [append one_line].
  now rewrite IH, andb_assoc.
Qed.

Lemma lines_of_one_line (s : string) : one_line s = true -> lines_of s = [s].
Proof.
  induction s as [|a s IH]; [reflexivity|]. cbn [one_line lines_of].
  intros H. apply andb_prop in H as [Ha Hs]. apply negb_true_iff in Ha.
  now rewrite Ha, (IH Hs).
Qed.

Lemma lines_of_line (s rest : string) :
  one_line s = true -> lines_of (s ++ nl ++ rest) = s :: lines_of rest.
Proof.
  induction s as [|a s IH]; [reflexivity|]. cbn [one_line append lines_of].
  intros H. apply andb_prop in H as [Ha Hs]. apply negb_true_iff in Ha.
  now rewrite Ha, (IH Hs).
Qed.

Lemma lines_of_join (ls : list string) :
  ls <> [] -> forallb one_line ls = true -> lines_of (join nl ls) = ls.
Proof.
  unfold join. induction ls as [|x ls IH]; intros Hne H; [now destruct Hne|].
  cbn [forallb] in H. apply andb_prop in H as [Hx Hls].
  destruct ls as [|y ls]; [now apply lines_of_one_line|].
  change (String.concat nl (x :: y :: ls))
    with (x ++ nl ++ String.concat nl (y :: ls))%string.
  rewrite (lines_of_line _ _ Hx), IH; [reflexivity | discriminate | exact Hls].
Qed.

Lemma one_line_digits (d : Decimal.uint) :
  one_line (NilEmpty.string_of_uint d) = true.
Proof. induction d; cbn; assumption || reflexivity. Qed.

Lemma one_line_show (n : Z) : one_line (show n) = true.
Proof.
  unfold show, NilZero.string_of_int, NilZero.string_of_uint.
  destruct (Z.to_int n) as [d | d]; destruct d; cbn;
    try reflexivity; apply one_line_digits.
Qed.

Lemma one_line_proxy_lines (t : Tunnel) :
  one_line (name t) = true -> one_line (localIP t) = true ->
  forallb one_line (proxy_lines t) = true.
Proof.
  intros Hn Hi. unfold proxy_lines, quoted. cbn.
  rewrite !one_line_append, Hn, Hi, !one_line_show. now destruct (type t).
Qed.

Lemma one_line_frpc_lines (c : AppConfig) :
  plain c -> forallb one_line (frpc_lines c) = true.
Proof.
  intros (Ha & _ & Ht & Hts). unfold frpc_lines, global_lines, quoted.
  rewrite forallb_app. apply andb_true_intro. split.
  - cbn. now rewrite !one_line_append, Ha, Ht, one_line_show.
  - unfold enabled_tunnels in Hts.
    induction (filter is_enabled (tunnels c)) as [|t ts IH]; [reflexivity|].
    inversion Hts as [|t' ts' (Hn & Hi & _) Hrest]; subst.
    cbn [flat_map]. rewrite forallb_app, (one_line_proxy_lines t Hn Hi).
    now apply IH.
Qed.

(** The lines of the text are the lines that were pushed. *)
Lemma lines_of_rendering (c : AppConfig) :
  plain c -> lines_of (generateFrpcConfig c) = frpc_lines c.
Proof.
  intros H. apply lines_of_join; [discriminate | now apply one_line_frpc_lines].
Qed.

(** C5 (as the code has it).  Let nothing that is rendered of the
    configuration carry a line feed, and let the numbers that are rendered
    be safe integers.  Then the lines of the text that [generateFrpcConfig]
    returns are the five lines of the global section (server address,
    server port, a blank line, the auth method fixed to "token", the auth
    token), followed for the i-th enabled tunnel of the list, in the order
    of the list, by the seven lines of its block at offset 5 + 7 i (a blank
    line, the header [[proxies]], then name, type, localIP, localPort and
    remotePort).  The text has as many lines [[proxies]] as there are
    enabled tunnels, and it is the text rendered for the configuration with
    its disabled tunnels deleted: a disabled tunnel contributes nothing. *)
Theorem render_blocks_of_enabled_tunnels (c : AppConfig) :
  plain c ->
  firstn 5 (lines_of (generateFrpcConfig c))
  = [ ("serverAddr = " ++ quoted (serverAddr c))%string;
      ("serverPort = " ++ show (serverPort c))%string;
      EmptyString;
      ("auth.method = " ++ quoted "token")%string;
      ("auth.token = " ++ quoted (authToken c))%string ]
  /\ List.length (lines_of (generateFrpcConfig c))
     = (5 + 7 * List.length (enabled_tunnels c))%nat
  /\ (forall i t,
        nth_error (enabled_tunnels c) i = Some t ->
        firstn 7 (skipn (5 + 7 * i) (lines_of (generateFrpcConfig c)))
        = [ EmptyString;
            "[[proxies]]";
            ("name = " ++ quoted (name t))%string;
            ("type = " ++ quoted "tcp")%string;
            ("localIP = " ++ quoted (localIP t))%string;
            ("localPort = " ++ show (localPort t))%string;
            ("remotePort = " ++ show (remotePort t))%string ])
  /\ count_occ string_dec (lines_of (generateFrpcConfig c)) "[[proxies]]"
     = List.length (enabled_tunnels c)
  /\ generateFrpcConfig (without_disabled c) = generateFrpcConfig c.
Proof.
  intros Hp. rewrite (lines_of_rendering c Hp).
  unfold generateFrpcConfig, frpc_lines, without_disabled, enabled_tunnels.
  repeat split.
  - rewrite length_app, flat_map_proxy_length. reflexivity.
  - intros i t H.
    change (skipn (5 + 7 * i)
              (global_lines (serverAddr c) (serverPort c) (authToken c)
                 ++ flat_map proxy_lines (filter is_enabled (tunnels c))))
      with (skipn (7 * i) (flat_map proxy_lines (filter is_enabled (tunnels c)))).
    rewrite (block_at _ i t H). unfold proxy_lines. now destruct (type t).
  - rewrite count_occ_app, proxies_headers. reflexivity.
  - cbn [tunnels serverAddr serverPort authToken].
    now rewrite filter_enabled_twice.
Qed.

Lemma plain_one_disabled : plain one_disabled.
Proof.
  unfold plain, safe_integer. repeat split; try reflexivity; try (cbn; lia).
  repeat constructor; cbn; lia.
Qed.

(** An enabled, a disabled and an enabled tunnel: two blocks in the text. *)
Lemma render_blocks_of_enabled_tunnels_witness :
  count_occ string_dec (lines_of (generateFrpcConfig one_disabled)) "[[proxies]]"
  = 2%nat.
Proof.
  exact (proj1 (proj2 (proj2 (proj2
           (render_blocks_of_enabled_tunnels one_disabled plain_one_disabled))))).
Defined.

(** C5 (as the claim states it) fails: nothing that is rendered is escaped,
    so one enabled tunnel whose name carries line feeds renders as two
    blocks.  The configuration validates, has one enabled tunnel, and its
    text, with two lines [[proxies]], is byte for byte the text of the
    configuration with the two tunnels [web] and [db]. *)
Lemma name_with_line_feeds_renders_two_blocks :
  valid (validateConfig smuggled) = true
  /\ List.length (enabled_tunnels smuggled) = 1%nat
  /\ count_occ string_dec (lines_of (generateFrpcConfig smuggled)) "[[proxies]]"
     = 2%nat
  /\ generateFrpcConfig smuggled = generateFrpcConfig pair.
Proof. vm_compute. repeat split. Qed.

(** The rendering of a configuration with a disabled tunnel between two
    enabled ones. *)
Example render_one_disabled :
  frpc_lines one_disabled
  = global_lines "frp.example.com" 7000 "s3cret"
      ++ proxy_lines web ++ proxy_lines db.
Proof. reflexivity. Qed.

(** ** Settings.generateConfigPreview *)

(** C6 (as the code has it).  While the show-token toggle is off, the
    preview is the text that [generateFrpcConfig] renders for the edited
    configuration with the placeholder in place of the token: the line of
    the auth token shows twelve bullets when a token is present and nothing
    when it is absent, every other line is the line of the authoritative
    rendering, and the preview is the same for any two tokens that are both
    present or both absent. *)
Theorem preview_masks_token (s : Settings.State) :
  Settings.showToken s = false ->
  Settings.generateConfigPreview s
  = generateFrpcConfig
      (with_authToken (edited s) (placeholder (Settings.authToken s)))
  /\ nth_error (Settings.preview_lines s) 4
     = Some ("auth.token = " ++ quoted (placeholder (Settings.authToken s)))%string
  /\ (forall i, i <> 4%nat ->
        nth_error (Settings.preview_lines s) i
        = nth_error (frpc_lines (edited s)) i)
  /\ (forall token,
        truthy_str token = truthy_str (Settings.authToken s) ->
        Settings.generateConfigPreview (with_token s token)
        = Settings.generateConfigPreview s).
Proof.
  intros Hs.
  assert (Hm : Settings.maskedToken s = placeholder (Settings.authToken s)).
  { unfold Settings.maskedToken, placeholder. now rewrite Hs. }
  repeat split.
  - unfold Settings.generateConfigPreview, Settings.preview_lines. now rewrite Hm.
  - unfold Settings.preview_lines. now rewrite Hm.
  - intros i Hi. unfold Settings.preview_lines, frpc_lines, global_lines.
    do 5 (destruct i as [|i]; [reflexivity || congruence|]). reflexivity.
  - intros token Ht.
    unfold Settings.generateConfigPreview, Settings.preview_lines,
      Settings.maskedToken, with_token.
    cbn [Settings.showToken Settings.authToken Settings.serverAddr
         Settings.serverPort Settings.config].
    now rewrite Hs, Ht.
Qed.

Lemma preview_masks_token_witness :
  Settings.generateConfigPreview (Settings.initial home)
  = generateFrpcConfig (with_authToken home "••••••••••••").
Proof.
  exact (proj1 (preview_masks_token (Settings.initial home) eq_refl)).
Defined.

(** C6 (as the claim states it) fails: with the show-token toggle on, the
    token is present and the preview displays it. *)
Lemma preview_reveals_token_when_shown :
  truthy_str (Settings.authToken revealed) = true
  /\ nth_error (Settings.preview_lines revealed) 4
     = Some ("auth.token = " ++ quoted "s3cret")%string
  /\ includes (Settings.generateConfigPreview revealed)
              (Settings.authToken revealed) = true.
Proof. repeat split; vm_compute; reflexivity. Qed.

(** With the toggle off the token is masked, and still a token that occurs
    in the fixed text of the file occurs in the preview: what holds is that
    the preview does not depend on it. *)
Example preview_of_token_named_token :
  includes (Settings.generateConfigPreview
              (Settings.mkState "frp.example.com" 7000 "token" false home))
           "token" = true
  /\ Settings.generateConfigPreview
       (Settings.mkState "frp.example.com" 7000 "token" false home)
     = Settings.generateConfigPreview (Settings.initial home).
Proof. split; vm_compute; reflexivity. Qed.

(** ** ConfigManager.exportConfig *)

(** C10.  Two configurations that differ in nothing but the auth token
    export to the same text; in particular the text stays the same when the
    token of a configuration is replaced.  The object that is serialised has
    the properties serverAddr, serverPort, remotePortMin, remotePortMax,
    autoStart and tunnels, and no other. *)
Theorem export_ignores_token (c1 c2 : AppConfig) :
  serverAddr c1 = serverAddr c2 ->
  serverPort c1 = serverPort c2 ->
  remotePortMin c1 = remotePortMin c2 ->
  remotePortMax c1 = remotePortMax c2 ->
  autoStart c1 = autoStart c2 ->
  tunnels c1 = tunnels c2 ->
  exportConfig c1 = exportConfig c2
  /\ (forall token, exportConfig (with_authToken c1 token) = exportConfig c1)
  /\ keys (exportData c1)
     = [ "serverAddr"; "serverPort"; "remotePortMin"; "remotePortMax";
         "autoStart"; "tunnels" ].
Proof.
  intros Ha Hp Hmin Hmax Hs Ht. split; [|split; [|reflexivity]].
  - unfold exportConfig, exportData. now rewrite Ha, Hp, Hmin, Hmax, Hs, Ht.
  - intros token. reflexivity.
Qed.

(** The export of a configuration and of the same with another token. *)
Lemma export_ignores_token_witness :
  exportConfig home = exportConfig (with_authToken home "another token").
Proof.
  exact (proj1 (export_ignores_token home (with_authToken home "another token")
                  eq_refl eq_refl eq_refl eq_refl eq_refl eq_refl)).
Defined.

Example export_home :
  exportConfig (mkConfig "h" 7000 "s3cret" 6000 6100 true [])
  = ("{" ++ nl
     ++ "  " ++ quoted "serverAddr" ++ ": " ++ quoted "h" ++ "," ++ nl
     ++ "  " ++ quoted "serverPort" ++ ": 7000," ++ nl
     ++ "  " ++ quoted "remotePortMin" ++ ": 6000," ++ nl
     ++ "  " ++ quoted "remotePortMax" ++ ": 6100," ++ nl
     ++ "  " ++ quoted "autoStart" ++ ": true," ++ nl
     ++ "  " ++ quoted "tunnels" ++ ": []" ++ nl
     ++ "}")%string.
Proof. reflexivity. Qed.

(** ** FrpcManager: how the trace and the fields move *)

Lemma clear_reconnectTimer_trace (w : World) :
  trace (clear_reconnectTimer w) = trace w ++ clearing (reconnectTimer (this w)).
Proof.
  unfold clear_reconnectTimer. destruct (reconnectTimer (this w)); cbn.
  - reflexivity.
  - now rewrite app_nil_r.
Qed.

Lemma clear_reconnectTimer_fields (w : World) :
  process (this (clear_reconnectTimer w)) = process (this w)
  /\ lastError (this (clear_reconnectTimer w)) = lastError (this w)
  /\ autoReconnect (this (clear_reconnectTimer w)) = autoReconnect (this w)
  /\ reconnectAttempts (this (clear_reconnectTimer w)) = reconnectAttempts (this w)
  /\ intentionallyStopped (this (clear_reconnectTimer w)) = intentionallyStopped (this w)
  /\ reconnectTimer (this (clear_reconnectTimer w)) = None
  /\ config (clear_reconnectTimer w) = config w
  /\ children (clear_reconnectTimer w) = children w.
Proof.
  unfold clear_reconnectTimer.
  destruct (reconnectTimer (this w)) eqn:E; cbn; repeat split; assumption.
Qed.

(** ** FrpcManager.start: validation failure *)

Lemma start_invalid (env : Env) (w : World) :
  process (this w) = None ->
  valid (validateConfig (config w)) = false ->
  refused env w (join "; " (errors (validateConfig (config w)))).
Proof.
  intros Hp Hv.
  destruct (clear_reconnectTimer_fields w) as (Hq & _ & _ & _ & _ & _ & Hc & Hk).
  pose proof (clear_reconnectTimer_trace w) as Ht.
  unfold refused, start. rewrite Hp. cbn [config set_intentionallyStopped on_this].
  rewrite Hc, Hv. cbn. rewrite Hk, Ht, Hq, Hp, <- app_assoc. repeat split.
Qed.

Lemma empty_address_invalid (c : AppConfig) :
  serverAddr c = EmptyString ->
  valid (validateConfig c) = false
  /\ In "Server address is required" (errors (validateConfig c)).
Proof.
  intros H. unfold validateConfig, validation_errors, server_errors.
  rewrite H. cbn. split; [reflexivity | now left].
Qed.

(** C8.  When no process is associated and the configuration does not
    validate, [start()] resolves to false, the last error is the list of
    validation errors joined with "; ", the error is emitted, and nothing is
    written or spawned.  A configuration whose server address is empty does
    not validate, "Server address is required" is among its errors, and
    [start()] fails in this way. *)
Theorem start_rejects_invalid_config (env : Env) (w : World) :
  process (this w) = None ->
  (valid (validateConfig (config w)) = false ->
   refused env w (join "; " (errors (validateConfig (config w))))
   /\ count is_spawn (fst (start env w)) = count is_spawn w)
  /\ (serverAddr (config w) = EmptyString ->
      valid (validateConfig (config w)) = false
      /\ In "Server address is required" (errors (validateConfig (config w)))
      /\ refused env w (join "; " (errors (validateConfig (config w))))
      /\ count is_spawn (fst (start env w)) = count is_spawn w).
Proof.
  intros Hp.
  assert (H : valid (validateConfig (config w)) = false ->
              refused env w (join "; " (errors (validateConfig (config w))))
              /\ count is_spawn (fst (start env w)) = count is_spawn w).
  { intros Hv. pose proof (start_invalid env w Hp Hv) as R.
    split; [exact R|].
    destruct R as (_ & _ & _ & _ & Ht). unfold count. rewrite Ht, !filter_app.
    destruct (reconnectTimer (this w)); cbn; rewrite !length_app; cbn; lia. }
  split; [exact H|].
  intros Ha. destruct (empty_address_invalid _ Ha) as [Hv Hin].
  destruct (H Hv) as [R C]. exact (conj Hv (conj Hin (conj R C))).
Qed.

(** The scenario of the specification: server address "", port 7000, token
    "t". *)
Lemma start_rejects_invalid_config_witness :
  valid (validateConfig no_address) = false
  /\ In "Server address is required" (errors (validateConfig no_address))
  /\ refused plain_env (new_world no_address) "Server address is required"
  /\ count is_spawn (fst (start plain_env (new_world no_address))) = 0%nat.
Proof.
  exact (proj2 (start_rejects_invalid_config plain_env (new_world no_address) eq_refl)
               eq_refl).
Defined.

(** ** FrpcManager.findFrpcBinary *)

Lemma findFrpcBinary_located (env : Env) :
  findFrpcBinary env = Some (located env).
Proof.
  unfold findFrpcBinary, located, locations. cbn.
  destruct (existsSync env "/usr/local/bin/frpc"); [reflexivity|].
  destruct (existsSync env "/usr/bin/frpc"); [reflexivity|].
  destruct (existsSync env "/opt/frp-gui/frpc/frpc"); reflexivity.
Qed.

Lemma located_truthy (env : Env) : truthy_str (located env) = true.
Proof.
  unfold located.
  destruct (existsSync env "/usr/local/bin/frpc"); [reflexivity|].
  destruct (existsSync env "/usr/bin/frpc"); [reflexivity|].
  destruct (existsSync env "/opt/frp-gui/frpc/frpc"); reflexivity.
Qed.

(** C9 (as the claim states it) fails: there is no file system on which
    [findFrpcBinary] returns null or an empty path, so the branch of
    [start()] that reports a binary that was not found is never taken. *)
Lemma binary_locator_always_resolves :
  ~ exists env, findFrpcBinary env = None
                \/ findFrpcBinary env = Some EmptyString.
Proof.
  intros [env H]. rewrite findFrpcBinary_located in H.
  pose proof (located_truthy env) as T.
  destruct H as [H | H]; [discriminate|].
  injection H as H. rewrite H in T. discriminate.
Qed.

(** ** FrpcManager.start: the spawn *)

Lemma start_spawns (env : Env) (w : World) :
  ready env w -> spawn_throws env = None ->
  snd (start env w) = Resolved true
  /\ this (fst (start env w))
     = mkManager (Some (List.length (children w))) None (autoReconnect (this w))
                 (reconnectAttempts (this w)) None false
  /\ children (fst (start env w)) = children w ++ [mkChild false []]
  /\ config (fst (start env w)) = config w
  /\ timers (fst (start env w)) = timers (clear_reconnectTimer w)
  /\ trace (fst (start env w))
     = trace w ++ preparing env w
         ++ [ Spawn (List.length (children w)) (located env)
                    ["-c"; frpcConfigPath env];
              Emit_status running ].
Proof.
  intros (Hp & Hv & Hw) Hs. unfold start, preparing, clear_reconnectTimer.
  rewrite Hp. destruct (reconnectTimer (this w)) eqn:Et;
    cbn [config set_intentionallyStopped on_this set_reconnectTimer clearTimeout];
    rewrite Hv, Hw, findFrpcBinary_located, located_truthy, Hs; cbn;
    rewrite <- ?app_assoc; cbn; rewrite ?Et, ?Hp; repeat split.
Qed.

Lemma start_spawn_throws (env : Env) (w : World) (error : string) :
  ready env w -> spawn_throws env = Some error ->
  snd (start env w) = Resolved false
  /\ this (fst (start env w))
     = mkManager None (Some ("Failed to start frpc: " ++ error)%string)
                 (autoReconnect (this w)) (reconnectAttempts (this w)) None false
  /\ children (fst (start env w)) = children w
  /\ timers (fst (start env w)) = timers (clear_reconnectTimer w)
  /\ trace (fst (start env w))
     = trace w ++ preparing env w
         ++ [ Emit_error ("Failed to start frpc: " ++ error)%string ].
Proof.
  intros (Hp & Hv & Hw) Hs. unfold start, preparing, clear_reconnectTimer.
  rewrite Hp. destruct (reconnectTimer (this w)) eqn:Et;
    cbn [config set_intentionallyStopped on_this set_reconnectTimer clearTimeout];
    rewrite Hv, Hw, findFrpcBinary_located, located_truthy, Hs; cbn;
    rewrite <- ?app_assoc; cbn; rewrite ?Et, ?Hp; repeat split.
Qed.

(** The child that [start()] spawns has seen no success line. *)
Lemma started_child_fresh (env : Env) (w : World) :
  ready env w -> spawn_throws env = None ->
  process (this (fst (start env w))) = Some (List.length (children w))
  /\ fresh_child (List.length (children w)) (fst (start env w)).
Proof.
  intros R Hs. destruct (start_spawns env w R Hs) as (_ & Ht & Hc & _).
  rewrite Ht. split; [reflexivity|].
  unfold fresh_child, child_connected. rewrite Hc, length_app. cbn.
  rewrite nth_error_app2, Nat.sub_diag by lia. cbn. split; [lia | reflexivity].
Qed.

(** C9 (as the code has it).  [findFrpcBinary] always resolves: it returns
    the first of the three absolute locations that exists, and the bare name
    "frpc", to be looked up in PATH, when none does.  So a [start()] that
    has validated and written the configuration always goes on to spawn the
    path that was located.  When [spawn] returns, [start()] resolves to
    true, holds the process, has no last error and reports that it runs,
    whether or not an executable is there: a missing executable is not
    found out by [start()].  The runtime reports it afterwards by the
    ['error'] event of the process that was spawned, and the listener of
    that event then sets "Failed to start frpc: ..." as the last error,
    emits it, lets go of the process and reports that it has stopped,
    spawning nothing.  When [spawn] throws, [start()] resolves to false
    with "Failed to start frpc: ..." as its last error. *)
Theorem start_always_locates_binary (env : Env) (w : World) :
  findFrpcBinary env = Some (located env)
  /\ truthy_str (located env) = true
  /\ In (located env) locations
  /\ (located env = "frpc" \/ existsSync env (located env) = true)
  /\ (ready env w -> spawn_throws env = None ->
      snd (start env w) = Resolved true
      /\ process (this (fst (start env w))) = Some (List.length (children w))
      /\ lastError (this (fst (start env w))) = None
      /\ trace (fst (start env w))
         = trace w ++ preparing env w
             ++ [ Spawn (List.length (children w)) (located env)
                        ["-c"; frpcConfigPath env];
                  Emit_status running ])
  /\ (forall error, ready env w -> spawn_throws env = Some error ->
      snd (start env w) = Resolved false
      /\ process (this (fst (start env w))) = None
      /\ lastError (this (fst (start env w)))
         = Some ("Failed to start frpc: " ++ error)%string
      /\ trace (fst (start env w))
         = trace w ++ preparing env w
             ++ [ Emit_error ("Failed to start frpc: " ++ error)%string ])
  /\ (forall message, ready env w -> spawn_throws env = None ->
      lastError
        (this (step (Proc_error (List.length (children w)) message)
                    (fst (start env w))))
      = Some ("Failed to start frpc: " ++ message)%string
      /\ process
           (this (step (Proc_error (List.length (children w)) message)
                       (fst (start env w))))
         = None
      /\ count is_spawn
           (step (Proc_error (List.length (children w)) message)
                 (fst (start env w)))
         = count is_spawn (fst (start env w))
      /\ exists rest,
           trace (step (Proc_error (List.length (children w)) message)
                       (fst (start env w)))
           = trace (fst (start env w))
               ++ [ Emit_error ("Failed to start frpc: " ++ message)%string;
                    Emit_status stopped ]
               ++ rest).
Proof.
  split; [apply findFrpcBinary_located|].
  split; [apply located_truthy|].
  split; [|split; [|split; [|split]]].
  - unfold located, locations.
    destruct (existsSync env "/usr/local/bin/frpc"); [cbn; tauto|].
    destruct (existsSync env "/usr/bin/frpc"); [cbn; tauto|].
    destruct (existsSync env "/opt/frp-gui/frpc/frpc"); cbn; tauto.
  - unfold located.
    destruct (existsSync env "/usr/local/bin/frpc") eqn:E1; [now right|].
    destruct (existsSync env "/usr/bin/frpc") eqn:E2; [now right|].
    destruct (existsSync env "/opt/frp-gui/frpc/frpc") eqn:E3; [now right | now left].
  - intros R Hs. destruct (start_spawns env w R Hs) as (H1 & H2 & _ & _ & _ & H6).
    rewrite H2. repeat split; assumption.
  - intros error R Hs.
    destruct (start_spawn_throws env w error R Hs) as (H1 & H2 & _ & _ & H5).
    rewrite H2. repeat split; assumption.
  - intros message R Hs.
    destruct (start_spawns env w R Hs) as (_ & _ & Hc & _).
    cbn [step]. rewrite Hc, length_app. cbn [List.length].
    replace (List.length (children w) <? List.length (children w) + 1)%nat
      with true by (symmetry; apply Nat.ltb_lt; lia).
    generalize (fst (start env w)). intros w1.
    unfold on_error, handleDisconnect, count.
    cbn [this effect set_process set_lastError on_this intentionallyStopped
         autoReconnect reconnectAttempts].
    destruct (intentionallyStopped (this w1) || negb (autoReconnect (this w1)));
      [|destruct (reconnectAttempts (this w1) >=? maxReconnectAttempts)];
      cbn; rewrite ?filter_app, ?length_app; cbn; rewrite <- ?app_assoc; cbn;
      (repeat split; [lia | eexists; reflexivity]).
Qed.

(** With no absolute location holding the binary, [start()] spawns "frpc". *)
Lemma start_always_locates_binary_witness :
  snd (start plain_env (new_world home)) = Resolved true
  /\ In (Spawn 0 "frpc" ["-c"; frpcConfigPath plain_env]) (trace started).
Proof.
  destruct (proj1 (proj2 (proj2 (proj2 (proj2
             (start_always_locates_binary plain_env (new_world home))))))
             (conj eq_refl (conj eq_refl eq_refl)) eq_refl)
    as (H1 & _ & _ & H4).
  split; [exact H1|]. unfold started. rewrite H4. cbn. tauto.
Defined.

(** No location holds an executable: [start()] reports that the client
    runs, and the failure arrives by the ['error'] event. *)
Example missing_executable_reported_by_error :
  snd (start plain_env (new_world home)) = Resolved true
  /\ getStatus started = mkFrpcStatus true None
  /\ getStatus (step (Proc_error 0 "spawn frpc ENOENT") started)
     = mkFrpcStatus false (Some "Failed to start frpc: spawn frpc ENOENT").
Proof. vm_compute. repeat split. Qed.

(** ** FrpcManager.handleDisconnect *)

Lemma handleDisconnect_skipped (w : World) :
  intentionallyStopped (this w) = true \/ autoReconnect (this w) = false ->
  handleDisconnect w = w.
Proof.
  unfold handleDisconnect. intros [H | H]; rewrite H.
  - reflexivity.
  - now rewrite orb_true_r.
Qed.

Lemma handleDisconnect_retries (w : World) :
  autoReconnect (this w) = true ->
  intentionallyStopped (this w) = false ->
  reconnectAttempts (this w) < 5 ->
  this (handleDisconnect w)
  = mkManager (process (this w)) (lastError (this w)) true
              (reconnectAttempts (this w) + 1) (Some (next_timer w)) false
  /\ timers (handleDisconnect w)
     = timers w ++ [(next_timer w, (Reconnect, 5000 * (reconnectAttempts (this w) + 1)))]
  /\ children (handleDisconnect w) = children w
  /\ config (handleDisconnect w) = config w
  /\ exists line,
       trace (handleDisconnect w)
       = trace w ++ [ Emit_log line;
                      SetTimeout (next_timer w) Reconnect
                                 (5000 * (reconnectAttempts (this w) + 1)) ].
Proof.
  intros Ha Hs Hn. unfold handleDisconnect. rewrite Ha, Hs. cbn [orb negb].
  assert (E : (reconnectAttempts (this w) >=? maxReconnectAttempts) = false)
    by (unfold maxReconnectAttempts; lia).
  rewrite E. cbn -[Z.mul Z.add Z.div show]. rewrite Ha, Hs, <- app_assoc.
  repeat split. eexists. reflexivity.
Qed.

Lemma handleDisconnect_gives_up (w : World) :
  autoReconnect (this w) = true ->
  intentionallyStopped (this w) = false ->
  5 <= reconnectAttempts (this w) ->
  this (handleDisconnect w) = this w
  /\ timers (handleDisconnect w) = timers w
  /\ children (handleDisconnect w) = children w
  /\ config (handleDisconnect w) = config w
  /\ trace (handleDisconnect w)
     = trace w ++ [ Emit_log "[GUI] Max reconnect attempts (5) reached";
                    ShowNotification "FRP Reconnect Failed"
                                     "Max reconnection attempts reached" ].
Proof.
  intros Ha Hs Hn. unfold handleDisconnect. rewrite Ha, Hs. cbn [orb negb].
  assert (E : (reconnectAttempts (this w) >=? maxReconnectAttempts) = true)
    by (unfold maxReconnectAttempts; lia).
  rewrite E. cbn. rewrite <- app_assoc. repeat split.
Qed.

Lemma handleDisconnect_keeps (w : World) :
  lastError (this (handleDisconnect w)) = lastError (this w)
  /\ process (this (handleDisconnect w)) = process (this w).
Proof.
  unfold handleDisconnect.
  destruct (intentionallyStopped (this w) || negb (autoReconnect (this w)));
    [split; reflexivity|].
  destruct (reconnectAttempts (this w) >=? maxReconnectAttempts); split; reflexivity.
Qed.

(** ** Reading the trace of an extended world *)

Lemma retries_extended (w w' : World) (d : list Effect) :
  trace w' = trace w ++ d -> retries w' = retries w ++ flat_map retry_delay d.
Proof. unfold retries. intros ->. apply flat_map_app. Qed.

Lemma count_extended (p : Effect -> bool) (w w' : World) (d : list Effect) :
  trace w' = trace w ++ d ->
  count p w' = (count p w + List.length (filter p d))%nat.
Proof. unfold count. intros ->. now rewrite filter_app, length_app. Qed.

(** ** Routine steps *)

Lemma routine_no_retry (d : list Effect) :
  forallb routine d = true -> flat_map retry_delay d = [].
Proof.
  induction d as [|e d IH]; [reflexivity|]. cbn [forallb flat_map].
  intros H. apply andb_prop in H as [He Hd]. rewrite (IH Hd), app_nil_r.
  destruct e; try reflexivity. destruct action; [discriminate | reflexivity].
Qed.

Lemma routine_no_spawn (d : list Effect) :
  forallb routine d = true -> filter is_spawn d = [].
Proof.
  induction d as [|e d IH]; [reflexivity|]. cbn [forallb filter].
  intros H. apply andb_prop in H as [He Hd]. rewrite (IH Hd).
  destruct e; try reflexivity. discriminate.
Qed.

Lemma routine_no_notification (title : string) (d : list Effect) :
  title <> "FRP Disconnected" ->
  forallb routine d = true -> filter (is_notification title) d = [].
Proof.
  intros Ht. induction d as [|e d IH]; [reflexivity|]. cbn [forallb filter].
  intros H. apply andb_prop in H as [He Hd]. rewrite (IH Hd).
  destruct e; try reflexivity. cbn in He |- *.
  apply String.eqb_eq in He. subst.
  destruct (String.eqb_spec "FRP Disconnected" title); [congruence | reflexivity].
Qed.

Lemma quiet_refl (w : World) : quiet w w.
Proof.
  unfold quiet. repeat split. exists []. now rewrite app_nil_r.
Qed.

Lemma quiet_trans (w1 w2 w3 : World) : quiet w1 w2 -> quiet w2 w3 -> quiet w1 w3.
Proof.
  intros (a1 & b1 & c1 & d1 & t1 & r1) (a2 & b2 & c2 & d2 & t2 & r2).
  unfold quiet. repeat split; try congruence.
  exists (d1 ++ d2). rewrite t2, t1, <- app_assoc, forallb_app, r1, r2. now split.
Qed.

Lemma quiet_retries (w w' : World) : quiet w w' -> retries w' = retries w.
Proof.
  intros (_ & _ & _ & d & Ht & Hr).
  rewrite (retries_extended w w' d Ht), (routine_no_retry d Hr). apply app_nil_r.
Qed.

Lemma quiet_spawns (w w' : World) : quiet w w' -> count is_spawn w' = count is_spawn w.
Proof.
  intros (_ & _ & _ & d & Ht & Hr).
  rewrite (count_extended _ w w' d Ht), (routine_no_spawn d Hr). cbn. lia.
Qed.

Lemma quiet_notifications (title : string) (w w' : World) :
  title <> "FRP Disconnected" -> quiet w w' ->
  count (is_notification title) w' = count (is_notification title) w.
Proof.
  intros Hne (_ & _ & _ & d & Ht & Hr).
  rewrite (count_extended _ w w' d Ht), (routine_no_notification title d Hne Hr).
  cbn. lia.
Qed.

(** The bookkeeping of the ['exit'] listener, up to [handleDisconnect]. *)
Lemma on_exit_shape (child : nat) (code : option Z) (signal : option string)
      (w : World) :
  exists w1,
    on_exit child code signal w = handleDisconnect w1
    /\ quiet w w1
    /\ process (this w1) = None
    /\ reconnectTimer (this w1) = reconnectTimer (this w)
    /\ timers w1 = timers w
    /\ next_timer w1 = next_timer w
    /\ children w1 = children w.
Proof.
  unfold on_exit. eexists. split; [reflexivity|].
  unfold child_connected, quiet.
  destruct code as [k|]; [destruct (negb (k =? 0))|];
    cbn [children effect set_process set_lastError on_this];
    destruct (nth_error (children w) child) as [[[] o]|];
    cbn; repeat split; by_extension.
Qed.

(** The bookkeeping of the ['error'] listener, up to [handleDisconnect]. *)
Lemma on_error_shape (message : string) (w : World) :
  exists w1,
    on_error message w = handleDisconnect w1
    /\ quiet w w1
    /\ process (this w1) = None
    /\ lastError (this w1) = Some ("Failed to start frpc: " ++ message)%string
    /\ reconnectTimer (this w1) = reconnectTimer (this w)
    /\ timers w1 = timers w
    /\ next_timer w1 = next_timer w
    /\ children w1 = children w.
Proof.
  unfold on_error. eexists. split; [reflexivity|].
  unfold quiet. cbn. repeat split. by_extension.
Qed.

(** The [once('exit')] listeners of [stop()]. *)
Lemma stop_listeners_quiet (once : list nat) (w : World) :
  quiet w (fold_left stop_exit_listener once w)
  /\ children (fold_left stop_exit_listener once w) = children w.
Proof.
  revert w. induction once as [|t once IH]; intros w; cbn [fold_left].
  - split; [apply quiet_refl | reflexivity].
  - destruct (IH (stop_exit_listener w t)) as [Hq Hc]. split.
    + eapply quiet_trans; [|exact Hq]. unfold quiet. cbn. repeat split.
      by_extension.
    + rewrite Hc. reflexivity.
Qed.

Lemma exit_listeners_shape (child : nat) (code : option Z) (signal : option string)
      (w : World) :
  exists w1,
    quiet w w1
    /\ quiet (handleDisconnect w1) (exit_listeners child code signal w)
    /\ process (this w1) = None
    /\ reconnectTimer (this w1) = reconnectTimer (this w)
    /\ timers w1 = timers w
    /\ next_timer w1 = next_timer w
    /\ children w1 = children w.
Proof.
  destruct (on_exit_shape child code signal w) as (w1 & E & H).
  exists w1. split; [apply H|]. split; [|apply H].
  unfold exit_listeners. rewrite E.
  eapply quiet_trans; [|apply stop_listeners_quiet].
  unfold quiet. cbn. repeat split. exists []. now rewrite app_nil_r.
Qed.

(** ** The reconnect sub-flow after an exit *)

Lemma start_keeps_attempts (env : Env) (w : World) :
  reconnectAttempts (this (fst (start env w))) = reconnectAttempts (this w).
Proof.
  unfold start, binary_not_found, clear_reconnectTimer.
  destruct (process (this w)); [reflexivity|].
  destruct (reconnectTimer (this w)); cbn [config set_intentionallyStopped
    on_this set_reconnectTimer clearTimeout];
    destruct (negb (valid (validateConfig (config w)))); try reflexivity;
    destruct (writeFileSync_throws env); try reflexivity;
    destruct (findFrpcBinary env) as [path|]; try reflexivity;
    destruct (negb (truthy_str path)); try reflexivity;
    destruct (spawn_throws env); reflexivity.
Qed.

Lemma timeout_keeps_attempts (t : nat) (env : Env) (w : World) :
  reconnectAttempts (this (step (Timeout t env) w)) = reconnectAttempts (this w).
Proof.
  cbn [step]. destruct (pending t w) as [[[] delay]|]; [| |reflexivity].
  - now rewrite start_keeps_attempts.
  - unfold force_kill. cbn. now destruct (process (this w)).
Qed.

(** C3.  Let auto-reconnect be enabled and the stop not intentional, and let
    a spawned process exit while the attempt counter stands at n - 1.  For n
    from 1 to 5 the counter becomes n and exactly one retry is scheduled,
    with a delay of 5000 n milliseconds, and no max-attempts notification
    is shown.  When the counter stands at five (n = 6), the counter stays,
    no retry is scheduled, and the notification "FRP Reconnect Failed" is
    shown once.  The retry, when it fires, leaves the counter as it is, so
    consecutive exits count 1, 2, 3, 4, 5. *)
Theorem exit_schedules_linear_backoff
        (w : World) (child : nat) (code : option Z) (signal : option string)
        (n : Z) :
  (child < List.length (children w))%nat ->
  autoReconnect (this w) = true ->
  intentionallyStopped (this w) = false ->
  reconnectAttempts (this w) = n - 1 ->
  (1 <= n <= 5 ->
   reconnectAttempts (this (step (Proc_exit child code signal) w)) = n
   /\ retries (step (Proc_exit child code signal) w) = retries w ++ [5000 * n]
   /\ count (is_notification "FRP Reconnect Failed")
            (step (Proc_exit child code signal) w)
      = count (is_notification "FRP Reconnect Failed") w)
  /\ (n = 6 ->
      reconnectAttempts (this (step (Proc_exit child code signal) w)) = 5
      /\ retries (step (Proc_exit child code signal) w) = retries w
      /\ count (is_notification "FRP Reconnect Failed")
               (step (Proc_exit child code signal) w)
         = S (count (is_notification "FRP Reconnect Failed") w))
  /\ (forall t env,
        reconnectAttempts
          (this (step (Timeout t env) (step (Proc_exit child code signal) w)))
        = reconnectAttempts (this (step (Proc_exit child code signal) w))).
Proof.
  intros Hc Ha Hs Hn. cbn [step].
  apply Nat.ltb_lt in Hc. rewrite Hc.
  destruct (exit_listeners_shape child code signal w)
    as (w1 & Q1 & Q2 & _ & _ & _ & _ & _).
  pose proof Q1 as (Ha1 & Hn1 & Hs1 & _).
  pose proof Q2 as (_ & Hn2 & _ & _).
  rewrite Ha in Ha1. rewrite Hs in Hs1.
  assert (Hne : "FRP Reconnect Failed" <> "FRP Disconnected") by discriminate.
  split; [|split].
  - intros Hr.
    destruct (handleDisconnect_retries w1 Ha1 Hs1) as (Ht & _ & _ & _ & line & Htr);
      [lia|].
    rewrite Hn2, Ht. cbn [reconnectAttempts].
    rewrite (quiet_retries _ _ Q2), (retries_extended _ _ _ Htr),
      (quiet_retries _ _ Q1).
    rewrite (quiet_notifications _ _ _ Hne Q2), (count_extended _ _ _ _ Htr),
      (quiet_notifications _ _ _ Hne Q1).
    rewrite Hn1, Hn. cbn. replace (n - 1 + 1) with n by lia.
    repeat split. lia.
  - intros ->.
    destruct (handleDisconnect_gives_up w1 Ha1 Hs1) as (Ht & _ & _ & _ & Htr);
      [lia|].
    rewrite Hn2, Ht.
    rewrite (quiet_retries _ _ Q2), (retries_extended _ _ _ Htr),
      (quiet_retries _ _ Q1).
    rewrite (quiet_notifications _ _ _ Hne Q2), (count_extended _ _ _ _ Htr),
      (quiet_notifications _ _ _ Hne Q1).
    rewrite Hn1, Hn. cbn. rewrite app_nil_r. repeat split; lia.
  - intros t env. apply timeout_keeps_attempts.
Qed.

(** The first exit of the first process schedules a retry after 5000 ms. *)
Lemma exit_schedules_linear_backoff_witness :
  reconnectAttempts (this (step (Proc_exit 0 (Some 1) None) started)) = 1
  /\ retries (step (Proc_exit 0 (Some 1) None) started) = [5000]
  /\ count (is_notification "FRP Reconnect Failed")
           (step (Proc_exit 0 (Some 1) None) started) = 0%nat.
Proof.
  apply (proj1 (exit_schedules_linear_backoff started 0 (Some 1) None 1
                  (Nat.lt_0_succ 0) eq_refl eq_refl eq_refl)).
  lia.
Defined.

(** The scenario of the specification: the process keeps exiting with code 1.
    Five retries are scheduled, after 5, 10, 15, 20 and 25 seconds; the sixth
    exit shows the max-attempts notification, schedules nothing, and leaves
    no timer pending. *)
Example five_retries_then_give_up :
  retries (run crash_loop started) = [5000; 10000; 15000; 20000; 25000]
  /\ count (is_notification "FRP Reconnect Failed") (run crash_loop started) = 1%nat
  /\ count is_spawn (run crash_loop started) = 6%nat
  /\ timers (run crash_loop started) = []
  /\ reconnectAttempts (this (run crash_loop started)) = 5.
Proof. vm_compute. repeat split. Qed.

(** ** The listener of standard output *)

Lemma update_child_length (f : Child -> Child) (cs : list Child) :
  forall child, List.length (update_child f child cs) = List.length cs.
Proof.
  induction cs as [|c cs IH]; intros [|k]; cbn; try reflexivity. now rewrite IH.
Qed.

Lemma update_child_nth (f : Child -> Child) (cs : list Child) :
  forall child c, nth_error cs child = Some c ->
  nth_error (update_child f child cs) child = Some (f c).
Proof.
  induction cs as [|c0 cs IH]; intros [|k] c H; try discriminate; cbn in *.
  - now injection H as ->.
  - now apply IH.
Qed.

(** A line that is no success line, or any line once the child is connected,
    is only logged. *)
Lemma stdout_line_logged (child : nat) (w : World) (line : string) :
  is_success_line line = false \/ child_connected child w = true ->
  stdout_line child w line = effect (Emit_log line) w.
Proof.
  unfold stdout_line. intros [H | H].
  - now rewrite H.
  - destruct (is_success_line line); [|reflexivity].
    unfold child_connected in *. cbn [children effect]. now rewrite H.
Qed.

(** The first success line that a child emits. *)
Lemma stdout_line_connects (child : nat) (w : World) (line : string) :
  fresh_child child w -> is_success_line line = true ->
  let w' := stdout_line child w line in
  reconnectAttempts (this w') = 0
  /\ child_connected child w' = true
  /\ List.length (children w') = List.length (children w)
  /\ trace w' = trace w ++ [ Emit_log line;
                             ShowNotification "FRP Connected"
                               "Successfully connected to FRP server" ].
Proof.
  intros [Hlt Hc] Hl. unfold stdout_line. rewrite Hl.
  unfold child_connected in *. cbn [children effect]. rewrite Hc.
  cbn [negb]. cbn. rewrite update_child_length, <- app_assoc.
  destruct (nth_error (children w) child) as [c|] eqn:E.
  - rewrite (update_child_nth _ _ _ _ E). repeat split.
  - apply nth_error_None in E. lia.
Qed.

Lemma on_stdout_logged (child : nat) (lines : list string) :
  forall w,
    existsb is_success_line lines = false \/ child_connected child w = true ->
    quiet w (on_stdout child lines w)
    /\ children (on_stdout child lines w) = children w.
Proof.
  unfold on_stdout.
  induction lines as [|line lines IH]; intros w H; cbn [fold_left].
  - split; [apply quiet_refl | reflexivity].
  - assert (H1 : is_success_line line = false \/ child_connected child w = true).
    { destruct H as [H | H]; [left | now right].
      cbn in H. now apply orb_false_elim in H as [H _]. }
    rewrite (stdout_line_logged child w line H1).
    destruct (IH (effect (Emit_log line) w)) as [Q C].
    { destruct H as [H | H]; [left | now right].
      cbn in H. now apply orb_false_elim in H as [_ H]. }
    split; [|exact C].
    eapply quiet_trans; [|exact Q].
    unfold quiet. cbn. repeat split. now exists [Emit_log line].
Qed.

Lemma first_success (lines : list string) :
  existsb is_success_line lines = true ->
  exists before line after,
    lines = before ++ line :: after
    /\ existsb is_success_line before = false
    /\ is_success_line line = true.
Proof.
  induction lines as [|l lines IH]; [discriminate|]. cbn [existsb].
  destruct (is_success_line l) eqn:E.
  - intros _. now exists [], l, lines.
  - intros H. destruct (IH H) as (before & line & after & -> & Hb & Hl).
    exists (l :: before), line, after. cbn. now rewrite E.
Qed.

Lemma on_stdout_children (child : nat) (lines : list string) :
  forall w, List.length (children (on_stdout child lines w)) = List.length (children w).
Proof.
  unfold on_stdout.
  induction lines as [|line lines IH]; intros w; cbn [fold_left]; [reflexivity|].
  rewrite IH. unfold stdout_line.
  destruct (is_success_line line); [|reflexivity].
  destruct (negb (child_connected child (effect (Emit_log line) w))); [|reflexivity].
  cbn. apply update_child_length.
Qed.

(** Chunk after chunk is line after line. *)
Lemma run_stdout (child : nat) (chunks : list (list string)) :
  forall w, (child < List.length (children w))%nat ->
  run (map (Stdout child) chunks) w = on_stdout child (List.concat chunks) w.
Proof.
  unfold run.
  induction chunks as [|lines chunks IH]; intros w H; cbn [map fold_left List.concat].
  - reflexivity.
  - cbn [step]. pose proof H as Hb. apply Nat.ltb_lt in Hb. rewrite Hb.
    rewrite IH by (now rewrite on_stdout_children).
    unfold on_stdout. now rewrite fold_left_app.
Qed.

(** What the lines up to the first success line do, and what the lines after
    it do. *)
Lemma on_stdout_first_success (child : nat) (w : World)
      (before : list string) (line : string) (after : list string) :
  fresh_child child w ->
  existsb is_success_line before = false ->
  is_success_line line = true ->
  count (is_notification "FRP Connected") (on_stdout child before w)
  = count (is_notification "FRP Connected") w
  /\ count (is_notification "FRP Connected") (on_stdout child (before ++ [line]) w)
     = S (count (is_notification "FRP Connected") w)
  /\ reconnectAttempts (this (on_stdout child (before ++ [line]) w)) = 0
  /\ count (is_notification "FRP Connected")
           (on_stdout child (before ++ line :: after) w)
     = S (count (is_notification "FRP Connected") w)
  /\ reconnectAttempts (this (on_stdout child (before ++ line :: after) w)) = 0.
Proof.
  intros [Hlt Hc] Hb Hl.
  assert (Hne : "FRP Connected" <> "FRP Disconnected") by discriminate.
  destruct (on_stdout_logged child before w (or_introl Hb)) as [Q1 C1].
  set (w1 := on_stdout child before w) in *.
  assert (F1 : fresh_child child w1).
  { unfold fresh_child, child_connected. rewrite C1. now split. }
  destruct (stdout_line_connects child w1 line F1 Hl) as (A2 & K2 & _ & T2).
  set (w2 := stdout_line child w1 line) in *.
  assert (E2 : on_stdout child (before ++ [line]) w = w2).
  { unfold on_stdout. rewrite fold_left_app. reflexivity. }
  assert (N2 : count (is_notification "FRP Connected") w2
               = S (count (is_notification "FRP Connected") w)).
  { rewrite (count_extended _ _ _ _ T2), (quiet_notifications _ _ _ Hne Q1).
    cbn. lia. }
  destruct (on_stdout_logged child after w2 (or_intror K2)) as [Q3 _].
  assert (E3 : on_stdout child (before ++ line :: after) w = on_stdout child after w2).
  { unfold on_stdout. rewrite fold_left_app. reflexivity. }
  rewrite E2, E3, (quiet_notifications _ _ _ Hne Q1),
    (quiet_notifications _ _ _ Hne Q3), N2.
  destruct Q3 as (_ & A3 & _). rewrite A3, A2. repeat split.
Qed.

(** C4.  Let a process have been spawned and have emitted no success line
    yet, and let the chunks of standard output that it goes on to emit
    contain, among their lines, at least one with "login to server success"
    or "start proxy success".  Then the notification "FRP Connected" is
    shown exactly once, however many lines match, and the attempt counter is
    zero afterwards.  Up to the first matching line nothing is shown; that
    line shows the notification and resets the counter. *)
Theorem connected_notification_fires_once
        (w : World) (child : nat) (chunks : list (list string)) :
  fresh_child child w ->
  existsb is_success_line (List.concat chunks) = true ->
  count (is_notification "FRP Connected") (run (map (Stdout child) chunks) w)
  = S (count (is_notification "FRP Connected") w)
  /\ reconnectAttempts (this (run (map (Stdout child) chunks) w)) = 0
  /\ (forall before line after,
        List.concat chunks = before ++ line :: after ->
        existsb is_success_line before = false ->
        is_success_line line = true ->
        count (is_notification "FRP Connected") (on_stdout child before w)
        = count (is_notification "FRP Connected") w
        /\ count (is_notification "FRP Connected")
                 (on_stdout child (before ++ [line]) w)
           = S (count (is_notification "FRP Connected") w)
        /\ reconnectAttempts (this (on_stdout child (before ++ [line]) w)) = 0).
Proof.
  intros F H. rewrite (run_stdout child chunks w (proj1 F)).
  destruct (first_success _ H) as (before & line & after & E & Hb & Hl).
  destruct (on_stdout_first_success child w before line after F Hb Hl)
    as (_ & _ & _ & N & A).
  rewrite E. split; [exact N|]. split; [exact A|].
  intros before' line' after' _ Hb' Hl'.
  destruct (on_stdout_first_success child w before' line' after' F Hb' Hl')
    as (N1 & N2 & A2 & _). repeat split; assumption.
Qed.

(** A process spawned by a retry, one attempt having been counted, logs in
    and starts two proxies, in two chunks: one notification, and the counter
    is back to zero. *)
Lemma connected_notification_fires_once_witness :
  reconnectAttempts (this restarted) = 1
  /\ count (is_notification "FRP Connected")
           (run (map (Stdout 1)
                     [ ["login to server success"; "[web] start proxy success"];
                       ["[db] start proxy success"] ])
                restarted)
     = 1%nat
  /\ reconnectAttempts
       (this (run (map (Stdout 1)
                       [ ["login to server success"; "[web] start proxy success"];
                         ["[db] start proxy success"] ])
                  restarted))
     = 0.
Proof.
  split; [reflexivity|].
  destruct (connected_notification_fires_once restarted 1
              [ ["login to server success"; "[web] start proxy success"];
                ["[db] start proxy success"] ]
              (conj (le_n 2) eq_refl) eq_refl) as (N & A & _).
  split; [exact N | exact A].
Defined.

(** ** FrpcManager.stop and what may follow it *)

Lemma unschedule_retries (t : nat) (l : list (nat * (TimerAction * Z))) :
  filter is_reconnect (unschedule t l)
  = filter (fun p => negb (fst p =? t)%nat) (filter is_reconnect l).
Proof.
  unfold unschedule. induction l as [|p l IH]; [reflexivity|]. cbn [filter].
  destruct (negb (fst p =? t)%nat) eqn:E1; destruct (is_reconnect p) eqn:E2;
    cbn [filter]; rewrite ?E1, ?E2, IH; reflexivity.
Qed.

Lemma unschedule_halts (t : nat) (l : list (nat * (TimerAction * Z))) :
  filter is_reconnect l = [] -> filter is_reconnect (unschedule t l) = [].
Proof. intros H. now rewrite unschedule_retries, H. Qed.

Lemma slot_clears (w : World) :
  retry_in_slot w -> pending_retries (clear_reconnectTimer w) = [].
Proof.
  unfold retry_in_slot, clear_reconnectTimer, pending_retries.
  intros H. destruct (reconnectTimer (this w)) as [t|] eqn:Et.
  - cbn [timers set_reconnectTimer on_this clearTimeout].
    rewrite unschedule_retries.
    destruct (filter _ (filter is_reconnect (timers w))) as [|p l] eqn:E;
      [reflexivity|].
    assert (Hp : In p (p :: l)) by now left.
    rewrite <- E in Hp. apply filter_In in Hp as [Hp Hne].
    specialize (H p Hp). injection H as H. rewrite H, Nat.eqb_refl in Hne.
    discriminate.
  - destruct (filter is_reconnect (timers w)) as [|p l]; [reflexivity|].
    specialize (H p (or_introl eq_refl)). discriminate.
Qed.

Lemma pending_retry_listed (t : nat) (delay : Z) (w : World) :
  pending t w = Some (Reconnect, delay) -> pending_retries w <> [].
Proof.
  unfold pending, pending_retries. intros H.
  destruct (find _ (timers w)) as [p|] eqn:E; [|discriminate].
  apply find_some in E as [Hin _]. cbn in H. injection H as H.
  assert (Hp : In p (filter is_reconnect (timers w))).
  { apply filter_In. split; [exact Hin|]. unfold is_reconnect. now rewrite H. }
  intros N. rewrite N in Hp. destruct Hp.
Qed.

Lemma stop_trace (w : World) :
  exists rest,
    trace (fst (stop w)) = trace w ++ clearing (reconnectTimer (this w)) ++ rest
    /\ filter is_spawn rest = []
    /\ flat_map retry_delay rest = []
    /\ (process (this w) = None ->
        rest = [Emit_log "[GUI] FRP client is not running"]).
Proof.
  unfold stop, clear_reconnectTimer. cbn.
  destruct (reconnectTimer (this w)) as [t|]; cbn;
    destruct (process (this w)) as [child|]; cbn;
    eexists; (split; [rewrite <- ?app_assoc; cbn; reflexivity|]);
    repeat split; discriminate.
Qed.

Lemma stop_fields (w : World) :
  intentionallyStopped (this (fst (stop w))) = true
  /\ reconnectTimer (this (fst (stop w))) = None
  /\ (process (this w) = None ->
      snd (stop w) = Resolved true
      /\ process (this (fst (stop w))) = None
      /\ children (fst (stop w)) = children w).
Proof.
  unfold stop, clear_reconnectTimer. cbn.
  destruct (reconnectTimer (this w)) as [t|] eqn:Et; cbn;
    destruct (process (this w)) as [child|] eqn:Ep; cbn;
    repeat split; try discriminate; assumption.
Qed.

Lemma stop_halts (w : World) : retry_in_slot w -> halted (fst (stop w)).
Proof.
  intros H. split; [apply stop_fields|].
  assert (R : retry_in_slot (set_intentionallyStopped true w)) by exact H.
  apply slot_clears in R. revert R.
  unfold stop. set (w1 := clear_reconnectTimer (set_intentionallyStopped true w)).
  intros R. destruct (process (this w1)); [|exact R].
  unfold pending_retries in *. cbn. now rewrite filter_app, R.
Qed.

Lemma halted_in_slot (w : World) : halted w -> retry_in_slot w.
Proof. intros [_ H] p Hp. rewrite H in Hp. destruct Hp. Qed.

Lemma stop_listeners_timers (once : list nat) :
  forall w, pending_retries w = [] ->
  pending_retries (fold_left stop_exit_listener once w) = [].
Proof.
  induction once as [|t once IH]; intros w H; cbn [fold_left]; [exact H|].
  apply IH. unfold pending_retries in *. cbn. now apply unschedule_halts.
Qed.

Lemma on_stdout_calm (child : nat) (lines : list string) :
  forall w,
    intentionallyStopped (this (on_stdout child lines w)) = intentionallyStopped (this w)
    /\ timers (on_stdout child lines w) = timers w
    /\ count is_spawn (on_stdout child lines w) = count is_spawn w
    /\ retries (on_stdout child lines w) = retries w.
Proof.
  unfold on_stdout.
  induction lines as [|line lines IH]; intros w; cbn [fold_left].
  - repeat split.
  - destruct (IH (stdout_line child w line)) as (I1 & I2 & I3 & I4).
    rewrite I1, I2, I3, I4. unfold stdout_line, count, retries.
    destruct (is_success_line line);
      [destruct (negb (child_connected child (effect (Emit_log line) w)))|];
      cbn; rewrite ?flat_map_app, ?filter_app, ?length_app; cbn;
      rewrite ?app_nil_r; repeat split; lia.
Qed.

Lemma on_stderr_quiet (lines : list string) :
  forall w, quiet w (on_stderr lines w) /\ timers (on_stderr lines w) = timers w.
Proof.
  unfold on_stderr.
  induction lines as [|line lines IH]; intros w; cbn [fold_left].
  - split; [apply quiet_refl | reflexivity].
  - destruct (IH (effect (Emit_log ("[ERR] " ++ line)%string) w)) as [Q T].
    split; [|exact T]. eapply quiet_trans; [|exact Q].
    unfold quiet. cbn. repeat split. now eexists [_].
Qed.

Lemma quiet_uneventful (w w' : World) :
  halted w -> quiet w w' -> pending_retries w' = [] -> uneventful w w'.
Proof.
  intros [Hs _] Q T. pose proof Q as (_ & _ & Hs' & _).
  repeat split.
  - congruence.
  - exact T.
  - now apply quiet_spawns.
  - now apply quiet_retries.
Qed.

(** Once the supervisor is halted, nothing but a [start()] of the operator's
    makes it start again. *)
Lemma step_uneventful (e : Event) (w : World) :
  not_operator_start e = true -> halted w ->
  uneventful w (step e w) /\ fires_retry e w = false.
Proof.
  intros He Hh. pose proof Hh as [Hs Hp].
  destruct e as [env | | enabled | t env | child lines | child lines
                 | child message | child code signal];
    try discriminate; cbn [step fires_retry].
  - (* stop *)
    split; [|reflexivity].
    destruct (stop_trace w) as (rest & Ht & S1 & S2 & _).
    split; [apply stop_halts, halted_in_slot, Hh|].
    split.
    + rewrite (count_extended _ _ _ _ Ht), filter_app, S1.
      destruct (reconnectTimer (this w)); cbn; lia.
    + rewrite (retries_extended _ _ _ Ht), flat_map_app, S2.
      destruct (reconnectTimer (this w)); cbn; now rewrite app_nil_r.
  - (* setAutoReconnect *)
    split; [|reflexivity]. repeat split; assumption.
  - (* a timeout *)
    destruct (pending t w) as [[[] delay]|] eqn:E.
    + now apply pending_retry_listed in E.
    + split; [|reflexivity]. unfold force_kill, uneventful, halted, pending_retries,
        count, retries.
      destruct (process (this (expire t w))); cbn;
        rewrite ?flat_map_app, ?filter_app, ?length_app; cbn;
        rewrite ?app_nil_r; repeat split;
        try assumption; try lia; now apply unschedule_halts.
    + split; [|reflexivity]. repeat split; assumption.
  - (* standard output *)
    split; [|reflexivity].
    destruct (child <? List.length (children w))%nat; [|repeat split; assumption].
    destruct (on_stdout_calm child lines w) as (I1 & I2 & I3 & I4).
    unfold uneventful, halted, pending_retries. rewrite I1, I2, I3, I4.
    repeat split; assumption.
  - (* standard error *)
    split; [|reflexivity].
    destruct (child <? List.length (children w))%nat; [|repeat split; assumption].
    destruct (on_stderr_quiet lines w) as [Q T].
    apply quiet_uneventful; [assumption | assumption |].
    unfold pending_retries. now rewrite T.
  - (* the error listener *)
    split; [|reflexivity].
    destruct (child <? List.length (children w))%nat; [|repeat split; assumption].
    destruct (on_error_shape message w) as (w1 & E & Q & _ & _ & _ & T & _).
    pose proof Q as (_ & _ & Hs1 & _). rewrite Hs in Hs1.
    rewrite E, (handleDisconnect_skipped w1 (or_introl Hs1)).
    apply quiet_uneventful; [assumption | assumption |].
    unfold pending_retries. now rewrite T.
  - (* the exit listeners *)
    split; [|reflexivity].
    destruct (child <? List.length (children w))%nat; [|repeat split; assumption].
    destruct (exit_listeners_shape child code signal w)
      as (w1 & Q1 & Q2 & _ & _ & T & _).
    pose proof Q1 as (_ & _ & Hs1 & _). rewrite Hs in Hs1.
    rewrite (handleDisconnect_skipped w1 (or_introl Hs1)) in Q2.
    apply quiet_uneventful; [assumption | eapply quiet_trans; eassumption |].
    unfold exit_listeners. apply stop_listeners_timers.
    destruct (on_exit_shape child code signal w) as (w2 & E2 & Q & _ & _ & T2 & _).
    pose proof Q as (_ & _ & Hs2 & _). rewrite Hs in Hs2.
    rewrite E2, (handleDisconnect_skipped w2 (or_introl Hs2)).
    unfold pending_retries. cbn. now rewrite T2.
Qed.

Lemma run_uneventful (events : list Event) :
  forall w,
    forallb not_operator_start events = true -> halted w ->
    uneventful w (run events w) /\ auto_starts events w = 0%nat.
Proof.
  unfold run.
  induction events as [|e events IH]; intros w He Hh; cbn [fold_left auto_starts].
  - repeat split; apply Hh.
  - cbn in He. apply andb_prop in He as [He Hes].
    destruct (step_uneventful e w He Hh) as [(Hh1 & S1 & R1) F1].
    destruct (IH (step e w) Hes Hh1) as [(Hh2 & S2 & R2) A2].
    rewrite F1, A2. repeat split; try apply Hh2; congruence.
Qed.

(** *** In an orderly run the pending retry is the one in the slot *)

Lemma no_retry_tidy (w : World) : pending_retries w = [] -> tidy w.
Proof.
  intros H. split; [|now intros _].
  intros p Hp. rewrite H in Hp. destruct Hp.
Qed.

Lemma fewer_retries_in_slot (w w' : World) :
  (forall p, In p (pending_retries w') -> In p (pending_retries w)) ->
  reconnectTimer (this w') = reconnectTimer (this w) ->
  retry_in_slot w -> retry_in_slot w'.
Proof. intros Hsub Hslot H p Hp. rewrite Hslot. apply H, Hsub, Hp. Qed.

Lemma unschedule_fewer (t : nat) (l : list (nat * (TimerAction * Z))) (p : _) :
  In p (filter is_reconnect (unschedule t l)) -> In p (filter is_reconnect l).
Proof. rewrite unschedule_retries. intros H. now apply filter_In in H. Qed.

Lemma start_timers (env : Env) (w : World) :
  process (this w) = None ->
  timers (fst (start env w)) = timers (clear_reconnectTimer w).
Proof.
  intros Hp. unfold start, binary_not_found, clear_reconnectTimer. rewrite Hp.
  destruct (reconnectTimer (this w)); cbn [config set_intentionallyStopped
    on_this set_reconnectTimer clearTimeout];
    destruct (negb (valid (validateConfig (config w)))); try reflexivity;
    destruct (writeFileSync_throws env); try reflexivity;
    destruct (findFrpcBinary env) as [path|]; try reflexivity;
    destruct (negb (truthy_str path)); try reflexivity;
    destruct (spawn_throws env); reflexivity.
Qed.

Lemma start_tidy (env : Env) (w : World) : tidy w -> tidy (fst (start env w)).
Proof.
  intros [Hslot Hbusy]. destruct (process (this w)) as [child|] eqn:Ep.
  - unfold start. rewrite Ep. cbn. split; [exact Hslot|].
    cbn. now rewrite Ep.
  - apply no_retry_tidy. unfold pending_retries.
    rewrite (start_timers env w Ep). now apply slot_clears.
Qed.

Lemma on_stdout_slot (child : nat) (lines : list string) :
  forall w,
    process (this (on_stdout child lines w)) = process (this w)
    /\ reconnectTimer (this (on_stdout child lines w)) = reconnectTimer (this w).
Proof.
  unfold on_stdout.
  induction lines as [|line lines IH]; intros w; cbn [fold_left]; [now split|].
  destruct (IH (stdout_line child w line)) as [I1 I2]. rewrite I1, I2.
  unfold stdout_line. destruct (is_success_line line); [|now split].
  destruct (negb (child_connected child (effect (Emit_log line) w))); now split.
Qed.

Lemma on_stderr_slot (lines : list string) :
  forall w,
    process (this (on_stderr lines w)) = process (this w)
    /\ reconnectTimer (this (on_stderr lines w)) = reconnectTimer (this w).
Proof.
  unfold on_stderr.
  induction lines as [|line lines IH]; intros w; cbn [fold_left]; [now split|].
  destruct (IH (effect (Emit_log ("[ERR] " ++ line)%string) w)) as [I1 I2].
  rewrite I1, I2. now split.
Qed.

Lemma stop_listeners_slot (once : list nat) :
  forall w,
    reconnectTimer (this (fold_left stop_exit_listener once w))
    = reconnectTimer (this w)
    /\ (process (this w) = None ->
        process (this (fold_left stop_exit_listener once w)) = None)
    /\ forall p, In p (pending_retries (fold_left stop_exit_listener once w)) ->
                 In p (pending_retries w).
Proof.
  induction once as [|t once IH]; intros w; cbn [fold_left]; [now repeat split|].
  destruct (IH (stop_exit_listener w t)) as (I1 & I2 & I3).
  rewrite I1. split; [reflexivity|]. split; [intros _; now apply I2|].
  intros p Hp. apply I3 in Hp. unfold pending_retries in Hp. cbn in Hp.
  now apply unschedule_fewer in Hp.
Qed.

(** After its bookkeeping, a listener enters [handleDisconnect] with no
    retry pending and no process associated. *)
Lemma handleDisconnect_tidy (w : World) :
  pending_retries w = [] -> process (this w) = None ->
  retry_in_slot (handleDisconnect w) /\ process (this (handleDisconnect w)) = None.
Proof.
  intros Hp Hn. split; [|now rewrite (proj2 (handleDisconnect_keeps w))].
  unfold handleDisconnect.
  destruct (intentionallyStopped (this w) || negb (autoReconnect (this w)));
    [now apply no_retry_tidy|].
  destruct (reconnectAttempts (this w) >=? maxReconnectAttempts);
    [now apply no_retry_tidy|].
  unfold pending_retries in Hp.
  intros p H. unfold pending_retries in H. cbn -[Z.mul Z.add] in H.
  rewrite filter_app, Hp in H. cbn in H. destruct H as [<- | []]. reflexivity.
Qed.

Lemma step_tidy (e : Event) (w : World) :
  from_current_process e w = true -> tidy w -> tidy (step e w).
Proof.
  intros He Ht. pose proof Ht as [Hslot Hbusy].
  destruct e as [env | | enabled | t env | child lines | child lines
                 | child message | child code signal]; cbn [step].
  - now apply start_tidy.
  - apply no_retry_tidy, stop_halts, Hslot.
  - exact Ht.
  - destruct (pending t w) as [[[] delay]|] eqn:E; [| |exact Ht].
    + apply start_tidy. split.
      * apply (fewer_retries_in_slot w); [|reflexivity|exact Hslot].
        intros p. apply unschedule_fewer.
      * intros Hp. apply pending_retry_listed in E. now destruct (E (Hbusy Hp)).
    + assert (T : tidy (expire t w)).
      { split.
        - apply (fewer_retries_in_slot w); [|reflexivity|exact Hslot].
          intros p. apply unschedule_fewer.
        - intros Hp. unfold pending_retries. cbn. apply unschedule_halts, Hbusy, Hp. }
      unfold force_kill. destruct (process (this (expire t w))); exact T.
  - destruct (child <? List.length (children w))%nat; [|exact Ht].
    destruct (on_stdout_calm child lines w) as (_ & T & _).
    destruct (on_stdout_slot child lines w) as [P S]. split.
    + apply (fewer_retries_in_slot w); [|exact S|exact Hslot].
      unfold pending_retries. now rewrite T.
    + unfold pending_retries. rewrite P, T. exact Hbusy.
  - destruct (child <? List.length (children w))%nat; [|exact Ht].
    destruct (on_stderr_quiet lines w) as [_ T].
    destruct (on_stderr_slot lines w) as [P S]. split.
    + apply (fewer_retries_in_slot w); [|exact S|exact Hslot].
      unfold pending_retries. now rewrite T.
    + unfold pending_retries. rewrite P, T. exact Hbusy.
  - cbn in He. destruct (process (this w)) as [current|] eqn:Ep; [|discriminate].
    assert (Hnone : pending_retries w = []) by (apply Hbusy; discriminate).
    destruct (child <? List.length (children w))%nat; [|exact Ht].
    destruct (on_error_shape message w) as (w1 & E & _ & P1 & _ & _ & T1 & _).
    rewrite E.
    assert (H1 : pending_retries w1 = []) by (unfold pending_retries; now rewrite T1).
    destruct (handleDisconnect_tidy w1 H1 P1) as [S N].
    split; [exact S|]. intros C. now destruct C.
  - cbn in He. destruct (process (this w)) as [current|] eqn:Ep; [|discriminate].
    assert (Hnone : pending_retries w = []) by (apply Hbusy; discriminate).
    destruct (child <? List.length (children w))%nat; [|exact Ht].
    unfold exit_listeners.
    destruct (on_exit_shape child code signal w) as (w1 & E & _ & P1 & _ & T1 & _).
    rewrite E.
    assert (H1 : pending_retries w1 = []) by (unfold pending_retries; now rewrite T1).
    destruct (handleDisconnect_tidy w1 H1 P1) as [S N].
    match goal with
    | |- tidy (fold_left stop_exit_listener ?once ?w2) =>
        destruct (stop_listeners_slot once w2) as (L1 & L2 & L3);
        assert (S2 : retry_in_slot w2) by exact S;
        assert (N2 : process (this w2) = None) by exact N
    end.
    split.
    + eapply fewer_retries_in_slot; [exact L3 | exact L1 | exact S2].
    + intros C. now destruct (C (L2 N2)).
Qed.

Lemma run_tidy (events : list Event) :
  forall w, orderly events w = true -> tidy w -> tidy (run events w).
Proof.
  unfold run. induction events as [|e events IH]; intros w Ho Ht; [exact Ht|].
  cbn in Ho. apply andb_prop in Ho as [He Ho]. cbn [fold_left].
  apply IH; [exact Ho | now apply step_tidy].
Qed.

(** What [stop()] guarantees of C7.  [stop()] first sets the
    intentional-stop flag and clears the reconnect timer: whatever else it
    adds to the trace comes after the clearing.  With no process associated it resolves to true at once,
    having logged that the client is not running and emitted no status and
    killed nothing.  When the pending retry is the one held in
    [reconnectTimer] (a reconnect-pending window), no retry is pending after
    [stop()], and in no sequence of later events without a [start()] of the
    operator's does a retry fire, a process get spawned or a retry get
    scheduled.  The pending retry is the one held in [reconnectTimer] in
    every world that a new supervisor reaches by an orderly run, one in
    which the ['error'] and ['exit'] events come from the process that the
    supervisor holds. *)
Theorem stop_cancels_pending_retry (w : World) :
  (exists rest,
      trace (fst (stop w))
      = trace w ++ clearing (reconnectTimer (this w)) ++ rest)
  /\ intentionallyStopped (this (fst (stop w))) = true
  /\ reconnectTimer (this (fst (stop w))) = None
  /\ (process (this w) = None ->
      snd (stop w) = Resolved true
      /\ trace (fst (stop w))
         = trace w ++ clearing (reconnectTimer (this w))
             ++ [Emit_log "[GUI] FRP client is not running"]
      /\ count is_status (fst (stop w)) = count is_status w
      /\ count is_kill (fst (stop w)) = count is_kill w
      /\ process (this (fst (stop w))) = None)
  /\ (retry_in_slot w ->
      pending_retries (fst (stop w)) = []
      /\ forall events,
          forallb not_operator_start events = true ->
          auto_starts events (fst (stop w)) = 0%nat
          /\ count is_spawn (run events (fst (stop w))) = count is_spawn w
          /\ retries (run events (fst (stop w))) = retries w
          /\ pending_retries (run events (fst (stop w))) = [])
  /\ (forall c events,
         orderly events (new_world c) = true ->
         w = run events (new_world c) ->
         retry_in_slot w).
Proof.
  destruct (stop_trace w) as (rest & Ht & S1 & S2 & Hidle).
  destruct (stop_fields w) as (F1 & F2 & F3).
  split; [now exists rest|]. split; [exact F1|]. split; [exact F2|].
  split; [|split].
  - intros Hp. destruct (F3 Hp) as (R & P & _). specialize (Hidle Hp). subst rest.
    split; [exact R|]. split; [exact Ht|].
    rewrite !(count_extended _ _ _ _ Ht), !filter_app.
    destruct (reconnectTimer (this w)); cbn; repeat split; try lia; exact P.
  - intros Hslot. pose proof (stop_halts w Hslot) as Hh.
    split; [apply Hh|]. intros events He.
    destruct (run_uneventful events (fst (stop w)) He Hh) as [([_ P] & S & R) A].
    split; [exact A|].
    rewrite S, R, (count_extended _ _ _ _ Ht), (retries_extended _ _ _ Ht),
      filter_app, flat_map_app, S1, S2.
    destruct (reconnectTimer (this w)); cbn; rewrite ?app_nil_r;
      repeat split; try lia; exact P.
  - intros c events Ho ->.
    apply (run_tidy events (new_world c) Ho). now apply no_retry_tidy.
Qed.

(** The first process has exited and the retry is pending after 5 s; the
    operator stops.  Whatever follows, the retry does not fire and no second
    process is spawned. *)
Lemma stop_cancels_pending_retry_witness :
  pending_retries waiting = [(0%nat, (Reconnect, 5000))]
  /\ pending_retries (fst (stop waiting)) = []
  /\ auto_starts aftermath (fst (stop waiting)) = 0%nat
  /\ count is_spawn (run aftermath (fst (stop waiting))) = 1%nat.
Proof.
  split; [reflexivity|].
  assert (Hslot : retry_in_slot waiting).
  { apply (proj2 (proj2 (proj2 (proj2 (proj2 (stop_cancels_pending_retry waiting)))))
             home [Call_start plain_env; Proc_exit 0 (Some 1) None]);
      vm_compute; reflexivity. }
  destruct (proj1 (proj2 (proj2 (proj2 (proj2 (stop_cancels_pending_retry waiting)))))
              Hslot)
    as [P F].
  destruct (F aftermath eq_refl) as (A & S & _).
  split; [exact P|]. split; [exact A | exact S].
Defined.

(** Without the [stop()], the retry fires and a second process is spawned. *)
Example retry_fires_without_stop :
  auto_starts [Timeout 0 plain_env] waiting = 1%nat
  /\ count is_spawn (run [Timeout 0 plain_env] waiting) = 2%nat.
Proof. vm_compute. split; reflexivity. Qed.

(** The run has to be orderly: when the process that has emitted ['error']
    goes on to emit ['exit'], each listener schedules a retry, the slot holds
    the second only, and the first outlives a [stop()]. *)
Example retry_outside_slot_after_error_then_exit :
  orderly [Proc_error 0 "kill EPERM"; Proc_exit 0 (Some 1) None] started = false
  /\ pending_retries
       (run [Proc_error 0 "kill EPERM"; Proc_exit 0 (Some 1) None] started)
     = [(0%nat, (Reconnect, 5000)); (1%nat, (Reconnect, 10000))]
  /\ reconnectTimer
       (this (run [Proc_error 0 "kill EPERM"; Proc_exit 0 (Some 1) None] started))
     = Some 1%nat
  /\ auto_starts [Timeout 0 plain_env]
       (fst (stop (run [Proc_error 0 "kill EPERM"; Proc_exit 0 (Some 1) None]
                       started)))
     = 1%nat.
Proof. vm_compute. repeat split. Qed.

(** C7 (a defect of the code).  [handleDisconnect] puts each new retry into
    [reconnectTimer] without clearing the retry that the field holds, and
    the ['exit'] listener of a process runs it also when the supervisor
    holds another process by then.  In this run of a new supervisor the
    first process cannot be signalled by [stop()] and reports that by
    ['error']; the operator starts a second process; then the first exits
    and the second exits.  Two retries are pending and the field holds the
    second only.  The operator calls [stop()], which resolves to true and
    leaves the first retry pending; that retry fires, without any [start()]
    of the operator's, and a third process is spawned and runs. *)
Lemma retry_fires_after_stop :
  pending_retries outlived
  = [(1%nat, (Reconnect, 5000)); (2%nat, (Reconnect, 10000))]
  /\ reconnectTimer (this outlived) = Some 2%nat
  /\ snd (stop outlived) = Resolved true
  /\ intentionallyStopped (this (fst (stop outlived))) = true
  /\ pending_retries (fst (stop outlived)) = [(1%nat, (Reconnect, 5000))]
  /\ forallb not_operator_start [Timeout 1 plain_env] = true
  /\ auto_starts [Timeout 1 plain_env] (fst (stop outlived)) = 1%nat
  /\ count is_spawn (run [Timeout 1 plain_env] (fst (stop outlived)))
     = S (count is_spawn outlived)
  /\ isRunning (run [Timeout 1 plain_env] (fst (stop outlived))) = true.
Proof. vm_compute. repeat split. Qed.

(** ** Where the reconnect sub-flow is entered from *)

Lemma start_no_retry (env : Env) (w : World) :
  retries (fst (start env w)) = retries w.
Proof.
  unfold start, binary_not_found, clear_reconnectTimer, retries.
  destruct (process (this w));
    [cbn; now rewrite flat_map_app, app_nil_r|].
  destruct (reconnectTimer (this w)); cbn [config set_intentionallyStopped
    on_this set_reconnectTimer clearTimeout];
    destruct (negb (valid (validateConfig (config w))));
    try (destruct (writeFileSync_throws env));
    try (destruct (findFrpcBinary env) as [path|]);
    try (destruct (negb (truthy_str path)));
    try (destruct (spawn_throws env));
    cbn; rewrite ?flat_map_app; cbn; rewrite ?app_nil_r; reflexivity.
Qed.

Lemma stop_no_retry (w : World) : retries (fst (stop w)) = retries w.
Proof.
  destruct (stop_trace w) as (rest & Ht & _ & S2 & _).
  rewrite (retries_extended _ _ _ Ht), flat_map_app, S2.
  destruct (reconnectTimer (this w)); cbn; now rewrite app_nil_r.
Qed.

Lemma step_no_retry (e : Event) (w : World) :
  retries (step e w) <> retries w ->
  exists child,
    (child < List.length (children w))%nat
    /\ ((exists message, e = Proc_error child message)
        \/ (exists code signal, e = Proc_exit child code signal)).
Proof.
  destruct e as [env | | enabled | t env | child lines | child lines
                 | child message | child code signal]; cbn [step]; intros H.
  - now rewrite start_no_retry in H.
  - now rewrite stop_no_retry in H.
  - now destruct H.
  - exfalso. apply H. destruct (pending t w) as [[[] delay]|]; [| |reflexivity].
    + now rewrite start_no_retry.
    + unfold force_kill, retries. destruct (process (this (expire t w))); cbn;
        rewrite ?flat_map_app; cbn; rewrite ?app_nil_r; reflexivity.
  - exfalso. apply H.
    destruct (child <? List.length (children w))%nat; [|reflexivity].
    apply on_stdout_calm.
  - exfalso. apply H.
    destruct (child <? List.length (children w))%nat; [|reflexivity].
    apply quiet_retries, on_stderr_quiet.
  - destruct (child <? List.length (children w))%nat eqn:E; [|now destruct H].
    apply Nat.ltb_lt in E. exists child. split; [exact E|]. left. now exists message.
  - destruct (child <? List.length (children w))%nat eqn:E; [|now destruct H].
    apply Nat.ltb_lt in E. exists child. split; [exact E|]. right.
    now exists code, signal.
Qed.

(** C2 (as the code has it).  When [spawn] throws, [start()] resolves to
    false with "Failed to start frpc: ..." as the last error, and neither
    counts an attempt nor schedules a retry.  When a spawned process emits
    ['error'] (how a missing executable is reported), the listener sets the
    last error, releases the handle and enters the reconnect sub-flow as the
    ['exit'] listener does: with auto-reconnect enabled, the stop not
    intentional and fewer than five attempts counted, the counter is
    incremented and a retry is scheduled after 5000 ms times the new count.
    A retry is scheduled by no event other than the ['error'] and the
    ['exit'] of a spawned process. *)
Theorem reconnect_entered_from_exit_and_error (w : World) :
  (forall env error,
      ready env w -> spawn_throws env = Some error ->
      snd (start env w) = Resolved false
      /\ lastError (this (fst (start env w)))
         = Some ("Failed to start frpc: " ++ error)%string
      /\ process (this (fst (start env w))) = None
      /\ reconnectAttempts (this (fst (start env w))) = reconnectAttempts (this w)
      /\ reconnectTimer (this (fst (start env w))) = None
      /\ retries (fst (start env w)) = retries w)
  /\ (forall child message,
         (child < List.length (children w))%nat ->
         lastError (this (step (Proc_error child message) w))
         = Some ("Failed to start frpc: " ++ message)%string
         /\ process (this (step (Proc_error child message) w)) = None
         /\ (autoReconnect (this w) = true ->
             intentionallyStopped (this w) = false ->
             reconnectAttempts (this w) < 5 ->
             reconnectAttempts (this (step (Proc_error child message) w))
             = reconnectAttempts (this w) + 1
             /\ reconnectTimer (this (step (Proc_error child message) w))
                = Some (next_timer w)
             /\ In (next_timer w,
                    (Reconnect, 5000 * (reconnectAttempts (this w) + 1)))
                   (timers (step (Proc_error child message) w))
             /\ retries (step (Proc_error child message) w)
                = retries w ++ [5000 * (reconnectAttempts (this w) + 1)]))
  /\ (forall e,
         retries (step e w) <> retries w ->
         exists child,
           (child < List.length (children w))%nat
           /\ ((exists message, e = Proc_error child message)
               \/ (exists code signal, e = Proc_exit child code signal))).
Proof.
  split; [|split].
  - intros env error R Hs.
    destruct (start_spawn_throws env w error R Hs) as (H1 & H2 & _).
    rewrite start_no_retry, H2. repeat split. exact H1.
  - intros child message Hc. cbn [step]. apply Nat.ltb_lt in Hc. rewrite Hc.
    destruct (on_error_shape message w)
      as (w1 & E & Q & P1 & L1 & _ & T1 & N1 & _).
    destruct (handleDisconnect_keeps w1) as [KL KP].
    rewrite E, KL, KP. split; [exact L1|]. split; [exact P1|].
    intros Ha Hs Hn. pose proof Q as (Ha1 & Hn1 & Hs1 & _).
    rewrite Ha in Ha1. rewrite Hs in Hs1.
    destruct (handleDisconnect_retries w1 Ha1 Hs1) as (Ht & Hti & _ & _ & line & Htr);
      [lia|].
    rewrite Ht, Hti, (retries_extended _ _ _ Htr), (quiet_retries _ _ Q), Hn1, N1, T1.
    cbn. repeat split. apply in_or_app. right. now left.
  - intros e. apply step_no_retry.
Qed.

(** C2 (as the claim states it) fails: the first process was spawned, and
    its ['error'] event, which is how a missing executable is reported, has
    the attempt counted and a retry scheduled after 5 s. *)
Lemma spawn_error_enters_reconnect :
  process (this started) = Some 0%nat
  /\ reconnectAttempts (this started) = 0
  /\ reconnectAttempts (this (step (Proc_error 0 "spawn frpc ENOENT") started)) = 1
  /\ retries (step (Proc_error 0 "spawn frpc ENOENT") started) = [5000]
  /\ pending_retries (step (Proc_error 0 "spawn frpc ENOENT") started)
     = [(0%nat, (Reconnect, 5000))]
  /\ auto_starts [Timeout 0 plain_env]
                 (step (Proc_error 0 "spawn frpc ENOENT") started) = 1%nat.
Proof. vm_compute. repeat split. Qed.

(** [spawn] throws: the failure is reported and nothing is scheduled; the
    process then emits ['error']: a retry is scheduled. *)
Lemma reconnect_entered_from_exit_and_error_witness :
  snd (start failing_env (new_world home)) = Resolved false
  /\ retries (fst (start failing_env (new_world home))) = []
  /\ retries (step (Proc_error 0 "spawn frpc ENOENT") started) = [5000].
Proof.
  destruct (reconnect_entered_from_exit_and_error (new_world home)) as (A & _).
  destruct (A failing_env "Error: spawn EINVAL"
              (conj eq_refl (conj eq_refl eq_refl)) eq_refl)
    as (R & _ & _ & _ & _ & T).
  destruct (reconnect_entered_from_exit_and_error started) as (_ & B & _).
  destruct (B 0%nat "spawn frpc ENOENT" (Nat.lt_0_succ 0)) as (_ & _ & C).
  destruct (C eq_refl eq_refl eq_refl) as (_ & _ & _ & S).
  split; [exact R|]. split; [exact T | exact S].
Defined.

(** * Further properties *)

(** ** ConfigManager.validateConfig: what it accepts *)

Lemma duplicates_nil_NoDup (c : AppConfig) :
  duplicates c = [] <-> NoDup (map remotePort (tunnels c)).
Proof.
  rewrite (NoDup_count_occ Z.eq_dec). split.
  - intros H p.
    destruct (le_lt_dec 2 (count_occ Z.eq_dec (map remotePort (tunnels c)) p))
      as [L | L]; [|lia].
    apply duplicates_In in L. rewrite H in L. destruct L.
  - intros H. destruct (duplicates c) as [|p l] eqn:E; [reflexivity|].
    assert (Hp : In p (duplicates c)) by (rewrite E; now left).
    apply duplicates_In in Hp. specialize (H p). lia.
Qed.

Lemma tunnel_errors_nil (ts : list Tunnel) :
  flat_map tunnel_errors ts = []
  <-> Forall (fun t => in_range (localPort t) /\ in_range (remotePort t)) ts.
Proof.
  unfold in_range. induction ts as [|t ts IH]; cbn [flat_map].
  - split; [constructor | reflexivity].
  - split.
    + intros H. apply app_eq_nil in H as [Ht Hts]. constructor; [|now apply IH].
      unfold tunnel_errors, port_out_of_range in Ht.
      destruct ((localPort t <? 1) || (localPort t >? 65535)) eqn:E1;
        [discriminate|].
      destruct ((remotePort t <? 1) || (remotePort t >? 65535)) eqn:E2;
        [discriminate|].
      lia.
    + intros H. inversion H as [|t' ts' [Hl Hr] Hts]; subst.
      rewrite (proj2 IH Hts), app_nil_r.
      unfold tunnel_errors, port_out_of_range.
      replace ((localPort t <? 1) || (localPort t >? 65535)) with false by lia.
      replace ((remotePort t <? 1) || (remotePort t >? 65535)) with false by lia.
      reflexivity.
Qed.

Lemma truthy_str_iff (s : string) : truthy_str s = true <-> s <> EmptyString.
Proof.
  unfold truthy_str. destruct (String.eqb_spec s ""); cbn; split; congruence.
Qed.

Lemma server_errors_nil (c : AppConfig) :
  server_errors c = []
  <-> serverAddr c <> EmptyString /\ in_range (serverPort c)
      /\ authToken c <> EmptyString.
Proof.
  unfold server_errors, in_range, port_out_of_range, truthy_num.
  rewrite <- !truthy_str_iff.
  destruct (truthy_str (serverAddr c)); destruct (truthy_str (authToken c));
    destruct (negb (negb (serverPort c =? 0))
              || ((serverPort c <? 1) || (serverPort c >? 65535))) eqn:E;
    cbn; split; try discriminate; try (intros (? & ? & ?); discriminate);
    try (intros (_ & ? & _); lia); try reflexivity.
  intros _. repeat split; lia.
Qed.

Lemma validation_errors_nil (c : AppConfig) :
  validation_errors c = []
  <-> serverAddr c <> EmptyString
      /\ in_range (serverPort c)
      /\ authToken c <> EmptyString
      /\ NoDup (map remotePort (tunnels c))
      /\ Forall (fun t => in_range (localPort t) /\ in_range (remotePort t))
                (tunnels c).
Proof.
  unfold validation_errors.
  rewrite <- duplicates_nil_NoDup, <- tunnel_errors_nil.
  pose proof (server_errors_nil c) as Hs.
  split.
  - intros H. apply app_eq_nil in H as [H1 H]. apply app_eq_nil in H as [H2 H3].
    destruct (proj1 Hs H1) as (A & B & C).
    repeat (split; [assumption|]). split; [|exact H3].
    destruct (duplicates c); [reflexivity | discriminate].
  - intros (A & B & C & H2 & H3).
    rewrite (proj2 Hs (conj A (conj B C))), H2, H3. reflexivity.
Qed.

Lemma valid_errors_nil (c : AppConfig) :
  valid (validateConfig c) = true <-> validation_errors c = [].
Proof.
  unfold validateConfig. cbn [valid].
  now rewrite Z.eqb_eq, <- Nat2Z.inj_0, Nat2Z.inj_iff, length_zero_iff_nil.
Qed.

(** X1.  The validator accepts a configuration exactly when the server
    address and the auth token are not empty, the server port and the local
    and remote port of every tunnel are between 1 and 65535, and no two
    tunnels have the same remote port. *)
Theorem validate_accepts_iff (c : AppConfig) :
  valid (validateConfig c) = true
  <-> serverAddr c <> EmptyString
      /\ in_range (serverPort c)
      /\ authToken c <> EmptyString
      /\ NoDup (map remotePort (tunnels c))
      /\ Forall (fun t => in_range (localPort t) /\ in_range (remotePort t))
                (tunnels c).
Proof.
  rewrite valid_errors_nil. apply validation_errors_nil.
Qed.

(** X2.  Each of the three rules on the server settings is reported on its
    own, whatever else is wrong: the error list holds the message of a rule
    exactly when the rule is broken. *)
Theorem validate_reports_each_server_rule (c : AppConfig) :
  (In "Server address is required" (errors (validateConfig c))
   <-> serverAddr c = EmptyString)
  /\ (In "Server port must be between 1 and 65535" (errors (validateConfig c))
      <-> ~ in_range (serverPort c))
  /\ (In "Auth token is required" (errors (validateConfig c))
      <-> authToken c = EmptyString).
Proof.
  assert (Hrest : forall m,
             In m ((if 0 <? Z.of_nat (List.length (duplicates c))
                    then [duplicate_error c] else [])
                   ++ flat_map tunnel_errors (tunnels c)) ->
             exists rest, m = ("Duplicate" ++ rest)%string
                          \/ m = ("Tunnel" ++ rest)%string).
  { intros m H. apply in_app_or in H as [H | H].
    - destruct (0 <? Z.of_nat (List.length (duplicates c))); [|destruct H].
      destruct H as [<- | []]. eexists. left. reflexivity.
    - apply in_flat_map in H as (t & _ & H). unfold tunnel_errors in H.
      apply in_app_or in H as [H | H];
        [destruct (port_out_of_range (localPort t))
        |destruct (port_out_of_range (remotePort t))];
        try destruct H as [<- | []]; try destruct H;
        eexists; right; reflexivity. }
  assert (Hsplit : forall m,
             (forall rest, m <> ("Duplicate" ++ rest)%string) ->
             (forall rest, m <> ("Tunnel" ++ rest)%string) ->
             (In m (errors (validateConfig c)) <-> In m (server_errors c))).
  { intros m H1 H2. unfold validateConfig, validation_errors. cbn [errors].
    rewrite in_app_iff. split; [|now left].
    intros [H | H]; [exact H|]. apply Hrest in H as [rest [-> | ->]].
    - now destruct (H1 rest).
    - now destruct (H2 rest). }
  unfold in_range.
  repeat split; intros H.
  - apply Hsplit in H; try (intros rest; discriminate).
    unfold server_errors in H. destruct (String.eqb_spec (serverAddr c) "");
      [assumption|].
    unfold truthy_str in H. destruct (serverAddr c =? "")%string eqn:E;
      [now apply String.eqb_eq in E|].
    cbn in H.
    destruct (negb (truthy_num (serverPort c)) || port_out_of_range (serverPort c));
      destruct (negb (negb (authToken c =? "")%string)); cbn in H;
      intuition discriminate.
  - apply Hsplit; try (intros rest; discriminate).
    unfold server_errors, truthy_str. rewrite H. cbn. now left.
  - apply Hsplit in H; try (intros rest; discriminate).
    unfold server_errors, truthy_num, port_out_of_range in H.
    destruct (negb (negb (serverPort c =? 0))
              || ((serverPort c <? 1) || (serverPort c >? 65535))) eqn:E; [lia|].
    destruct (negb (truthy_str (serverAddr c)));
      destruct (negb (truthy_str (authToken c))); cbn in H;
      intuition discriminate.
  - apply Hsplit; try (intros rest; discriminate).
    unfold server_errors, truthy_num, port_out_of_range.
    replace (negb (negb (serverPort c =? 0))
             || ((serverPort c <? 1) || (serverPort c >? 65535))) with true by lia.
    apply in_or_app. right. now left.
  - apply Hsplit in H; try (intros rest; discriminate).
    unfold server_errors in H.
    unfold truthy_str in H at 2.
    destruct (authToken c =? "")%string eqn:E; [now apply String.eqb_eq in E|].
    cbn in H.
    destruct (negb (truthy_str (serverAddr c)));
      destruct (negb (truthy_num (serverPort c)) || port_out_of_range (serverPort c));
      cbn in H; intuition discriminate.
  - apply Hsplit; try (intros rest; discriminate).
    unfold server_errors. unfold truthy_str at 2. rewrite H. cbn.
    apply in_or_app. right. apply in_or_app. right. now left.
Qed.

(** ** validateConfig and generateFrpcConfig together *)

Lemma global_lines_no_remotePort (addr : string) (port : Z) (token x : string) :
  count_occ string_dec (global_lines addr port token) ("remotePort = " ++ x)%string
  = 0%nat.
Proof.
  unfold global_lines. cbn [count_occ].
  repeat match goal with
         | |- context [string_dec ?a ?b] =>
             destruct (string_dec a b) as [E | E];
             [cbn in E; discriminate E | clear E]
         end.
  reflexivity.
Qed.

Lemma proxy_lines_remotePort (t : Tunnel) (p : Z) :
  count_occ string_dec (proxy_lines t) ("remotePort = " ++ show p)%string
  = if remotePort t =? p then 1%nat else 0%nat.
Proof.
  unfold proxy_lines. cbn [count_occ].
  repeat match goal with
         | |- context [string_dec (String ?a ?s) ?b] =>
             destruct (string_dec (String a s) b) as [E | E];
             [cbn in E; discriminate E | clear E]
         | |- context [string_dec EmptyString ?b] =>
             destruct (string_dec EmptyString b) as [E | E];
             [cbn in E; discriminate E | clear E]
         | |- context [string_dec ("name = " ++ ?s)%string ?b] =>
             destruct (string_dec ("name = " ++ s)%string b) as [E | E];
             [cbn in E; discriminate E | clear E]
         | |- context [string_dec ("type = " ++ ?s)%string ?b] =>
             destruct (string_dec ("type = " ++ s)%string b) as [E | E];
             [cbn in E; discriminate E | clear E]
         | |- context [string_dec ("localIP = " ++ ?s)%string ?b] =>
             destruct (string_dec ("localIP = " ++ s)%string b) as [E | E];
             [cbn in E; discriminate E | clear E]
         | |- context [string_dec ("localPort = " ++ ?s)%string ?b] =>
             destruct (string_dec ("localPort = " ++ s)%string b) as [E | E];
             [cbn in E; discriminate E | clear E]
         end.
  destruct (string_dec _ _) as [E | E]; destruct (Z.eqb_spec (remotePort t) p);
    try reflexivity.
  - exfalso. cbn in E. injection E as E. now apply show_inj in E.
  - subst. now destruct E.
Qed.

Lemma flat_map_remotePort (ts : list Tunnel) (p : Z) :
  count_occ string_dec (flat_map proxy_lines ts) ("remotePort = " ++ show p)%string
  = sharing p ts.
Proof.
  unfold sharing. induction ts as [|t ts IH]; [reflexivity|].
  cbn [flat_map filter]. rewrite count_occ_app, proxy_lines_remotePort, IH.
  now destruct (remotePort t =? p).
Qed.

Lemma sharing_enabled (p : Z) (ts : list Tunnel) :
  (sharing p (filter is_enabled ts) <= sharing p ts)%nat.
Proof.
  unfold sharing. induction ts as [|t ts IH]; [reflexivity|].
  cbn [filter]. destruct (is_enabled t); cbn [filter];
    destruct (remotePort t =? p); cbn [List.length]; lia.
Qed.

(** X3.  In the text rendered for a configuration that validates, and of
    which nothing that is rendered carries a line feed, no two lines give
    the same remote port: for every port the text has at most one line
    [remotePort = port]. *)
Theorem valid_config_renders_distinct_ports (c : AppConfig) (p : Z) :
  valid (validateConfig c) = true ->
  plain c ->
  (count_occ string_dec (lines_of (generateFrpcConfig c))
             ("remotePort = " ++ show p)%string
   <= 1)%nat.
Proof.
  intros H Hp. rewrite (lines_of_rendering c Hp).
  apply valid_errors_nil, validation_errors_nil in H
    as (_ & _ & _ & Hnd & _).
  unfold frpc_lines.
  rewrite count_occ_app, global_lines_no_remotePort, flat_map_remotePort.
  pose proof (sharing_enabled p (tunnels c)) as Hle.
  rewrite (sharing_count p (tunnels c)) in Hle.
  apply (NoDup_count_occ Z.eq_dec) with (x := p) in Hnd. cbn. lia.
Qed.

Lemma valid_config_renders_distinct_ports_witness :
  (count_occ string_dec (lines_of (generateFrpcConfig home)) "remotePort = 6001"
   <= 1)%nat.
Proof.
  apply (valid_config_renders_distinct_ports home 6001).
  - reflexivity.
  - unfold plain, safe_integer. repeat split; try reflexivity; try (cbn; lia).
    repeat constructor; cbn; lia.
Defined.


(** ** generateFrpcConfig: nothing that is rendered is lost *)

Lemma string_length_append (a b : string) :
  String.length (a ++ b) = (String.length a + String.length b)%nat.
Proof. induction a as [|x a IH]; cbn; [reflexivity | now rewrite IH]. Qed.

Lemma append_inj_l (k a b : string) : (k ++ a)%string = (k ++ b)%string -> a = b.
Proof. induction k as [|x k IH]; cbn; intros H; [exact H | injection H as H; auto]. Qed.

Lemma append_inj_r (s : string) :
  forall a b, (a ++ s)%string = (b ++ s)%string -> a = b.
Proof.
  induction a as [|x a IH]; intros [|y b] H; cbn in H.
  - reflexivity.
  - apply (f_equal String.length) in H. cbn in H.
    rewrite string_length_append in H. lia.
  - apply (f_equal String.length) in H. cbn in H.
    rewrite string_length_append in H. lia.
  - injection H as -> H. f_equal. now apply IH.
Qed.

Lemma quoted_inj (a b : string) : quoted a = quoted b -> a = b.
Proof.
  unfold quoted. intros H. apply append_inj_l in H. now apply append_inj_r in H.
Qed.

Lemma proxy_lines_inj (t1 t2 : Tunnel) :
  proxy_lines t1 = proxy_lines t2 -> rendered t1 = rendered t2.
Proof.
  unfold proxy_lines, rendered, quoted. intros H.
  destruct (type t1), (type t2). cbn in H. injection H as Hn Hi Hl Hr.
  apply append_inj_r in Hn, Hi. apply show_inj in Hl, Hr. congruence.
Qed.

Lemma app_same_length {A : Type} (l1 : list A) :
  forall l2 r1 r2,
    List.length l1 = List.length l2 -> l1 ++ r1 = l2 ++ r2 ->
    l1 = l2 /\ r1 = r2.
Proof.
  induction l1 as [|x l1 IH]; intros [|y l2] r1 r2 Hl H; try discriminate.
  - now split.
  - cbn in H. injection H as -> H. injection Hl as Hl.
    destruct (IH _ _ _ Hl H) as [-> ->]. now split.
Qed.

Lemma flat_map_proxy_inj (ts1 : list Tunnel) :
  forall ts2,
    flat_map proxy_lines ts1 = flat_map proxy_lines ts2 ->
    map rendered ts1 = map rendered ts2.
Proof.
  induction ts1 as [|t1 ts1 IH]; intros [|t2 ts2] H; cbn [flat_map] in H;
    try reflexivity; try discriminate.
  cbn [map].
  assert (H1 : proxy_lines t1 = proxy_lines t2 /\
               flat_map proxy_lines ts1 = flat_map proxy_lines ts2).
  { now apply app_same_length. }
  destruct H1 as [Ht Hrest].
  rewrite (proxy_lines_inj _ _ Ht), (IH _ Hrest). reflexivity.
Qed.

(** X4.  The text that [generateFrpcConfig] returns determines everything
    that is rendered, as long as nothing that is rendered carries a line
    feed: two such configurations with the same text have the same server
    address, server port and auth token, and their enabled tunnels have, in
    order, the same name, type, local address, local port and remote
    port. *)
Theorem rendering_determines_rendered_fields (c1 c2 : AppConfig) :
  plain c1 -> plain c2 ->
  generateFrpcConfig c1 = generateFrpcConfig c2 ->
  serverAddr c1 = serverAddr c2
  /\ serverPort c1 = serverPort c2
  /\ authToken c1 = authToken c2
  /\ map rendered (enabled_tunnels c1) = map rendered (enabled_tunnels c2).
Proof.
  intros H1 H2 Ht.
  assert (H : frpc_lines c1 = frpc_lines c2).
  { rewrite <- (lines_of_rendering c1 H1), <- (lines_of_rendering c2 H2).
    now rewrite Ht. }
  revert H. clear.
  unfold frpc_lines, global_lines, enabled_tunnels, quoted. cbn. intros H.
  injection H as Ha Hp Ht Hrest.
  apply append_inj_r in Ha, Ht. apply show_inj in Hp.
  repeat split; try assumption. now apply flat_map_proxy_inj.
Qed.

Lemma rendering_determines_rendered_fields_witness :
  map rendered (enabled_tunnels one_disabled)
  = map rendered (enabled_tunnels (without_disabled one_disabled)).
Proof.
  assert (P : plain (without_disabled one_disabled)).
  { unfold plain, safe_integer. repeat split; try reflexivity; try (cbn; lia).
    repeat constructor; cbn; lia. }
  exact (proj2 (proj2 (proj2
           (rendering_determines_rendered_fields
              one_disabled (without_disabled one_disabled)
              plain_one_disabled P eq_refl)))).
Defined.


(** ** ConfigManager: adding, updating and removing tunnels *)

Lemma findIndex_None (i : string) (ts : list Tunnel) :
  findIndex i ts = None <-> unknown_id i ts.
Proof.
  unfold unknown_id. induction ts as [|t ts IH]; cbn [findIndex].
  - split; [intros _ t [] | reflexivity].
  - destruct (String.eqb_spec (id t) i) as [E | E].
    + split; [discriminate|]. intros H. now destruct (H t (or_introl eq_refl)).
    + destruct (findIndex i ts); cbn.
      * split; [discriminate|]. intros H.
        assert (N : Some n = None)
          by (apply IH; intros u Hu; apply H; now right).
        discriminate.
      * split; [|reflexivity]. intros _ u [<- | Hu]; [exact E|].
        now apply (proj1 IH).
Qed.

Lemma findIndex_first (i : string) (before : list Tunnel) (t : Tunnel)
      (after : list Tunnel) :
  unknown_id i before -> id t = i ->
  findIndex i (before ++ t :: after) = Some (List.length before).
Proof.
  intros Hb Ht. induction before as [|b before IH]; cbn [app findIndex List.length].
  - rewrite Ht, String.eqb_refl. reflexivity.
  - destruct (String.eqb_spec (id b) i) as [E | E].
    + now destruct (Hb b (or_introl eq_refl)).
    + rewrite IH; [reflexivity|]. intros u Hu. apply Hb. now right.
Qed.

Lemma assign_at (before : list Tunnel) (t t' : Tunnel) (after : list Tunnel) :
  assign (List.length before) t' (before ++ t :: after) = before ++ t' :: after.
Proof. induction before as [|b before IH]; cbn; [reflexivity | now rewrite IH]. Qed.

Lemma splice1_at (before : list Tunnel) (t : Tunnel) (after : list Tunnel) :
  splice1 (List.length before) (before ++ t :: after) = before ++ after.
Proof. induction before as [|b before IH]; cbn; [reflexivity | now rewrite IH]. Qed.

(** X5.  [updateTunnel] and [removeTunnel] with an id that no tunnel has
    throw "Tunnel with id ... not found" and leave the configuration and the
    file as they are; with an id that a tunnel has they do not throw it. *)
Theorem unknown_id_is_refused (sys : System) (i : string) (updates : TunnelUpdate)
        (st : Store) :
  (unknown_id i (tunnels_of st) ->
   updateTunnel sys i updates st = (st, Thrown (not_found i))
   /\ removeTunnel sys i st = (st, Thrown (not_found i)))
  /\ (~ unknown_id i (tunnels_of st) ->
      write_throws sys = None ->
      (exists t, snd (updateTunnel sys i updates st) = Returned t)
      /\ snd (removeTunnel sys i st) = Returned tt).
Proof.
  unfold tunnels_of, updateTunnel, removeTunnel. split.
  - intros H. apply findIndex_None in H. now rewrite H.
  - intros H Hw. rewrite <- findIndex_None in H.
    destruct (findIndex i (tunnels (ConfigManager.config st))) as [k|] eqn:E;
      [|now destruct H].
    unfold saved, saveConfigToFile. rewrite Hw. split; [|reflexivity].
    destruct (nth_error (tunnels (ConfigManager.config st)) k) as [old|] eqn:N.
    + eexists. reflexivity.
    + exfalso. apply nth_error_None in N.
      clear H. revert k E N.
      induction (tunnels (ConfigManager.config st)) as [|t ts IH];
        intros k E N; [discriminate|].
      cbn in E. destruct (id t =? i)%string.
      * injection E as <-. cbn in N. lia.
      * destruct (findIndex i ts) as [j|]; [|discriminate].
        injection E as <-. cbn in N. apply (IH j eq_refl). lia.
Qed.

Lemma unknown_id_is_refused_witness :
  removeTunnel keychain "zz" office = (office, Thrown "Tunnel with id zz not found").
Proof.
  apply (proj1 (unknown_id_is_refused keychain "zz"
                  (App.toggle false) office)).
  intros t [<- | [<- | [<- | []]]]; discriminate.
Defined.

Lemma remove_takes_out_first_helper (sys : System) (i : string) (st : Store)
      (before : list Tunnel) (t : Tunnel) (after : list Tunnel) :
  tunnels (ConfigManager.config st) = before ++ t :: after ->
  unknown_id i before -> id t = i ->
  ConfigManager.config (fst (removeTunnel sys i st))
  = with_tunnels (ConfigManager.config st) (before ++ after)
  /\ (write_throws sys = None ->
      snd (removeTunnel sys i st) = Returned tt
      /\ file (fst (removeTunnel sys i st))
         = Holding (stored_of sys (with_tunnels (ConfigManager.config st)
                                                (before ++ after)))).
Proof.
  intros Hts Hb Ht. unfold removeTunnel.
  rewrite Hts, (findIndex_first i before t after Hb Ht), splice1_at.
  unfold saved, saveConfigToFile.
  destruct (write_throws sys); cbn; split; try reflexivity; try discriminate.
  intros _. split; reflexivity.
Qed.

(** X6.  [removeTunnel] takes out the first tunnel that has the id, and no
    other: the tunnels before it and after it stay, in order, and the other
    settings stay. When the file can be written, the file holds the new
    configuration. *)
Theorem remove_takes_out_first (sys : System) (i : string) (st : Store)
        (before : list Tunnel) (t : Tunnel) (after : list Tunnel) :
  tunnels_of st = before ++ t :: after ->
  unknown_id i before -> id t = i ->
  ConfigManager.config (fst (removeTunnel sys i st))
  = with_tunnels (ConfigManager.config st) (before ++ after)
  /\ (write_throws sys = None ->
      snd (removeTunnel sys i st) = Returned tt
      /\ file (fst (removeTunnel sys i st))
         = Holding (stored_of sys (with_tunnels (ConfigManager.config st)
                                                (before ++ after)))).
Proof.
  unfold tunnels_of. intros Hts Hb Ht.
  destruct (remove_takes_out_first_helper sys i st before t after Hts Hb Ht)
    as [Hc Hw].
  split; [exact Hc | exact Hw].
Qed.

Lemma remove_takes_out_first_witness :
  tunnels_of (fst (removeTunnel keychain "a2" office)) = [web; db].
Proof.
  exact (f_equal tunnels
           (proj1 (remove_takes_out_first keychain "a2" office [web] ssh_off [db]
                     eq_refl
                     (fun t H => match H with
                                 | or_introl E =>
                                     eq_ind web (fun u => id u <> "a2")
                                            (fun D => ltac:(discriminate D)) t E
                                 | or_intror F => match F with end
                                 end)
                     eq_refl))).
Defined.

(** X7.  [updateTunnel] merges the update into the first tunnel that has the
    id, and into no other, and returns the merged tunnel. *)
Theorem update_merges_first (sys : System) (i : string) (updates : TunnelUpdate)
        (st : Store) (before : list Tunnel) (t : Tunnel) (after : list Tunnel) :
  tunnels_of st = before ++ t :: after ->
  unknown_id i before -> id t = i ->
  ConfigManager.config (fst (updateTunnel sys i updates st))
  = with_tunnels (ConfigManager.config st)
                 (before ++ merge_tunnel t updates :: after)
  /\ (write_throws sys = None ->
      snd (updateTunnel sys i updates st) = Returned (merge_tunnel t updates)).
Proof.
  unfold tunnels_of. intros Hts Hb Ht. unfold updateTunnel.
  rewrite Hts, (findIndex_first i before t after Hb Ht).
  rewrite nth_error_app2, Nat.sub_diag by lia. cbn [nth_error].
  rewrite assign_at. unfold saved, saveConfigToFile.
  destruct (write_throws sys); cbn; split; try reflexivity; discriminate.
Qed.

Lemma update_merges_first_witness :
  tunnels_of (fst (updateTunnel keychain "a1" (App.toggle false) office))
  = [merge_tunnel web (App.toggle false); ssh_off; db].
Proof.
  exact (f_equal tunnels
           (proj1 (update_merges_first keychain "a1" (App.toggle false) office
                     [] web [ssh_off; db] eq_refl
                     (fun t H => match H with end) eq_refl))).
Defined.


(** X8.  [addTunnel] appends the tunnel under the given id, named after its
    local port when it has no name and enabled unless it says otherwise, and
    removing that id again restores the list of tunnels, provided no tunnel
    had the id before. *)
Theorem add_then_remove_restores (sys sys' : System) (uuid : string)
        (tunnel : NewTunnel) (st : Store) :
  unknown_id uuid (tunnels_of st) ->
  (exists added,
      tunnels_of (fst (addTunnel sys uuid tunnel st)) = tunnels_of st ++ [added]
      /\ id added = uuid
      /\ name added <> EmptyString
      /\ (n_name tunnel <> EmptyString -> name added = n_name tunnel)
      /\ (n_name tunnel = EmptyString ->
          name added = ("tcp-" ++ show (n_localPort tunnel))%string)
      /\ enabled added = Some (or_else (n_enabled tunnel) true)
      /\ rendered added
         = (name added, n_type tunnel, n_localIP tunnel, n_localPort tunnel,
            n_remotePort tunnel))
  /\ ConfigManager.config
       (fst (removeTunnel sys' uuid (fst (addTunnel sys uuid tunnel st))))
     = ConfigManager.config st.
Proof.
  intros Hu. unfold tunnels_of in *. split.
  - unfold addTunnel, saved, saveConfigToFile.
    eexists. split; [destruct (write_throws sys); reflexivity|].
    cbn. unfold truthy_str.
    destruct (String.eqb_spec (n_name tunnel) ""); cbn;
      repeat split; try congruence; try discriminate;
      destruct (n_enabled tunnel); reflexivity.
  - set (added := mkTunnel uuid
                    (if negb (truthy_str (n_name tunnel))
                     then ("tcp-" ++ show (n_localPort tunnel))%string
                     else n_name tunnel)
                    (n_type tunnel) (n_localIP tunnel) (n_localPort tunnel)
                    (n_remotePort tunnel)
                    (Some match n_enabled tunnel with Some b => b | None => true end)).
    assert (Ha : tunnels (ConfigManager.config (fst (addTunnel sys uuid tunnel st)))
                 = tunnels (ConfigManager.config st) ++ added :: []).
    { unfold addTunnel, saved, saveConfigToFile.
      destruct (write_throws sys); reflexivity. }
    destruct (remove_takes_out_first_helper sys' uuid
                (fst (addTunnel sys uuid tunnel st))
                (tunnels (ConfigManager.config st)) added [] Ha Hu eq_refl)
      as [Hr _].
    rewrite Hr, app_nil_r. unfold addTunnel, saved, saveConfigToFile.
    destruct (write_throws sys); cbn; now destruct (ConfigManager.config st).
Qed.


Lemma add_then_remove_restores_witness :
  ConfigManager.config
    (fst (removeTunnel keychain "a9" (fst (addTunnel keychain "a9" unnamed office))))
  = one_disabled.
Proof.
  apply (proj2 (add_then_remove_restores keychain keychain "a9" unnamed office
                  ltac:(intros t [<- | [<- | [<- | []]]]; discriminate))).
Defined.

(** X9.  Disabling a tunnel keeps it in the configuration and takes its
    block, and nothing else, out of the rendered file; the validator gives
    the same verdict and the same errors as before. *)
Theorem disable_without_delete (sys : System) (i : string) (st : Store)
        (before : list Tunnel) (t : Tunnel) (after : list Tunnel) :
  tunnels_of st = before ++ t :: after ->
  unknown_id i before -> id t = i ->
  tunnels_of (fst (updateTunnel sys i (App.toggle false) st))
  = before ++ merge_tunnel t (App.toggle false) :: after
  /\ rendered (merge_tunnel t (App.toggle false)) = rendered t
  /\ id (merge_tunnel t (App.toggle false)) = id t
  /\ frpc_lines (ConfigManager.config (fst (updateTunnel sys i (App.toggle false) st)))
     = frpc_lines (with_tunnels (ConfigManager.config st) (before ++ after))
  /\ validateConfig (ConfigManager.config (fst (updateTunnel sys i (App.toggle false) st)))
     = validateConfig (ConfigManager.config st).
Proof.
  unfold tunnels_of. intros Hts Hb Ht.
  assert (Hc : ConfigManager.config (fst (updateTunnel sys i (App.toggle false) st))
               = with_tunnels (ConfigManager.config st)
                   (before ++ merge_tunnel t (App.toggle false) :: after)).
  { unfold updateTunnel.
    rewrite Hts, (findIndex_first i before t after Hb Ht).
    rewrite nth_error_app2, Nat.sub_diag by lia. cbn [nth_error].
    rewrite assign_at. unfold saved, saveConfigToFile.
    destruct (write_throws sys); reflexivity. }
  rewrite Hc. repeat split.
  - unfold frpc_lines. cbn [tunnels with_tunnels serverAddr serverPort authToken].
    rewrite !filter_app. cbn [filter]. reflexivity.
  - unfold validateConfig, validation_errors, server_errors, duplicate_error,
      duplicates, remotePorts.
    cbn [tunnels with_tunnels serverAddr serverPort authToken].
    rewrite Hts, !map_app, !flat_map_app. cbn [map flat_map]. reflexivity.
Qed.

Lemma disable_without_delete_witness :
  frpc_lines (ConfigManager.config
                (fst (updateTunnel keychain "a1" (App.toggle false) office)))
  = global_lines "frp.example.com" 7000 "s3cret" ++ proxy_lines db.
Proof.
  exact (proj1 (proj2 (proj2 (proj2
           (disable_without_delete keychain "a1" office [] web [ssh_off; db]
              eq_refl (fun t H => match H with end) eq_refl))))).
Defined.

Lemma saved_failed {A : Type} (sys : System) (thrown : string)
      (c : AppConfig) (f : File) (a : A) :
  write_throws sys = Some thrown ->
  saved sys (mkStore c f) a
  = (mkStore c (failed_write sys c f), Thrown thrown).
Proof. intros Hw. unfold saved, saveConfigToFile. now rewrite Hw. Qed.

(** X10.  When the write of [saveConfigToFile] throws, [saveConfig],
    [addTunnel], [updateTunnel] and [removeTunnel] throw what the write
    threw, and the change they made to the configuration in memory stays.
    What the file holds then depends on where the write failed: the file is
    as it was when it could not be opened; it is cut when the writing
    itself failed, and then a manager constructed from it, on whatever
    system, holds the default configuration, without any tunnel; it holds
    the changed configuration when only the change of its permissions
    failed. *)
Theorem failed_save_keeps_change (sys : System) (thrown : string) (st : Store) :
  write_throws sys = Some thrown ->
  (forall u,
      saveConfig sys u st
      = (mkStore (merge_config (ConfigManager.config st) u)
                 (failed_write sys (merge_config (ConfigManager.config st) u)
                               (file st)),
         Thrown thrown))
  /\ (forall uuid tunnel,
         snd (addTunnel sys uuid tunnel st) = Thrown thrown
         /\ List.length (tunnels_of (fst (addTunnel sys uuid tunnel st)))
            = S (List.length (tunnels_of st))
         /\ file (fst (addTunnel sys uuid tunnel st))
            = failed_write sys
                (ConfigManager.config (fst (addTunnel sys uuid tunnel st)))
                (file st))
  /\ (forall i before t after,
         tunnels_of st = before ++ t :: after ->
         unknown_id i before -> id t = i ->
         removeTunnel sys i st
         = (mkStore (with_tunnels (ConfigManager.config st) (before ++ after))
                    (failed_write sys
                       (with_tunnels (ConfigManager.config st) (before ++ after))
                       (file st)),
            Thrown thrown)
         /\ forall updates,
             updateTunnel sys i updates st
             = (mkStore (with_tunnels (ConfigManager.config st)
                                      (before ++ merge_tunnel t updates :: after))
                        (failed_write sys
                           (with_tunnels (ConfigManager.config st)
                              (before ++ merge_tunnel t updates :: after))
                           (file st)),
                Thrown thrown))
  /\ (forall c,
         (left_by_failure sys = Untouched ->
          failed_write sys c (file st) = file st)
         /\ (left_by_failure sys = Cut ->
             forall sys',
               ConfigManager.config
                 (new_store sys' (failed_write sys c (file st)))
               = DEFAULT_CONFIG)
         /\ (left_by_failure sys = Written ->
             failed_write sys c (file st) = Holding (stored_of sys c))).
Proof.
  intros Hw. unfold tunnels_of. split; [|split; [|split]].
  - intros u. unfold saveConfig. now apply saved_failed.
  - intros uuid tunnel. unfold addTunnel.
    rewrite (saved_failed sys thrown _ _ _ Hw).
    cbn [fst snd ConfigManager.config file with_tunnels tunnels].
    rewrite length_app. cbn. repeat split. lia.
  - intros i before t after Hts Hb Ht. split; [|intros updates].
    + unfold removeTunnel.
      rewrite Hts, (findIndex_first i before t after Hb Ht), splice1_at.
      now apply saved_failed.
    + unfold updateTunnel.
      rewrite Hts, (findIndex_first i before t after Hb Ht).
      rewrite nth_error_app2, Nat.sub_diag by lia. cbn [nth_error].
      rewrite assign_at. now apply saved_failed.
  - intros c. unfold failed_write. repeat split; intros ->; reflexivity.
Qed.

(** The disk is full: the tunnel is added in memory, the call throws, and
    the file is cut, so that the next launch starts from the default
    configuration. *)
Lemma failed_save_keeps_change_witness :
  snd (addTunnel full_disk "a9" unnamed office) = Thrown "ENOSPC"
  /\ List.length (tunnels_of (fst (addTunnel full_disk "a9" unnamed office)))
     = 4%nat
  /\ ConfigManager.config
       (new_store keychain (file (fst (addTunnel full_disk "a9" unnamed office))))
     = DEFAULT_CONFIG.
Proof.
  pose proof (failed_save_keeps_change full_disk "ENOSPC" office eq_refl)
    as (_ & Hadd & _ & Hfile).
  destruct (Hadd "a9" unnamed) as (H1 & H2 & H3).
  split; [exact H1|]. split; [exact H2|].
  rewrite H3. apply (proj1 (proj2 (Hfile _)) eq_refl).
Defined.

(** ** ConfigManager: the configuration and its file *)

Lemma truthy_num_or (n d : Z) :
  (if truthy_opt_num (Some n) then or_else (Some n) 0 else d)
  = if n =? 0 then d else n.
Proof. unfold truthy_opt_num, truthy_num, or_else. now destruct (n =? 0). Qed.

Lemma load_stored (sys sys' : System) (c : AppConfig) :
  loadConfig sys' (Holding (stored_of sys c))
  = with_authToken
      (defaulted_numbers c)
      (if truthy_str (authToken c) && isEncryptionAvailable sys
       then if truthy_str (encryptString sys (authToken c))
               && isEncryptionAvailable sys'
            then match decryptString sys' (encryptString sys (authToken c)) with
                 | Some token => token
                 | None => ""
                 end
            else ""
       else "").
Proof.
  unfold loadConfig, stored_of, defaulted_numbers, with_authToken.
  cbn [s_serverAddr s_serverPort s_encryptedToken s_authToken s_remotePortMin
       s_remotePortMax s_autoStart s_tunnels serverAddr serverPort authToken
       remotePortMin remotePortMax autoStart tunnels].
  rewrite !truthy_num_or.
  assert (Ha : (if truthy_opt_str (Some (serverAddr c))
                then or_else (Some (serverAddr c)) "" else "")%string
               = serverAddr c).
  { cbn. unfold truthy_str. now destruct (String.eqb_spec (serverAddr c) ""). }
  rewrite Ha.
  destruct (truthy_str (authToken c) && isEncryptionAvailable sys); reflexivity.
Qed.

(** X11.  What is saved is what is loaded. With encryption available and
    giving back the token, the configuration that a new manager loads from
    the file written by [saveConfig] is the configuration that was saved,
    except that a server port of 0 is loaded as 7000 and a port range bound
    of 0 as 6000 or 6100. *)
Theorem saved_configuration_is_reloaded (sys : System) (u : ConfigUpdate)
        (st : Store) :
  write_throws sys = None ->
  keeps_token sys (authToken (merge_config (ConfigManager.config st) u)) ->
  snd (saveConfig sys u st) = Returned tt
  /\ ConfigManager.config (fst (saveConfig sys u st))
     = merge_config (ConfigManager.config st) u
  /\ ConfigManager.config (new_store sys (file (fst (saveConfig sys u st))))
     = defaulted_numbers (merge_config (ConfigManager.config st) u).
Proof.
  intros Hw [Ha Hk]. unfold saveConfig, saved, saveConfigToFile. rewrite Hw.
  cbn [fst snd ConfigManager.config file new_store]. repeat split.
  rewrite load_stored, Ha, !andb_true_r.
  set (c := merge_config (ConfigManager.config st) u) in *.
  destruct (truthy_str (authToken c)) eqn:T.
  - apply truthy_str_iff in T. destruct (Hk T) as [Hne Hd].
    apply truthy_str_iff in Hne. rewrite Hne, Hd. reflexivity.
  - unfold truthy_str in T. apply negb_false_iff, String.eqb_eq in T.
    clearbody c. destruct c. cbn in T. subst. reflexivity.
Qed.

Lemma saved_configuration_is_reloaded_witness :
  ConfigManager.config
    (new_store keychain
       (file (fst (saveConfig keychain
                     (mkConfigUpdate (Some "frp.example.org") None (Some "pw")
                                     None None None None)
                     office))))
  = mkConfig "frp.example.org" 7000 "pw" 6000 6100 false [web; ssh_off; db].
Proof.
  assert (K : keeps_token keychain
                (authToken (merge_config (ConfigManager.config office)
                              (mkConfigUpdate (Some "frp.example.org") None
                                              (Some "pw") None None None None)))).
  { split; [reflexivity|]. intros _. split; [discriminate | reflexivity]. }
  exact (proj2 (proj2 (saved_configuration_is_reloaded keychain
           (mkConfigUpdate (Some "frp.example.org") None (Some "pw")
                           None None None None)
           office eq_refl K))).
Defined.

(** X12.  Without encryption the token is not kept. A configuration saved
    while encryption is not available is written without its token, so
    whatever system loads the file gets an empty token, and the validator
    rejects what was loaded with "Auth token is required". *)
Theorem token_not_saved_without_encryption (sys sys' : System) (u : ConfigUpdate)
        (st : Store) :
  write_throws sys = None ->
  isEncryptionAvailable sys = false ->
  s_encryptedToken (stored_of sys (ConfigManager.config (fst (saveConfig sys u st))))
  = None
  /\ file (fst (saveConfig sys u st))
     = Holding (stored_of sys (merge_config (ConfigManager.config st) u))
  /\ authToken (ConfigManager.config
                  (new_store sys' (file (fst (saveConfig sys u st)))))
     = EmptyString
  /\ valid (validateConfig
              (ConfigManager.config
                 (new_store sys' (file (fst (saveConfig sys u st))))))
     = false
  /\ In "Auth token is required"
        (errors (validateConfig
                   (ConfigManager.config
                      (new_store sys' (file (fst (saveConfig sys u st))))))).
Proof.
  intros Hw Ha. unfold saveConfig, saved, saveConfigToFile. rewrite Hw.
  cbn [fst snd ConfigManager.config file new_store].
  assert (Ht : authToken (loadConfig sys'
                 (Holding (stored_of sys (merge_config (ConfigManager.config st) u))))
               = EmptyString).
  { rewrite load_stored, Ha, andb_false_r. reflexivity. }
  split; [unfold stored_of; cbn; now rewrite Ha, andb_false_r|].
  split; [reflexivity|]. split; [exact Ht|].
  set (c := loadConfig sys' _) in *.
  assert (Hin : In "Auth token is required" (errors (validateConfig c))).
  { unfold validateConfig, validation_errors, server_errors. cbn [errors].
    rewrite Ht. cbn. apply in_or_app. left. apply in_or_app. right.
    apply in_or_app. right. now left. }
  split; [|exact Hin].
  destruct (valid (validateConfig c)) eqn:E; [|reflexivity].
  apply valid_errors_nil in E. unfold validateConfig in Hin. cbn [errors] in Hin.
  rewrite E in Hin. destruct Hin.
Qed.

Lemma token_not_saved_without_encryption_witness :
  authToken (ConfigManager.config
               (new_store keychain
                  (file (fst (saveConfig no_keychain
                                (mkConfigUpdate None None (Some "pw") None None
                                                None None)
                                office)))))
  = EmptyString.
Proof.
  exact (proj1 (proj2 (proj2
           (token_not_saved_without_encryption no_keychain keychain
              (mkConfigUpdate None None (Some "pw") None None None None)
              office eq_refl eq_refl)))).
Defined.


(** X13.  A plain-text token of an older file is taken over. A file that
    holds its token in [authToken] and no encrypted token is loaded with
    that token; once the manager saves, with encryption available, the file
    holds the token encrypted and not in plain text, and loads with the same
    token. *)
Theorem legacy_token_is_migrated (sys sys2 : System) (stored : StoredConfig)
        (token : string) (u : ConfigUpdate) :
  s_encryptedToken stored = None ->
  s_authToken stored = Some token ->
  token <> EmptyString ->
  write_throws sys2 = None ->
  c_authToken u = None ->
  keeps_token sys2 token ->
  authToken (ConfigManager.config (new_store sys (Holding stored))) = token
  /\ exists stored',
      file (fst (saveConfig sys2 u (new_store sys (Holding stored))))
      = Holding stored'
      /\ s_authToken stored' = None
      /\ s_encryptedToken stored' = Some (encryptString sys2 token)
      /\ authToken (loadConfig sys2 (Holding stored')) = token.
Proof.
  intros He Hp Hne Hw Hu [Ha Hk]. destruct (Hk Hne) as [Hc Hd].
  apply truthy_str_iff in Hne. apply truthy_str_iff in Hc.
  assert (Ht : authToken (loadConfig sys (Holding stored)) = token).
  { unfold loadConfig. cbn [authToken]. rewrite He, Hp. cbn. now rewrite Hne. }
  split; [exact Ht|].
  unfold saveConfig, saved, saveConfigToFile. rewrite Hw.
  cbn [fst file new_store ConfigManager.config].
  eexists. split; [reflexivity|]. split; [reflexivity|].
  assert (Hm : authToken (merge_config (loadConfig sys (Holding stored)) u) = token).
  { unfold merge_config. cbn [authToken]. now rewrite Hu. }
  split.
  - unfold stored_of. cbn [s_encryptedToken]. now rewrite Hm, Hne, Ha.
  - rewrite load_stored, Hm, Hne, Ha, Hc, Hd. reflexivity.
Qed.

Lemma legacy_token_is_migrated_witness :
  authToken (ConfigManager.config (new_store no_keychain legacy_file))
  = "old-token".
Proof.
  assert (K : keeps_token keychain "old-token").
  { split; [reflexivity|]. intros _. split; [discriminate | reflexivity]. }
  exact (proj1 (legacy_token_is_migrated no_keychain keychain
                  (mkStored (Some "frp.example.com") (Some 7000) None
                            (Some "old-token") (Some 6000) (Some 6100)
                            (Some false) (Some [web]))
                  "old-token"
                  (mkConfigUpdate None None None None None None None)
                  eq_refl eq_refl ltac:(discriminate) eq_refl eq_refl K)).
Defined.

(** ** ConfigManager.importConfig *)

(** X14.  An import never touches the auth token. An import that fails
    because the text cannot be parsed or carries no server address that is a
    string reports failure and leaves the configuration and the file as they
    are; an import that reports success has written the new configuration to
    the file. *)
Theorem import_keeps_token (sys : System) (parsed : Parsed) (st : Store) :
  authToken (ConfigManager.config (fst (importConfig sys parsed st)))
  = authToken (ConfigManager.config st)
  /\ (parsed = Parse_throws ->
      importConfig sys parsed st
      = (st, mkReport false (Some "Invalid JSON format")))
  /\ (forall imported,
         parsed = Parse_returns imported -> d_serverAddr imported = None ->
         importConfig sys parsed st
         = (st, mkReport false (Some "Invalid server address")))
  /\ (success (snd (importConfig sys parsed st)) = true ->
      file (fst (importConfig sys parsed st))
      = Holding (stored_of sys (ConfigManager.config
                                  (fst (importConfig sys parsed st))))).
Proof.
  unfold importConfig, saveConfigToFile. repeat split.
  - destruct parsed as [|imported]; [reflexivity|].
    destruct (d_serverAddr imported); [|reflexivity].
    destruct (write_throws sys); reflexivity.
  - intros ->. reflexivity.
  - intros imported -> ->. reflexivity.
  - destruct parsed as [|imported]; [discriminate|].
    destruct (d_serverAddr imported); [|discriminate].
    destruct (write_throws sys); [discriminate | reflexivity].
Qed.

(** X15.  An import restores what was exported. Importing the document that
    carries the exported properties of the configuration in memory changes
    nothing; importing the document of another configuration, with a server
    address and with a server port and port range bounds other than 0, makes
    the configuration in memory that other configuration with the token of
    the current one. *)
Theorem import_restores_export (sys : System) (st : Store) (c' : AppConfig) :
  ConfigManager.config
    (fst (importConfig sys (Parse_returns (document_of (ConfigManager.config st))) st))
  = ConfigManager.config st
  /\ (serverAddr c' <> EmptyString -> serverPort c' <> 0 ->
      remotePortMin c' <> 0 -> remotePortMax c' <> 0 ->
      ConfigManager.config
        (fst (importConfig sys (Parse_returns (document_of c')) st))
      = with_authToken c' (authToken (ConfigManager.config st))).
Proof.
  assert (Hc : forall d,
             ConfigManager.config
               (fst (importConfig sys (Parse_returns (document_of d)) st))
             = mkConfig
                 (if truthy_str (serverAddr d) then serverAddr d
                  else serverAddr (ConfigManager.config st))
                 (if serverPort d =? 0 then serverPort (ConfigManager.config st)
                  else serverPort d)
                 (authToken (ConfigManager.config st))
                 (if remotePortMin d =? 0 then remotePortMin (ConfigManager.config st)
                  else remotePortMin d)
                 (if remotePortMax d =? 0 then remotePortMax (ConfigManager.config st)
                  else remotePortMax d)
                 (autoStart d) (tunnels d)).
  { intros d. unfold importConfig, saveConfigToFile, document_of.
    cbn [d_serverAddr d_serverPort d_remotePortMin d_remotePortMax d_autoStart
         d_tunnels].
    rewrite !truthy_num_or.
    destruct (write_throws sys); reflexivity. }
  split.
  - rewrite Hc. destruct (ConfigManager.config st) as [a p t mn mx s ts]. cbn.
    destruct (truthy_str a); destruct (p =? 0) eqn:Ep; destruct (mn =? 0) eqn:En;
      destruct (mx =? 0) eqn:Ex; reflexivity.
  - intros Ha Hp Hn Hx. rewrite Hc.
    apply truthy_str_iff in Ha. rewrite Ha.
    apply Z.eqb_neq in Hp, Hn, Hx. rewrite Hp, Hn, Hx. reflexivity.
Qed.

Lemma import_restores_export_witness :
  ConfigManager.config (fst (importConfig keychain (Parse_returns (document_of home))
                                          office))
  = home.
Proof.
  exact (proj2 (import_restores_export keychain office home)
               ltac:(discriminate) ltac:(discriminate) ltac:(discriminate)
               ltac:(discriminate)).
Defined.


(** ** TunnelForm: the ports it offers and the tunnels it accepts *)

Lemma ports_from_In (props : TunnelForm.Props) (n : nat) :
  forall start p,
    In p (TunnelForm.ports_from props start n)
    <-> start <= p < start + Z.of_nat n
        /\ (~ In p (TunnelForm.existingPorts props)
            \/ TunnelForm.own_port props p = true).
Proof.
  induction n as [|n IH]; intros start p; cbn [TunnelForm.ports_from].
  - cbn. split; [intros [] | lia].
  - assert (Hc : forall q,
               negb (mem q (TunnelForm.existingPorts props))
               || TunnelForm.own_port props q = true
               <-> ~ In q (TunnelForm.existingPorts props)
                   \/ TunnelForm.own_port props q = true).
    { intros q. rewrite orb_true_iff, negb_true_iff, <- mem_In.
      destruct (mem q (TunnelForm.existingPorts props)); intuition congruence. }
    destruct (negb (mem start (TunnelForm.existingPorts props))
              || TunnelForm.own_port props start) eqn:E.
    + cbn [In]. rewrite IH. split.
      * intros [<- | [Hr Hf]]; [split; [lia | now apply Hc] | split; [lia | exact Hf]].
      * intros [Hr Hf]. destruct (Z.eq_dec start p) as [-> | Hne]; [now left|].
        right. split; [lia | exact Hf].
    + rewrite IH. split.
      * intros [Hr Hf]. split; [lia | exact Hf].
      * intros [Hr Hf]. split; [|exact Hf].
        destruct (Z.eq_dec start p) as [-> | Hne]; [|lia].
        apply Hc in Hf. congruence.
Qed.

Lemma ports_from_sorted (props : TunnelForm.Props) (n : nat) :
  forall start, StronglySorted Z.lt (TunnelForm.ports_from props start n).
Proof.
  induction n as [|n IH]; intros start; cbn [TunnelForm.ports_from];
    [constructor|].
  destruct (negb (mem start (TunnelForm.existingPorts props))
            || TunnelForm.own_port props start); [|apply IH].
  constructor; [apply IH|].
  apply Forall_forall. intros q Hq. apply ports_from_In in Hq. lia.
Qed.

Lemma offered_ports_helper (props : TunnelForm.Props) :
  (forall p,
      In p (TunnelForm.availablePorts props)
      <-> TunnelForm.portRange_min props <= p <= TunnelForm.portRange_max props
          /\ (~ In p (TunnelForm.existingPorts props)
              \/ TunnelForm.own_port props p = true))
  /\ StronglySorted Z.lt (TunnelForm.availablePorts props).
Proof.
  unfold TunnelForm.availablePorts. split; [|apply ports_from_sorted].
  intros p. rewrite ports_from_In. split; intros [Hr Hf]; (split; [lia | exact Hf]).
Qed.

(** X16.  The ports that the form offers are the ports of the range that no
    other tunnel uses, the port of the tunnel being edited among them, each
    once and in ascending order. *)
Theorem offered_ports_are_the_free_ones (props : TunnelForm.Props) :
  (forall p,
      In p (TunnelForm.availablePorts props)
      <-> TunnelForm.portRange_min props <= p <= TunnelForm.portRange_max props
          /\ (~ In p (TunnelForm.existingPorts props)
              \/ TunnelForm.own_port props p = true))
  /\ StronglySorted Z.lt (TunnelForm.availablePorts props).
Proof.
  unfold TunnelForm.availablePorts. split; [|apply ports_from_sorted].
  intros p. rewrite ports_from_In. split; intros [Hr Hf]; (split; [lia | exact Hf]).
Qed.

(** X17.  When a tunnel is being added and some port of the range is free,
    the remote port that the form proposes is the smallest port of the range
    that no tunnel uses. *)
Theorem proposed_port_is_smallest_free (c : AppConfig) :
  TunnelForm.availablePorts (App.add_props c) <> [] ->
  let proposed :=
    TunnelForm.remotePort
      (TunnelForm.defaulted (App.add_props c) (TunnelForm.initial (App.add_props c))) in
  fst (App.port_range c) <= proposed <= snd (App.port_range c)
  /\ ~ In proposed (map remotePort (tunnels c))
  /\ forall p,
      fst (App.port_range c) <= p <= snd (App.port_range c) ->
      ~ In p (map remotePort (tunnels c)) ->
      proposed <= p.
Proof.
  intros Hne. cbn zeta.
  destruct (offered_ports_helper (App.add_props c)) as [Hin Hs].
  unfold TunnelForm.defaulted, TunnelForm.initial.
  cbn [TunnelForm.tunnel App.add_props].
  destruct (TunnelForm.availablePorts (App.add_props c)) as [|first rest] eqn:E;
    [now destruct Hne|].
  cbn [TunnelForm.remotePort]. cbn.
  assert (Hf : In first (first :: rest)) by now left.
  apply Hin in Hf as [Hr [Hf | Hf]]; [|discriminate].
  cbn in Hr, Hf. repeat split; try lia; try exact Hf.
  intros p Hp Hfree.
  assert (Hp' : In p (first :: rest)).
  { apply Hin. split; [exact Hp | left; exact Hfree]. }
  destruct Hp' as [<- | Hp']; [lia|].
  inversion Hs as [|x l Hs' Hall]; subst.
  rewrite Forall_forall in Hall. specialize (Hall p Hp'). lia.
Qed.


Lemma proposed_port_is_smallest_free_witness :
  TunnelForm.remotePort
    (TunnelForm.defaulted (App.add_props pair)
                          (TunnelForm.initial (App.add_props pair)))
  <= 6000.
Proof.
  assert (N : TunnelForm.availablePorts (App.add_props pair) <> [])
    by (vm_compute; discriminate).
  apply (proj2 (proj2 (proposed_port_is_smallest_free pair N)) 6000).
  - vm_compute. split; discriminate.
  - vm_compute. intros [H | [H | H]]; [discriminate H | discriminate H | exact H].
Defined.

Lemma accepted_ports (props : TunnelForm.Props) (s : TunnelForm.State)
      (t : NewTunnel) :
  TunnelForm.handleSubmit props s = TunnelForm.Accepted t ->
  (~ In (TunnelForm.remotePort s) (TunnelForm.existingPorts props)
   \/ TunnelForm.own_port props (TunnelForm.remotePort s) = true)
  /\ in_range (TunnelForm.localPort s)
  /\ in_range (TunnelForm.remotePort s)
  /\ n_localPort t = TunnelForm.localPort s
  /\ n_remotePort t = TunnelForm.remotePort s.
Proof.
  unfold TunnelForm.handleSubmit, in_range.
  destruct (mem (TunnelForm.remotePort s) (TunnelForm.existingPorts props)
            && negb (TunnelForm.own_port props (TunnelForm.remotePort s))) eqn:E;
    [discriminate|].
  destruct ((TunnelForm.localPort s <? 1) || (TunnelForm.localPort s >? 65535))
    eqn:El; [discriminate|].
  destruct ((TunnelForm.remotePort s <? 1) || (TunnelForm.remotePort s >? 65535))
    eqn:Er; [discriminate|].
  intros H. injection H as <-. cbn [n_localPort n_remotePort].
  repeat split; try lia.
  apply andb_false_iff in E as [E | E].
  - left. rewrite <- mem_In. congruence.
  - right. now apply negb_false_iff in E.
Qed.

Lemma NoDup_insert {A : Type} (a : A) (l1 l2 : list A) :
  NoDup (l1 ++ l2) -> ~ In a (l1 ++ l2) -> NoDup (l1 ++ a :: l2).
Proof.
  intros Hn Hi. apply (NoDup_Add (Add_app a l1 l2)). now split.
Qed.

(** X18.  A tunnel that the add-tunnel form accepts, with ports that are
    whole numbers, keeps a valid configuration valid when [addTunnel]
    appends it, whatever was typed into the form. *)
Theorem accepted_new_tunnel_keeps_config_valid
        (sys : System) (uuid : string) (c : AppConfig) (f : File)
        (s : TunnelForm.State) (t : NewTunnel) :
  valid (validateConfig c) = true ->
  TunnelForm.handleSubmit (App.add_props c) s = TunnelForm.Accepted t ->
  valid (validateConfig
           (ConfigManager.config (fst (addTunnel sys uuid t (mkStore c f)))))
  = true.
Proof.
  intros Hv Ha. apply valid_errors_nil in Hv. apply validation_errors_nil in Hv.
  destruct Hv as (Hs & Hp & Hk & Hn & Hall).
  apply accepted_ports in Ha as (Hfree & Hl & Hr & El & Er).
  destruct Hfree as [Hfree | Hown]; [|discriminate Hown].
  cbn [App.add_props TunnelForm.existingPorts] in Hfree.
  apply valid_errors_nil, validation_errors_nil.
  unfold addTunnel, saved, saveConfigToFile.
  destruct (write_throws sys); cbn [fst ConfigManager.config with_tunnels
    serverAddr serverPort authToken tunnels].
  all: repeat split; try assumption; try apply Hp.
  all: try (rewrite map_app; cbn [map remotePort]; rewrite Er;
            replace (TunnelForm.remotePort s :: nil)
              with (TunnelForm.remotePort s :: @nil Z) by reflexivity;
            apply NoDup_insert; rewrite app_nil_r; assumption).
  all: apply Forall_app; split; [assumption|]; constructor; [|constructor];
    cbn [localPort remotePort]; rewrite El, Er; split; assumption.
Qed.

Lemma accepted_new_tunnel_keeps_config_valid_witness :
  valid (validateConfig
           (ConfigManager.config
              (fst (addTunnel keychain "a9"
                      (mkNewTunnel "api" tcp "127.0.0.1" 9000 6005 (Some true))
                      (mkStore pair Missing)))))
  = true.
Proof.
  apply (accepted_new_tunnel_keeps_config_valid keychain "a9" pair Missing typed).
  - vm_compute. reflexivity.
  - vm_compute. reflexivity.
Defined.

Lemma filter_other_ids (i : string) (ts : list Tunnel) :
  unknown_id i ts ->
  filter (fun t => negb (id t =? i)%string) ts = ts.
Proof.
  unfold unknown_id. induction ts as [|t ts IH]; intros H; cbn [filter];
    [reflexivity|].
  destruct (String.eqb_spec (id t) i) as [E | E].
  - now destruct (H t (or_introl eq_refl)).
  - cbn. rewrite IH; [reflexivity|]. intros u Hu. apply H. now right.
Qed.

Lemma NoDup_ids_split (before : list Tunnel) (e : Tunnel) (after : list Tunnel) :
  NoDup (map id (before ++ e :: after)) ->
  unknown_id (id e) before /\ unknown_id (id e) after.
Proof.
  rewrite map_app. cbn [map]. intros H. apply NoDup_remove_2 in H.
  split; intros t Ht E; apply H; apply in_or_app; [left | right];
    rewrite <- E; now apply in_map.
Qed.

(** X19.  When the tunnels have distinct ids, a change that the edit-tunnel
    form accepts for one of them, with ports that are whole numbers, keeps a
    valid configuration valid when [updateTunnel] applies it. *)
Theorem accepted_edit_keeps_config_valid
        (sys : System) (c : AppConfig) (f : File) (e : Tunnel)
        (s : TunnelForm.State) (t : NewTunnel) :
  valid (validateConfig c) = true ->
  In e (tunnels c) ->
  NoDup (map id (tunnels c)) ->
  TunnelForm.handleSubmit (App.edit_props c e) s = TunnelForm.Accepted t ->
  valid (validateConfig
           (ConfigManager.config
              (fst (updateTunnel sys (id e) (App.as_update t) (mkStore c f)))))
  = true.
Proof.
  intros Hv Hin Hids Ha. apply valid_errors_nil in Hv.
  apply validation_errors_nil in Hv. destruct Hv as (Hs & Hp & Hk & Hn & Hall).
  apply accepted_ports in Ha as (Hfree & Hl & Hr & El & Er).
  apply in_split in Hin as (before & after & Hts).
  rewrite Hts in Hids, Hn, Hall.
  destruct (NoDup_ids_split before e after Hids) as [Hb Haf].
  assert (Hex : TunnelForm.existingPorts (App.edit_props c e)
                = map remotePort before ++ map remotePort after).
  { cbn [App.edit_props TunnelForm.existingPorts]. rewrite Hts, filter_app.
    cbn [filter]. rewrite String.eqb_refl. cbn [negb].
    rewrite (filter_other_ids _ _ Hb), (filter_other_ids _ _ Haf).
    apply map_app. }
  rewrite map_app in Hn. cbn [map] in Hn.
  assert (Hnot : ~ In (TunnelForm.remotePort s)
                     (map remotePort before ++ map remotePort after)).
  { destruct Hfree as [Hfree | Hown].
    - now rewrite Hex in Hfree.
    - unfold TunnelForm.own_port in Hown.
      cbn [App.edit_props TunnelForm.tunnel] in Hown.
      apply Z.eqb_eq in Hown. rewrite Hown. now apply NoDup_remove_2 in Hn. }
  apply NoDup_remove_1 in Hn.
  apply Forall_app in Hall as [Hall1 Hall2].
  apply Forall_cons_iff in Hall2 as [_ Hall2].
  apply valid_errors_nil, validation_errors_nil.
  unfold updateTunnel. cbn [ConfigManager.config]. rewrite Hts.
  rewrite (findIndex_first (id e) before e after Hb eq_refl).
  rewrite nth_error_app2, Nat.sub_diag by lia. cbn [nth_error].
  rewrite assign_at. unfold saved, saveConfigToFile.
  destruct (write_throws sys); cbn [fst ConfigManager.config with_tunnels
    serverAddr serverPort authToken tunnels].
  all: repeat split; try assumption; try apply Hp.
  all: try (rewrite map_app; cbn [map merge_tunnel App.as_update remotePort
                                  u_remotePort or_else];
            rewrite Er; apply NoDup_insert; assumption).
  all: apply Forall_app; split; [assumption|]; constructor; [|assumption];
    cbn [merge_tunnel App.as_update localPort remotePort u_localPort
         u_remotePort or_else]; rewrite El, Er; split; assumption.
Qed.

Lemma accepted_edit_keeps_config_valid_witness :
  valid (validateConfig
           (ConfigManager.config
              (fst (updateTunnel keychain "a1"
                      (App.as_update
                         (mkNewTunnel "api" tcp "127.0.0.1" 9000 6005 (Some true)))
                      (mkStore pair Missing)))))
  = true.
Proof.
  apply (accepted_edit_keeps_config_valid keychain pair Missing web typed).
  - vm_compute. reflexivity.
  - now left.
  - vm_compute. repeat constructor; cbn; intuition discriminate.
  - vm_compute. reflexivity.
Defined.


(** ** App: the log that the window keeps *)

Lemma slice_last_snoc (prev : list string) (log : string) :
  App.onFrpcLog prev log = App.slice_last 501 (prev ++ [log]).
Proof.
  unfold App.onFrpcLog, App.slice_last. rewrite length_app. cbn [List.length].
  rewrite skipn_app.
  replace (List.length prev + 1 - 501)%nat with (List.length prev - 500)%nat by lia.
  replace (List.length prev - 500 - List.length prev)%nat with O by lia.
  reflexivity.
Qed.

Lemma slice_last_app (n : nat) (l more : list string) :
  App.slice_last n (App.slice_last n l ++ more) = App.slice_last n (l ++ more).
Proof.
  unfold App.slice_last. set (a := (List.length l - n)%nat).
  transitivity (skipn (List.length (l ++ more) - n)
                      ((firstn a l ++ skipn a l) ++ more));
    [|now rewrite firstn_skipn].
  rewrite <- app_assoc, (skipn_app _ (firstn a l)).
  rewrite (@skipn_all2 _ _ (firstn a l))
    by (rewrite length_firstn, length_app; subst a; lia).
  cbn [app]. f_equal.
  rewrite !length_app, length_skipn, length_firstn. subst a. lia.
Qed.

(** X20.  After one or more log lines have arrived, the window holds the
    last 501 lines of what it held before followed by the lines that
    arrived, in their order, and so never more than 501 lines. *)
Theorem log_holds_last_501_lines (prev : list string) (log : string)
        (rest : list string) :
  fold_left App.onFrpcLog (log :: rest) prev
  = App.slice_last 501 (prev ++ log :: rest)
  /\ (List.length (fold_left App.onFrpcLog (log :: rest) prev) <= 501)%nat.
Proof.
  assert (E : fold_left App.onFrpcLog (log :: rest) prev
              = App.slice_last 501 (prev ++ log :: rest)).
  { revert prev log. induction rest as [|next rest IH]; intros prev log.
    - apply slice_last_snoc.
    - change (fold_left App.onFrpcLog (log :: next :: rest) prev)
        with (fold_left App.onFrpcLog (next :: rest) (App.onFrpcLog prev log)).
      rewrite IH, slice_last_snoc, slice_last_app, <- app_assoc. reflexivity. }
  split; [exact E|]. rewrite E. unfold App.slice_last.
  rewrite length_skipn. lia.
Qed.


(** ** FrpcManager: what holds of every run *)

Lemma start_keeps_autoReconnect (env : Env) (w : World) :
  autoReconnect (this (fst (start env w))) = autoReconnect (this w).
Proof.
  unfold start, binary_not_found, clear_reconnectTimer.
  destruct (process (this w)); [reflexivity|].
  destruct (reconnectTimer (this w)); cbn [config set_intentionallyStopped
    on_this set_reconnectTimer clearTimeout];
    destruct (negb (valid (validateConfig (config w)))); try reflexivity;
    destruct (writeFileSync_throws env); try reflexivity;
    destruct (findFrpcBinary env) as [path|]; try reflexivity;
    destruct (negb (truthy_str path)); try reflexivity;
    destruct (spawn_throws env); reflexivity.
Qed.

Lemma stop_keeps_policy (w : World) :
  autoReconnect (this (fst (stop w))) = autoReconnect (this w)
  /\ reconnectAttempts (this (fst (stop w))) = reconnectAttempts (this w).
Proof.
  unfold stop, clear_reconnectTimer. cbn.
  destruct (reconnectTimer (this w)); cbn; destruct (process (this w)); cbn;
    split; reflexivity.
Qed.

Lemma on_stdout_policy (child : nat) (lines : list string) :
  forall w,
    autoReconnect (this (on_stdout child lines w)) = autoReconnect (this w)
    /\ (reconnectAttempts (this (on_stdout child lines w))
        = reconnectAttempts (this w)
        \/ reconnectAttempts (this (on_stdout child lines w)) = 0).
Proof.
  unfold on_stdout.
  induction lines as [|line lines IH]; intros w; cbn [fold_left].
  - split; [reflexivity | now left].
  - destruct (IH (stdout_line child w line)) as [I1 I2]. rewrite I1.
    unfold stdout_line in *.
    destruct (is_success_line line);
      [destruct (negb (child_connected child (effect (Emit_log line) w)))|];
      cbn in *; split; try reflexivity; tauto.
Qed.

Lemma quiet_bounded (w w' : World) : quiet w w' -> bounded w -> bounded w'.
Proof.
  intros Q [Hn Hr]. pose proof (quiet_retries w w' Q) as R.
  destruct Q as (_ & E & _). unfold bounded. now rewrite E, R.
Qed.

Lemma handleDisconnect_bounded (w : World) :
  bounded w -> bounded (handleDisconnect w).
Proof.
  intros [Hn Hr]. unfold maxReconnectAttempts in Hn.
  destruct (intentionallyStopped (this w)) eqn:Es;
    [rewrite handleDisconnect_skipped by (now left); now split|].
  destruct (autoReconnect (this w)) eqn:Ea;
    [|rewrite handleDisconnect_skipped by (now right); now split].
  destruct (Z_lt_le_dec (reconnectAttempts (this w)) 5) as [L | L].
  - destruct (handleDisconnect_retries w Ea Es L) as (Ht & _ & _ & _ & line & Hd).
    unfold bounded, maxReconnectAttempts. rewrite Ht. cbn [this reconnectAttempts].
    split; [lia|]. rewrite (retries_extended _ _ _ Hd). cbn.
    apply Forall_app. split; [exact Hr|]. constructor; [|constructor].
    exists (reconnectAttempts (this w) + 1). split; [lia | reflexivity].
  - destruct (handleDisconnect_gives_up w Ea Es L) as (Ht & _ & _ & _ & Hd).
    unfold bounded, maxReconnectAttempts. rewrite Ht. split; [lia|].
    rewrite (retries_extended _ _ _ Hd). cbn. now rewrite app_nil_r.
Qed.

Lemma step_bounded (e : Event) (w : World) : bounded w -> bounded (step e w).
Proof.
  intros B. pose proof B as [Hn Hr]. unfold bounded.
  destruct e as [env | | enabled | t env | child lines | child lines
                 | child message | child code signal]; cbn [step].
  - now rewrite start_keeps_attempts, start_no_retry.
  - destruct (stop_keeps_policy w) as [_ E]. now rewrite E, stop_no_retry.
  - exact B.
  - destruct (pending t w) as [[[] delay]|]; [| |exact B].
    + now rewrite start_keeps_attempts, start_no_retry.
    + unfold force_kill, retries. destruct (process (this (expire t w))); cbn;
        rewrite ?flat_map_app; cbn; rewrite ?app_nil_r; exact B.
  - destruct (child <? List.length (children w))%nat; [|exact B].
    destruct (on_stdout_calm child lines w) as (_ & _ & _ & R).
    destruct (on_stdout_policy child lines w) as [_ [E | E]]; rewrite R, E;
      [exact B | split; [unfold maxReconnectAttempts; lia | exact Hr]].
  - destruct (child <? List.length (children w))%nat; [|exact B].
    apply (quiet_bounded w); [apply on_stderr_quiet | exact B].
  - destruct (child <? List.length (children w))%nat; [|exact B].
    destruct (on_error_shape message w) as (w1 & E & Q & _).
    rewrite E. apply handleDisconnect_bounded, (quiet_bounded w); assumption.
  - destruct (child <? List.length (children w))%nat; [|exact B].
    destruct (exit_listeners_shape child code signal w) as (w1 & Q1 & Q2 & _).
    apply (quiet_bounded (handleDisconnect w1)); [exact Q2|].
    apply handleDisconnect_bounded, (quiet_bounded w); assumption.
Qed.

(** X21.  Whatever happens to a new supervisor, the attempt counter stays
    between 0 and 5 and every retry that is ever scheduled waits 5000,
    10000, 15000, 20000 or 25000 ms. *)
Theorem attempts_and_delays_stay_bounded (c : AppConfig) (events : list Event) :
  0 <= reconnectAttempts (this (run events (new_world c))) <= 5
  /\ Forall backoff (retries (run events (new_world c))).
Proof.
  change (bounded (run events (new_world c))).
  assert (B : bounded (new_world c)).
  { split; [cbn; unfold maxReconnectAttempts; lia | constructor]. }
  revert B. generalize (new_world c). unfold run.
  induction events as [|e events IH]; intros w B; [exact B|].
  cbn [fold_left]. apply IH, step_bounded, B.
Qed.

Lemma step_reconnect_off (e : Event) (w : World) :
  leaves_reconnect_off e = true ->
  autoReconnect (this w) = false ->
  autoReconnect (this (step e w)) = false
  /\ retries (step e w) = retries w.
Proof.
  intros He Ha.
  destruct e as [env | | enabled | t env | child lines | child lines
                 | child message | child code signal]; cbn [step].
  - now rewrite start_keeps_autoReconnect, start_no_retry.
  - destruct (stop_keeps_policy w) as [E _]. now rewrite E, stop_no_retry.
  - destruct enabled; [discriminate | now split].
  - destruct (pending t w) as [[[] delay]|]; [| |now split].
    + now rewrite start_keeps_autoReconnect, start_no_retry.
    + unfold force_kill, retries. destruct (process (this (expire t w))); cbn;
        rewrite ?flat_map_app; cbn; rewrite ?app_nil_r; now split.
  - destruct (child <? List.length (children w))%nat; [|now split].
    destruct (on_stdout_calm child lines w) as (_ & _ & _ & R).
    destruct (on_stdout_policy child lines w) as [E _]. now rewrite R, E.
  - destruct (child <? List.length (children w))%nat; [|now split].
    pose proof (on_stderr_quiet lines w) as [Q _].
    pose proof (quiet_retries _ _ Q) as R. destruct Q as (E & _).
    now rewrite R, E.
  - destruct (child <? List.length (children w))%nat; [|now split].
    destruct (on_error_shape message w) as (w1 & E & Q & _).
    pose proof (quiet_retries _ _ Q) as R. destruct Q as (E1 & _).
    rewrite E, handleDisconnect_skipped by (right; congruence).
    split; congruence.
  - destruct (child <? List.length (children w))%nat; [|now split].
    destruct (exit_listeners_shape child code signal w) as (w1 & Q1 & Q2 & _).
    pose proof (quiet_retries _ _ Q1) as R1. destruct Q1 as (E1 & _).
    rewrite handleDisconnect_skipped in Q2 by (right; congruence).
    pose proof (quiet_retries _ _ Q2) as R2. destruct Q2 as (E2 & _).
    split; congruence.
Qed.

(** X22.  While auto-reconnect is disabled, that is until
    [setAutoReconnect(true)] is called, no retry is scheduled, whatever the
    processes do. *)
Theorem disabled_reconnect_schedules_nothing (w : World) (events : list Event) :
  autoReconnect (this w) = false ->
  forallb leaves_reconnect_off events = true ->
  autoReconnect (this (run events w)) = false
  /\ retries (run events w) = retries w.
Proof.
  unfold run. revert w. induction events as [|e events IH]; intros w Ha He;
    [now split|].
  cbn [forallb] in He. apply andb_prop in He as [He Hes]. cbn [fold_left].
  destruct (step_reconnect_off e w He Ha) as [A R].
  destruct (IH (step e w) A Hes) as [A' R']. split; [exact A' | congruence].
Qed.

Lemma disabled_reconnect_schedules_nothing_witness :
  retries (run [Proc_exit 0 (Some 1) None; Timeout 0 plain_env;
                Proc_error 0 "ENOENT"]
               (setAutoReconnect false started))
  = [].
Proof.
  exact (proj2 (disabled_reconnect_schedules_nothing
                  (setAutoReconnect false started)
                  [Proc_exit 0 (Some 1) None; Timeout 0 plain_env;
                   Proc_error 0 "ENOENT"]
                  eq_refl eq_refl)).
Defined.


Lemma told_same (w w' : World) (d : list Effect) :
  trace w' = trace w ++ d -> flat_map status_of d = [] ->
  process (this w') = process (this w) ->
  isRunning w = told_running w -> isRunning w' = told_running w'.
Proof.
  unfold isRunning, told_running, last_status. intros Ht Hd Hp H.
  now rewrite Ht, flat_map_app, Hd, app_nil_r, Hp.
Qed.

Lemma told_last (w w' : World) (d : list Effect) (before : list Status)
      (s : Status) :
  trace w' = trace w ++ d -> flat_map status_of d = before ++ [s] ->
  isRunning w' = match s with running => true | stopped => false end ->
  isRunning w' = told_running w'.
Proof.
  unfold told_running, last_status. intros Ht Hd Hp.
  now rewrite Ht, flat_map_app, Hd, app_assoc, last_last.
Qed.

Ltac told_nothing H :=
  first
    [ exact H
    | eapply told_same;
      [ cbn; rewrite <- ?app_assoc; reflexivity
      | reflexivity
      | cbn; try reflexivity; congruence
      | exact H ] ].

Lemma start_told (env : Env) (w : World) :
  isRunning w = told_running w ->
  isRunning (fst (start env w)) = told_running (fst (start env w)).
Proof.
  intros H. unfold start, binary_not_found, clear_reconnectTimer.
  destruct (process (this w)) eqn:Ep; [told_nothing H|].
  destruct (reconnectTimer (this w)); cbn [config set_intentionallyStopped
    on_this set_reconnectTimer clearTimeout];
    destruct (negb (valid (validateConfig (config w))));
    try (destruct (writeFileSync_throws env));
    try (destruct (findFrpcBinary env) as [path|]);
    try (destruct (negb (truthy_str path)));
    try (destruct (spawn_throws env));
    cbn [fst];
    try (told_nothing H);
    (eapply (told_last w _ _ [] running);
     [cbn; rewrite <- ?app_assoc; reflexivity | reflexivity | reflexivity]).
Qed.

Lemma stop_told (w : World) :
  isRunning w = told_running w ->
  isRunning (fst (stop w)) = told_running (fst (stop w)).
Proof.
  intros H. unfold stop, clear_reconnectTimer. cbn -[isRunning told_running].
  destruct (reconnectTimer (this w)); cbn -[isRunning told_running];
    destruct (process (this w)) eqn:Ep; cbn -[isRunning told_running];
    told_nothing H.
Qed.

Lemma force_kill_told (w : World) :
  isRunning w = told_running w ->
  isRunning (force_kill w) = told_running (force_kill w).
Proof.
  intros H. unfold force_kill. destruct (process (this w)) eqn:Ep;
    told_nothing H.
Qed.

Lemma on_stdout_told (child : nat) (lines : list string) :
  forall w, isRunning w = told_running w ->
  isRunning (on_stdout child lines w) = told_running (on_stdout child lines w).
Proof.
  unfold on_stdout.
  induction lines as [|line lines IH]; intros w H; cbn [fold_left]; [exact H|].
  apply IH. unfold stdout_line.
  destruct (is_success_line line);
    [destruct (negb (child_connected child (effect (Emit_log line) w)))|];
    told_nothing H.
Qed.

Lemma on_stderr_told (lines : list string) :
  forall w, isRunning w = told_running w ->
  isRunning (on_stderr lines w) = told_running (on_stderr lines w).
Proof.
  unfold on_stderr.
  induction lines as [|line lines IH]; intros w H; cbn [fold_left]; [exact H|].
  apply IH. told_nothing H.
Qed.

Lemma handleDisconnect_told (w : World) :
  isRunning w = told_running w ->
  isRunning (handleDisconnect w) = told_running (handleDisconnect w).
Proof.
  intros H. unfold handleDisconnect.
  destruct (intentionallyStopped (this w) || negb (autoReconnect (this w)));
    [exact H|].
  destruct (reconnectAttempts (this w) >=? maxReconnectAttempts);
    told_nothing H.
Qed.

Lemma stop_listeners_told (once : list nat) :
  forall w, isRunning w = told_running w ->
  isRunning (fold_left stop_exit_listener once w)
  = told_running (fold_left stop_exit_listener once w).
Proof.
  induction once as [|t once IH]; intros w H; cbn [fold_left]; [exact H|].
  apply IH. unfold stop_exit_listener.
  eapply (told_last w _ _ [] stopped);
    [cbn; rewrite <- ?app_assoc; reflexivity | reflexivity | reflexivity].
Qed.

Lemma step_told (e : Event) (w : World) :
  isRunning w = told_running w ->
  isRunning (step e w) = told_running (step e w).
Proof.
  intros H.
  destruct e as [env | | enabled | t env | child lines | child lines
                 | child message | child code signal]; cbn [step].
  - now apply start_told.
  - now apply stop_told.
  - exact H.
  - destruct (pending t w) as [[[] delay]|]; [| |exact H].
    + apply start_told. exact H.
    + apply force_kill_told. exact H.
  - destruct (child <? List.length (children w))%nat; [|exact H].
    now apply on_stdout_told.
  - destruct (child <? List.length (children w))%nat; [|exact H].
    now apply on_stderr_told.
  - destruct (child <? List.length (children w))%nat; [|exact H].
    unfold on_error. apply handleDisconnect_told.
    eapply (told_last w _ _ [] stopped);
      [cbn; rewrite <- ?app_assoc; reflexivity | reflexivity | reflexivity].
  - destruct (child <? List.length (children w))%nat; [|exact H].
    unfold exit_listeners. apply stop_listeners_told.
    match goal with
    | |- isRunning (set_children _ ?w1) = told_running (set_children _ ?w1) =>
        change (isRunning w1 = told_running w1)
    end.
    unfold on_exit. apply handleDisconnect_told.
    unfold child_connected.
    destruct code as [k|]; [destruct (negb (k =? 0))|];
      cbn [children effect set_process set_lastError on_this];
      destruct (nth_error (children w) child) as [[[] o]|];
      (eapply (told_last w _ _ [] stopped);
       [cbn; rewrite <- ?app_assoc; reflexivity | reflexivity | reflexivity]).
Qed.

(** X23.  Whatever happens to a new supervisor, [isRunning()] is true
    exactly when the status emitted last is [running]: a window that follows
    the status events shows what the supervisor holds. *)
Theorem status_events_follow_the_process (c : AppConfig) (events : list Event) :
  isRunning (run events (new_world c)) = told_running (run events (new_world c))
  /\ is_running (getStatus (run events (new_world c)))
     = told_running (run events (new_world c)).
Proof.
  assert (H : isRunning (run events (new_world c))
              = told_running (run events (new_world c))).
  { assert (B : isRunning (new_world c) = told_running (new_world c))
      by reflexivity.
    revert B. generalize (new_world c). unfold run.
    induction events as [|e events IH]; intros w B; [exact B|].
    cbn [fold_left]. apply IH, step_told, B. }
  split; exact H.
Qed.


Lemma step_dormant (c : AppConfig) (e : Event) (w : World) :
  valid (validateConfig c) = false -> dormant c w -> dormant c (step e w).
Proof.
  intros Hv D. pose proof D as (Hc & Hk & Ht & Hp & Hs & Hw & Hr).
  unfold dormant, retries in *.
  destruct e as [env | | enabled | t env | child lines | child lines
                 | child message | child code signal]; cbn [step].
  - unfold start, clear_reconnectTimer. rewrite Hp.
    destruct (reconnectTimer (this w)); cbn [config set_intentionallyStopped
      on_this set_reconnectTimer clearTimeout]; rewrite Hc, Hv; cbn;
      rewrite ?filter_app, ?flat_map_app, Hs, Hw, Hr, ?Ht; cbn;
      repeat split; assumption.
  - unfold stop, clear_reconnectTimer. cbn.
    destruct (reconnectTimer (this w)); cbn; rewrite Hp; cbn;
      rewrite ?filter_app, ?flat_map_app, Hs, Hw, Hr, ?Ht; cbn;
      repeat split; assumption.
  - exact D.
  - unfold pending. rewrite Ht. exact D.
  - rewrite Hk. exact D.
  - rewrite Hk. exact D.
  - rewrite Hk. exact D.
  - rewrite Hk. exact D.
Qed.

(** X24.  With a configuration that does not validate, and that stays as it
    is, the supervisor never writes the frpc file, never spawns a process,
    never schedules a retry and never holds a process, whatever is asked of
    it. *)
Theorem invalid_config_never_spawns (c : AppConfig) (events : list Event) :
  valid (validateConfig c) = false ->
  count is_spawn (run events (new_world c)) = O
  /\ count is_write (run events (new_world c)) = O
  /\ retries (run events (new_world c)) = []
  /\ isRunning (run events (new_world c)) = false.
Proof.
  intros Hv.
  assert (D : dormant c (run events (new_world c))).
  { assert (B : dormant c (new_world c)) by (repeat split).
    revert B. generalize (new_world c). unfold run.
    induction events as [|e events IH]; intros w B; [exact B|].
    cbn [fold_left]. apply IH, step_dormant; assumption. }
  destruct D as (_ & _ & _ & Hp & Hs & Hw & Hr).
  unfold count, isRunning. now rewrite Hs, Hw, Hp.
Qed.

Lemma invalid_config_never_spawns_witness :
  count is_spawn
        (run [Call_start plain_env; Call_stop; Timeout 0 plain_env;
              Call_start plain_env]
             (new_world no_address))
  = O.
Proof.
  exact (proj1 (invalid_config_never_spawns
                  no_address
                  [Call_start plain_env; Call_stop; Timeout 0 plain_env;
                   Call_start plain_env]
                  eq_refl)).
Defined.


(** ** FrpcManager.stop with a process running *)

Lemma unschedule_In (t : nat) (l : list (nat * (TimerAction * Z))) (p : _) :
  In p (unschedule t l) -> In p l.
Proof. unfold unschedule. intros H. now apply filter_In in H. Qed.

Lemma clear_reconnectTimer_well_formed (w : World) :
  well_formed w -> well_formed (clear_reconnectTimer w).
Proof.
  intros [Hp Ht]. unfold clear_reconnectTimer.
  destruct (reconnectTimer (this w)); [|now split].
  split; cbn; [exact Hp|]. intros p Hin. apply Ht, (unschedule_In _ _ _ Hin).
Qed.

Lemma clear_reconnectTimer_next (w : World) :
  next_timer (clear_reconnectTimer w) = next_timer w.
Proof. unfold clear_reconnectTimer. now destruct (reconnectTimer (this w)). Qed.

Lemma start_well_formed (env : Env) (w : World) :
  well_formed w -> well_formed (fst (start env w)).
Proof.
  intros [Hp Ht]. unfold start, binary_not_found, clear_reconnectTimer.
  destruct (process (this w)) eqn:Ep;
    [split; cbn; [rewrite Ep; exact Hp | exact Ht]|].
  destruct (reconnectTimer (this w)); cbn [config set_intentionallyStopped
    on_this set_reconnectTimer clearTimeout];
    destruct (negb (valid (validateConfig (config w))));
    try (destruct (writeFileSync_throws env));
    try (destruct (findFrpcBinary env) as [path|]);
    try (destruct (negb (truthy_str path)));
    try (destruct (spawn_throws env));
    (split; cbn;
     [ intros child E;
       first [ discriminate E | congruence
             | injection E as <-; rewrite length_app; cbn; lia ]
     | intros p Hin; try apply unschedule_In in Hin; now apply Ht ]).
Qed.

Lemma stop_well_formed (w : World) :
  well_formed w -> well_formed (fst (stop w)).
Proof.
  intros W. unfold stop.
  assert (W0 : well_formed (set_intentionallyStopped true w)) by exact W.
  apply clear_reconnectTimer_well_formed in W0. destruct W0 as [Hp Ht].
  destruct (process (this (clear_reconnectTimer (set_intentionallyStopped true w))))
    as [child|] eqn:Ep; [|split; cbn; [rewrite Ep; discriminate | exact Ht]].
  split; cbn.
  - rewrite Ep, update_child_length. exact Hp.
  - intros p Hin. apply in_app_or in Hin as [Hin | [<- | []]];
      [specialize (Ht p Hin); lia | cbn; lia].
Qed.

Lemma handleDisconnect_well_formed (w : World) :
  well_formed w -> well_formed (handleDisconnect w).
Proof.
  intros [Hp Ht]. unfold handleDisconnect.
  destruct (intentionallyStopped (this w) || negb (autoReconnect (this w)));
    [now split|].
  destruct (reconnectAttempts (this w) >=? maxReconnectAttempts);
    [now split|].
  split; cbn; [exact Hp|].
  intros p Hin. apply in_app_or in Hin as [Hin | [<- | []]];
    [specialize (Ht p Hin); lia | cbn; lia].
Qed.

Lemma on_stdout_well_formed (child : nat) (lines : list string) :
  forall w, well_formed w -> well_formed (on_stdout child lines w).
Proof.
  unfold on_stdout.
  induction lines as [|line lines IH]; intros w W; cbn [fold_left]; [exact W|].
  apply IH. destruct W as [Hp Ht]. unfold stdout_line.
  destruct (is_success_line line);
    [destruct (negb (child_connected child (effect (Emit_log line) w)))|];
    split; cbn; rewrite ?update_child_length; assumption.
Qed.

Lemma on_stderr_well_formed (lines : list string) :
  forall w, well_formed w -> well_formed (on_stderr lines w).
Proof.
  unfold on_stderr.
  induction lines as [|line lines IH]; intros w W; cbn [fold_left]; [exact W|].
  apply IH. exact W.
Qed.

Lemma stop_listeners_well_formed (once : list nat) :
  forall w, well_formed w -> well_formed (fold_left stop_exit_listener once w).
Proof.
  induction once as [|t once IH]; intros w W; cbn [fold_left]; [exact W|].
  apply IH. destruct W as [Hp Ht]. split; cbn; [discriminate|].
  intros p Hin. apply Ht, (unschedule_In _ _ _ Hin).
Qed.

Lemma step_well_formed (e : Event) (w : World) :
  well_formed w -> well_formed (step e w).
Proof.
  intros W. pose proof W as [Hp Ht].
  destruct e as [env | | enabled | t env | child lines | child lines
                 | child message | child code signal]; cbn [step].
  - now apply start_well_formed.
  - now apply stop_well_formed.
  - exact W.
  - assert (We : well_formed (expire t w)).
    { split; cbn; [exact Hp|]. intros p Hin. apply Ht, (unschedule_In _ _ _ Hin). }
    destruct (pending t w) as [[[] delay]|]; [| |exact W].
    + now apply start_well_formed.
    + unfold force_kill. destruct (process (this (expire t w))); exact We.
  - destruct (child <? List.length (children w))%nat; [|exact W].
    now apply on_stdout_well_formed.
  - destruct (child <? List.length (children w))%nat; [|exact W].
    now apply on_stderr_well_formed.
  - destruct (child <? List.length (children w))%nat; [|exact W].
    unfold on_error. apply handleDisconnect_well_formed.
    split; cbn; [discriminate | exact Ht].
  - destruct (child <? List.length (children w))%nat; [|exact W].
    unfold exit_listeners. apply stop_listeners_well_formed.
    destruct (on_exit_shape child code signal w) as (w1 & E & _ & P1 & _ & T1 & N1 & C1).
    rewrite E.
    assert (W1 : well_formed (handleDisconnect w1)).
    { apply handleDisconnect_well_formed. split.
      - rewrite P1. discriminate.
      - rewrite T1, N1. exact Ht. }
    destruct W1 as [Hp1 Ht1]. split; cbn.
    + rewrite update_child_length. exact Hp1.
    + exact Ht1.
Qed.

Lemma run_well_formed (c : AppConfig) (events : list Event) :
  well_formed (run events (new_world c)).
Proof.
  assert (B : well_formed (new_world c)).
  { split; cbn; [discriminate | intros p []]. }
  revert B. generalize (new_world c). unfold run.
  induction events as [|e events IH]; intros w B; [exact B|].
  cbn [fold_left]. apply IH, step_well_formed, B.
Qed.

Lemma find_fresh (t : nat) (a : TimerAction * Z)
      (l : list (nat * (TimerAction * Z))) :
  (forall p, In p l -> (fst p < t)%nat) ->
  find (fun p => (fst p =? t)%nat) (l ++ [(t, a)]) = Some (t, a).
Proof.
  induction l as [|q l IH]; intros H; cbn [app find].
  - cbn. now rewrite Nat.eqb_refl.
  - specialize (H q (or_introl eq_refl)) as Hq.
    destruct (Nat.eqb_spec (fst q) t) as [E | E]; [lia|].
    apply IH. intros p Hin. apply H. now right.
Qed.

Lemma find_unscheduled (t : nat) (l : list (nat * (TimerAction * Z))) :
  find (fun p => (fst p =? t)%nat) (unschedule t l) = None.
Proof.
  unfold unschedule. induction l as [|q l IH]; [reflexivity|]. cbn [filter].
  destruct (fst q =? t)%nat eqn:E; cbn [negb find]; [exact IH|].
  now rewrite E.
Qed.

Lemma fold_left_snoc {A B : Type} (f : A -> B -> A) (l : list B) (b : B) (a : A) :
  fold_left f (l ++ [b]) a = f (fold_left f l a) b.
Proof. now rewrite fold_left_app. Qed.

Lemma stop_running (w : World) (child : nat) :
  well_formed w -> process (this w) = Some child ->
  snd (stop w) = Pending
  /\ trace (fst (stop w))
     = trace w ++ clearing (reconnectTimer (this w))
         ++ [ Emit_log "[GUI] Stopping frpc...";
              SetTimeout (next_timer w) ForceKill 5000;
              Kill child SIGTERM ]
  /\ process (this (fst (stop w))) = Some child
  /\ intentionallyStopped (this (fst (stop w))) = true
  /\ pending (next_timer w) (fst (stop w)) = Some (ForceKill, 5000)
  /\ (child < List.length (children (fst (stop w))))%nat
  /\ exists c,
       nth_error (children (fst (stop w))) child
       = Some (mkChild (connected c) (exitOnce c ++ [next_timer w])).
Proof.
  intros W Hp.
  assert (W0 : well_formed (set_intentionallyStopped true w)) by exact W.
  apply clear_reconnectTimer_well_formed in W0. destruct W0 as [Hp0 Ht0].
  pose proof (clear_reconnectTimer_fields (set_intentionallyStopped true w))
    as (Fp & _ & _ & _ & Fs & _ & _ & Fc).
  pose proof (clear_reconnectTimer_trace (set_intentionallyStopped true w)) as Ft.
  pose proof (clear_reconnectTimer_next (set_intentionallyStopped true w)) as Fn.
  cbn [set_intentionallyStopped on_this this process intentionallyStopped
       children trace reconnectTimer next_timer] in Fp, Fs, Fc, Ft, Fn.
  unfold stop.
  set (w0 := clear_reconnectTimer (set_intentionallyStopped true w)) in *.
  rewrite Fp, Hp. rewrite Fp, Hp in Hp0.
  specialize (Hp0 child eq_refl).
  cbn -[clear_reconnectTimer]. rewrite Fn in *.
  destruct (nth_error (children w0) child) as [c|] eqn:En;
    [|apply nth_error_None in En; lia].
  repeat split.
  - rewrite Ft, <- !app_assoc. reflexivity.
  - rewrite Fp. exact Hp.
  - exact Fs.
  - unfold pending. cbn [timers effect set_children].
    rewrite (find_fresh _ _ _ Ht0). reflexivity.
  - cbn [children effect set_children]. rewrite update_child_length. exact Hp0.
  - exists c. cbn [children effect set_children].
    exact (update_child_nth
             (fun c0 => mkChild (connected c0) (exitOnce c0 ++ [next_timer w]))
             _ _ _ En).
Qed.

(** X25.  [stop()] with a process running sends it SIGTERM and sets a timer
    of 5000 ms, and its promise stays pending. If the timer fires while the
    process is still held, SIGKILL is sent. If the process exits first, the
    timer is cleared and never fires, the supervisor no longer runs, and no
    retry is scheduled for the exit. *)
Theorem stop_terminates_then_kills (c : AppConfig) (events : list Event)
        (child : nat) :
  process (this (run events (new_world c))) = Some child ->
  snd (stop (run events (new_world c))) = Pending
  /\ trace (fst (stop (run events (new_world c))))
     = trace (run events (new_world c))
         ++ clearing (reconnectTimer (this (run events (new_world c))))
         ++ [ Emit_log "[GUI] Stopping frpc...";
              SetTimeout (next_timer (run events (new_world c))) ForceKill 5000;
              Kill child SIGTERM ]
  /\ (forall env,
        trace (run [Call_stop;
                    Timeout (next_timer (run events (new_world c))) env]
                   (run events (new_world c)))
        = trace (fst (stop (run events (new_world c))))
            ++ [ Emit_log "[GUI] Force killing frpc..."; Kill child SIGKILL ])
  /\ (forall code signal,
        isRunning (run [Call_stop; Proc_exit child code signal]
                       (run events (new_world c))) = false
        /\ pending (next_timer (run events (new_world c)))
                   (run [Call_stop; Proc_exit child code signal]
                        (run events (new_world c))) = None
        /\ retries (run [Call_stop; Proc_exit child code signal]
                        (run events (new_world c)))
           = retries (run events (new_world c))
        /\ forall env,
             run [Call_stop; Proc_exit child code signal;
                  Timeout (next_timer (run events (new_world c))) env]
                 (run events (new_world c))
             = run [Call_stop; Proc_exit child code signal]
                   (run events (new_world c))).
Proof.
  pose proof (run_well_formed c events) as W.
  generalize dependent (run events (new_world c)). intros w W Hp.
  destruct (stop_running w child W Hp) as (S1 & S2 & S3 & S4 & S5 & S6 & k & S7).
  split; [exact S1|]. split; [exact S2|]. split.
  - intros env. unfold run. cbn [fold_left step]. rewrite S5.
    unfold force_kill. cbn [expire this process]. rewrite S3. cbn.
    now rewrite <- app_assoc.
  - intros code signal. unfold run. cbn [fold_left].
    change (step Call_stop w) with (fst (stop w)).
    set (w1 := fst (stop w)) in *.
    assert (E2 : step (Proc_exit child code signal) w1
                 = exit_listeners child code signal w1).
    { cbn [step]. apply Nat.ltb_lt in S6. now rewrite S6. }
    rewrite E2.
    destruct (exit_listeners_shape child code signal w1)
      as (w1' & Q1 & Q2 & _).
    assert (Hskip : handleDisconnect w1' = w1').
    { apply handleDisconnect_skipped. left.
      destruct Q1 as (_ & _ & E & _). congruence. }
    rewrite Hskip in Q2.
    assert (R : retries (exit_listeners child code signal w1) = retries w).
    { rewrite (quiet_retries _ _ Q2), (quiet_retries _ _ Q1). apply stop_no_retry. }
    assert (L : exists w3,
               exit_listeners child code signal w1
               = stop_exit_listener w3 (next_timer w)).
    { unfold exit_listeners.
      destruct (on_exit_shape child code signal w1)
        as (w2 & E & Q & _ & _ & _ & _ & C2).
      rewrite E, handleDisconnect_skipped
        by (left; destruct Q as (_ & _ & Es & _); congruence).
      rewrite C2, S7. cbn [exitOnce]. rewrite fold_left_snoc.
      eexists. reflexivity. }
    destruct L as (w3 & L).
    assert (P : pending (next_timer w) (exit_listeners child code signal w1) = None).
    { rewrite L. unfold pending, stop_exit_listener. cbn [timers effect set_process
        on_this clearTimeout]. now rewrite find_unscheduled. }
    repeat split.
    + rewrite L. reflexivity.
    + exact P.
    + exact R.
    + intros env. cbn [step]. now rewrite P.
Qed.

Lemma stop_terminates_then_kills_witness :
  snd (stop (run [Call_start plain_env] (new_world home))) = Pending.
Proof.
  exact (proj1 (stop_terminates_then_kills home [Call_start plain_env] O
                  eq_refl)).
Defined.


(** ** FrpcManager: what is reported when a process ends *)

Lemma handleDisconnect_no_disconnect_notice (w : World) :
  count (is_notification "FRP Disconnected") (handleDisconnect w)
  = count (is_notification "FRP Disconnected") w.
Proof.
  unfold handleDisconnect, count.
  destruct (intentionallyStopped (this w) || negb (autoReconnect (this w)));
    [reflexivity|].
  destruct (reconnectAttempts (this w) >=? maxReconnectAttempts);
    cbn; rewrite ?filter_app, ?length_app; cbn; lia.
Qed.

Lemma stop_listeners_report (once : list nat) :
  forall w,
    process (this w) = None ->
    process (this (fold_left stop_exit_listener once w)) = None
    /\ lastError (this (fold_left stop_exit_listener once w)) = lastError (this w)
    /\ count (is_notification "FRP Disconnected")
             (fold_left stop_exit_listener once w)
       = count (is_notification "FRP Disconnected") w.
Proof.
  induction once as [|t once IH]; intros w Hp; cbn [fold_left];
    [now repeat split|].
  destruct (IH (stop_exit_listener w t) eq_refl) as (I1 & I2 & I3).
  rewrite I1, I2, I3. unfold stop_exit_listener, count. cbn.
  rewrite !filter_app, !length_app. cbn. repeat split. lia.
Qed.

(** X26.  When a spawned process exits, [getStatus()] reports that nothing
    runs, with "frpc exited with code n" as the last error for a code n
    other than 0 and the last error as it was for the code 0 and for an exit
    by a signal; the notification "FRP Disconnected" is shown exactly when
    the process had connected. When a spawned process fails with an error,
    [getStatus()] reports that nothing runs and "Failed to start frpc: ..."
    as the last error. *)
Theorem status_after_process_ends (w : World) (child : nat) :
  (child < List.length (children w))%nat ->
  (forall code signal,
      getStatus (step (Proc_exit child code signal) w)
      = mkFrpcStatus false
          match code with
          | Some n => if n =? 0 then lastError (this w)
                      else Some ("frpc exited with code " ++ show n)%string
          | None => lastError (this w)
          end
      /\ count (is_notification "FRP Disconnected")
               (step (Proc_exit child code signal) w)
         = (count (is_notification "FRP Disconnected") w
            + if child_connected child w then 1 else 0)%nat)
  /\ (forall message,
        getStatus (step (Proc_error child message) w)
        = mkFrpcStatus false (Some ("Failed to start frpc: " ++ message)%string)
        /\ count (is_notification "FRP Disconnected")
                 (step (Proc_error child message) w)
           = count (is_notification "FRP Disconnected") w).
Proof.
  intros Hc. apply Nat.ltb_lt in Hc. split.
  - intros code signal. cbn [step]. rewrite Hc.
    unfold exit_listeners, getStatus, isRunning.
    match goal with
    | |- context [fold_left stop_exit_listener ?once ?w2] =>
        assert (P2 : process (this w2) = None);
        [|destruct (stop_listeners_report once w2 P2) as (L1 & L2 & L3);
          rewrite L1, L2, L3]
    end.
    + cbn [set_children this].
      destruct (on_exit_shape child code signal w) as (w1 & E & _ & P1 & _).
      rewrite E. destruct (handleDisconnect_keeps w1) as [_ K1]. now rewrite K1.
    + change (lastError (this (set_children ?cs ?x))) with (lastError (this x)).
      change (count ?p (set_children ?cs ?x)) with (count p x).
      unfold on_exit.
      match goal with
      | |- context [handleDisconnect ?x] =>
          destruct (handleDisconnect_keeps x) as [K _];
          rewrite K, (handleDisconnect_no_disconnect_notice x)
      end.
      unfold child_connected, count.
      destruct code as [k|]; [destruct (k =? 0)|];
        cbn [children effect set_process set_lastError on_this negb];
        destruct (nth_error (children w) child) as [[[] o]|];
        cbn; rewrite ?filter_app, ?length_app; cbn; split;
        try reflexivity; lia.
  - intros message. cbn [step]. rewrite Hc.
    unfold on_error, getStatus, isRunning.
    match goal with
    | |- context [handleDisconnect ?x] =>
        destruct (handleDisconnect_keeps x) as [K1 K2];
        rewrite K1, K2, (handleDisconnect_no_disconnect_notice x)
    end.
    unfold count. cbn. rewrite !filter_app, !length_app. cbn. split;
      [reflexivity | lia].
Qed.

Lemma status_after_process_ends_witness :
  getStatus (step (Proc_exit 0 (Some 1) None) started)
  = mkFrpcStatus false (Some "frpc exited with code 1").
Proof.
  exact (proj1 (proj1 (status_after_process_ends started 0 ltac:(cbn; lia))
                  (Some 1) None)).
Defined.
